(** * ArcLang MCP server: orchestration core

    A shallow embedding of the Python sources under
    [mcp-server/src/arclang_mcp] (compiler wrapper, generation facade, tool
    groups, dispatcher, configuration, declared tools and resources) and of
    the diagram script [generate_svg.py], with the properties of the
    specification checked against it and further properties of the code.

    Conventions of the embedding.
    - A Python [str] is a [string] that holds the bytes of its UTF-8
      encoding (a text with a lone surrogate has none, and is outside the
      embedding). [len], slices, [strip()], [split()], [upper()] and
      [int()] work on characters, with the blanks, the decimal digits and
      the upper-case mappings of Unicode 15.0, the version of CPython
      3.12; [split(sep)], [rstrip(ch)] and [in] work on bytes, which is
      exact for ASCII separators and for any needle. [lower()],
      [capitalize()] and [repr] are exact on ASCII text and leave the
      characters outside ASCII as they are.
    - A Python [int] is a [Z].
    - A raised exception is a value of [exn]; a function that may raise
      returns a [Result]; a coroutine that may also reach outside the
      process returns an [M], which adds the trace of what it did.
    - The collaborators outside the repository (the compiler binary, the
      generative backend, [pathlib], [os], [json.loads]) are the fields of
      a [World]. *)

From Stdlib Require Import ZArith String Ascii List DecimalString.
From Stdlib Require DecimalPos.
From stdpp Require Import base option list strings gmap.

Local Open Scope string_scope.
Local Open Scope Z_scope.

(** ** Characters and strings *)

Module PyStr.

Definition nl : string := String "010"%char EmptyString.
Definition dq : string := String "034"%char EmptyString.

Definition code (c : ascii) : Z := Z.of_nat (nat_of_ascii c).
Definition byte (n : Z) : ascii := ascii_of_nat (Z.to_nat n).

(** [s.split(sep)] for a separator of one ASCII character. *)
Fixpoint split (sep : ascii) (s : string) : list string :=
  match s with
  | EmptyString => [EmptyString]
  | String c t =>
      if Ascii.eqb c sep then EmptyString :: split sep t
      else match split sep t with
           | [] => [String c EmptyString]
           | h :: r => String c h :: r
           end
  end.

(** [xs[-1]] on the list a [split] returns (never empty). *)
Definition last_item (xs : list string) : string := List.last xs EmptyString.

(** [needle in hay]. *)
Fixpoint contains (needle hay : string) : bool :=
  String.prefix needle hay ||
  match hay with
  | EmptyString => false
  | String _ t => contains needle t
  end.

Fixpoint lstrip_by (p : ascii -> bool) (s : string) : string :=
  match s with
  | EmptyString => EmptyString
  | String c t => if p c then lstrip_by p t else s
  end.

Fixpoint rstrip_by (p : ascii -> bool) (s : string) : string :=
  match s with
  | EmptyString => EmptyString
  | String c t =>
      match rstrip_by p t with
      | EmptyString => if p c then EmptyString else String c EmptyString
      | t' => String c t'
      end
  end.

(** [s.rstrip(ch)] for one ASCII character. *)
Definition rstrip_char (ch : ascii) (s : string) : string := rstrip_by (Ascii.eqb ch) s.

(** [sep.join(xs)]. *)
Fixpoint join (sep : string) (xs : list string) : string :=
  match xs with
  | [] => EmptyString
  | [x] => x
  | x :: r => x ++ sep ++ join sep r
  end.

Definition concat (xs : list string) : string := fold_right String.append EmptyString xs.

(** *** Characters

    A character of a text is a byte that is not a continuation byte of
    UTF-8, with the continuation bytes that follow it. *)

Definition is_continuation (c : ascii) : bool :=
  let n := code c in (128 <=? n) && (n <? 192).

Definition continues (s : string) : bool :=
  match s with
  | String c _ => is_continuation c
  | EmptyString => false
  end.

(** The characters of a text, in order. *)
Fixpoint chars (s : string) : list string :=
  match s with
  | EmptyString => []
  | String c t =>
      if continues t
      then match chars t with
           | g :: rest => String c g :: rest
           | [] => [String c EmptyString]
           end
      else String c EmptyString :: chars t
  end.

(** [len(s)] and [s[:n]]. *)
Definition len (s : string) : nat := List.length (chars s).
Definition take (n : nat) (s : string) : string := concat (List.firstn n (chars s)).

(** The UTF-8 encoding of a code point. *)
Definition utf8 (cp : Z) : string :=
  if cp <? 128 then String (byte cp) EmptyString
  else if cp <? 2048 then
    String (byte (192 + cp / 64)) (String (byte (128 + cp mod 64)) EmptyString)
  else if cp <? 65536 then
    String (byte (224 + cp / 4096))
      (String (byte (128 + (cp / 64) mod 64)) (String (byte (128 + cp mod 64)) EmptyString))
  else
    String (byte (240 + cp / 262144))
      (String (byte (128 + (cp / 4096) mod 64))
         (String (byte (128 + (cp / 64) mod 64))
            (String (byte (128 + cp mod 64)) EmptyString))).

(** [ord(ch)] of a character; [-1] for bytes that encode no character. *)
Definition ord (ch : string) : Z :=
  let cp :=
    match ch with
    | String a EmptyString => code a
    | String a (String b EmptyString) => (code a - 192) * 64 + (code b - 128)
    | String a (String b (String c EmptyString)) =>
        (code a - 224) * 4096 + (code b - 128) * 64 + (code c - 128)
    | String a (String b (String c (String d EmptyString))) =>
        (code a - 240) * 262144 + (code b - 128) * 4096 + (code c - 128) * 64
        + (code d - 128)
    | _ => -1
    end in
  if (0 <=? cp) && String.eqb (utf8 cp) ch then cp else -1.

(** The characters [str.isspace] accepts, which [strip()] and [split()]
    take for blanks: TAB..CR, FS..US, the blank, and the blanks outside
    ASCII. *)
Definition whitespace : list Z :=
  [ 9; 10; 11; 12; 13; 28; 29; 30; 31; 32; 133; 160; 5760; 8192; 8193; 8194; 8195; 8196;
    8197; 8198; 8199; 8200; 8201; 8202; 8232; 8233; 8239; 8287; 12288 ].

Definition isspace (ch : string) : bool := List.existsb (Z.eqb (ord ch)) whitespace.

Fixpoint drop_while {A} (p : A -> bool) (xs : list A) : list A :=
  match xs with
  | [] => []
  | x :: rest => if p x then drop_while p rest else xs
  end.

(** [s.strip()]. *)
Definition strip (s : string) : string :=
  concat (List.rev (drop_while isspace (List.rev (drop_while isspace (chars s))))).

(** [s.split()]: the maximal runs of characters that are not blanks. *)
Fixpoint words_from (cur : string) (cs : list string) : list string :=
  match cs with
  | [] => match cur with EmptyString => [] | _ => [cur] end
  | ch :: rest =>
      if isspace ch
      then match cur with
           | EmptyString => words_from EmptyString rest
           | _ => cur :: words_from EmptyString rest
           end
      else words_from (cur ++ ch) rest
  end.
Definition split_ws (s : string) : list string := words_from EmptyString (chars s).

(** The upper case of the characters that have one of a single character:
    [(first, last, step, delta)] stands for the characters [first],
    [first + step], ..., [last], each with the upper case [delta] further. *)
Definition upper_ranges : list (Z * Z * Z * Z) :=
  [ (97, 122, 1, -32); (181, 181, 1, 743); (224, 246, 1, -32); (248, 254, 1, -32);
    (255, 255, 1, 121); (257, 303, 2, -1); (305, 305, 1, -232); (307, 311, 2, -1);
    (314, 328, 2, -1); (331, 375, 2, -1); (378, 382, 2, -1); (383, 383, 1, -300);
    (384, 384, 1, 195); (387, 389, 2, -1); (392, 392, 1, -1); (396, 396, 1, -1);
    (402, 402, 1, -1); (405, 405, 1, 97); (409, 409, 1, -1); (410, 410, 1, 163);
    (414, 414, 1, 130); (417, 421, 2, -1); (424, 424, 1, -1); (429, 429, 1, -1);
    (432, 432, 1, -1); (436, 438, 2, -1); (441, 441, 1, -1); (445, 445, 1, -1);
    (447, 447, 1, 56); (453, 453, 1, -1); (454, 454, 1, -2); (456, 456, 1, -1);
    (457, 457, 1, -2); (459, 459, 1, -1); (460, 460, 1, -2); (462, 476, 2, -1);
    (477, 477, 1, -79); (479, 495, 2, -1); (498, 498, 1, -1); (499, 499, 1, -2);
    (501, 501, 1, -1); (505, 543, 2, -1); (547, 563, 2, -1); (572, 572, 1, -1);
    (575, 576, 1, 10815); (578, 578, 1, -1); (583, 591, 2, -1); (592, 592, 1, 10783);
    (593, 593, 1, 10780); (594, 594, 1, 10782); (595, 595, 1, -210); (596, 596, 1, -206);
    (598, 599, 1, -205); (601, 601, 1, -202); (603, 603, 1, -203); (604, 604, 1, 42319);
    (608, 608, 1, -205); (609, 609, 1, 42315); (611, 611, 1, -207); (613, 613, 1, 42280);
    (614, 614, 1, 42308); (616, 616, 1, -209); (617, 617, 1, -211); (618, 618, 1, 42308);
    (619, 619, 1, 10743); (620, 620, 1, 42305); (623, 623, 1, -211); (625, 625, 1, 10749);
    (626, 626, 1, -213); (629, 629, 1, -214); (637, 637, 1, 10727); (640, 640, 1, -218);
    (642, 642, 1, 42307); (643, 643, 1, -218); (647, 647, 1, 42282); (648, 648, 1, -218);
    (649, 649, 1, -69); (650, 651, 1, -217); (652, 652, 1, -71); (658, 658, 1, -219);
    (669, 669, 1, 42261); (670, 670, 1, 42258); (837, 837, 1, 84); (881, 883, 2, -1);
    (887, 887, 1, -1); (891, 893, 1, 130); (940, 940, 1, -38); (941, 943, 1, -37);
    (945, 961, 1, -32); (962, 962, 1, -31); (963, 971, 1, -32); (972, 972, 1, -64);
    (973, 974, 1, -63); (976, 976, 1, -62); (977, 977, 1, -57); (981, 981, 1, -47);
    (982, 982, 1, -54); (983, 983, 1, -8); (985, 1007, 2, -1); (1008, 1008, 1, -86);
    (1009, 1009, 1, -80); (1010, 1010, 1, 7); (1011, 1011, 1, -116); (1013, 1013, 1, -96);
    (1016, 1016, 1, -1); (1019, 1019, 1, -1); (1072, 1103, 1, -32); (1104, 1119, 1, -80);
    (1121, 1153, 2, -1); (1163, 1215, 2, -1); (1218, 1230, 2, -1); (1231, 1231, 1, -15);
    (1233, 1327, 2, -1); (1377, 1414, 1, -48); (4304, 4346, 1, 3008);
    (4349, 4351, 1, 3008); (5112, 5117, 1, -8); (7296, 7296, 1, -6254);
    (7297, 7297, 1, -6253); (7298, 7298, 1, -6244); (7299, 7300, 1, -6242);
    (7301, 7301, 1, -6243); (7302, 7302, 1, -6236); (7303, 7303, 1, -6181);
    (7304, 7304, 1, 35266); (7545, 7545, 1, 35332); (7549, 7549, 1, 3814);
    (7566, 7566, 1, 35384); (7681, 7829, 2, -1); (7835, 7835, 1, -59); (7841, 7935, 2, -1);
    (7936, 7943, 1, 8); (7952, 7957, 1, 8); (7968, 7975, 1, 8); (7984, 7991, 1, 8);
    (8000, 8005, 1, 8); (8017, 8023, 2, 8); (8032, 8039, 1, 8); (8048, 8049, 1, 74);
    (8050, 8053, 1, 86); (8054, 8055, 1, 100); (8056, 8057, 1, 128); (8058, 8059, 1, 112);
    (8060, 8061, 1, 126); (8112, 8113, 1, 8); (8126, 8126, 1, -7205); (8144, 8145, 1, 8);
    (8160, 8161, 1, 8); (8165, 8165, 1, 7); (8526, 8526, 1, -28); (8560, 8575, 1, -16);
    (8580, 8580, 1, -1); (9424, 9449, 1, -26); (11312, 11359, 1, -48);
    (11361, 11361, 1, -1); (11365, 11365, 1, -10795); (11366, 11366, 1, -10792);
    (11368, 11372, 2, -1); (11379, 11379, 1, -1); (11382, 11382, 1, -1);
    (11393, 11491, 2, -1); (11500, 11502, 2, -1); (11507, 11507, 1, -1);
    (11520, 11557, 1, -7264); (11559, 11559, 1, -7264); (11565, 11565, 1, -7264);
    (42561, 42605, 2, -1); (42625, 42651, 2, -1); (42787, 42799, 2, -1);
    (42803, 42863, 2, -1); (42874, 42876, 2, -1); (42879, 42887, 2, -1);
    (42892, 42892, 1, -1); (42897, 42899, 2, -1); (42900, 42900, 1, 48);
    (42903, 42921, 2, -1); (42933, 42947, 2, -1); (42952, 42954, 2, -1);
    (42961, 42961, 1, -1); (42967, 42969, 2, -1); (42998, 42998, 1, -1);
    (43859, 43859, 1, -928); (43888, 43967, 1, -38864); (65345, 65370, 1, -32);
    (66600, 66639, 1, -40); (66776, 66811, 1, -40); (66967, 67003, 2, -39);
    (66968, 66977, 1, -39); (66980, 66993, 1, -39); (66996, 67001, 1, -39);
    (67004, 67004, 1, -39); (68800, 68850, 1, -64); (71872, 71903, 1, -32);
    (93792, 93823, 1, -32); (125218, 125251, 1, -34) ].

(** The characters whose upper case is several characters. *)
Definition upper_special : list (Z * list Z) :=
  [ (223, [83; 83]); (329, [700; 78]); (496, [74; 780]); (912, [921; 776; 769]);
    (944, [933; 776; 769]); (1415, [1333; 1362]); (7830, [72; 817]); (7831, [84; 776]);
    (7832, [87; 778]); (7833, [89; 778]); (7834, [65; 702]); (8016, [933; 787]);
    (8018, [933; 787; 768]); (8020, [933; 787; 769]); (8022, [933; 787; 834]);
    (8064, [7944; 921]); (8065, [7945; 921]); (8066, [7946; 921]); (8067, [7947; 921]);
    (8068, [7948; 921]); (8069, [7949; 921]); (8070, [7950; 921]); (8071, [7951; 921]);
    (8072, [7944; 921]); (8073, [7945; 921]); (8074, [7946; 921]); (8075, [7947; 921]);
    (8076, [7948; 921]); (8077, [7949; 921]); (8078, [7950; 921]); (8079, [7951; 921]);
    (8080, [7976; 921]); (8081, [7977; 921]); (8082, [7978; 921]); (8083, [7979; 921]);
    (8084, [7980; 921]); (8085, [7981; 921]); (8086, [7982; 921]); (8087, [7983; 921]);
    (8088, [7976; 921]); (8089, [7977; 921]); (8090, [7978; 921]); (8091, [7979; 921]);
    (8092, [7980; 921]); (8093, [7981; 921]); (8094, [7982; 921]); (8095, [7983; 921]);
    (8096, [8040; 921]); (8097, [8041; 921]); (8098, [8042; 921]); (8099, [8043; 921]);
    (8100, [8044; 921]); (8101, [8045; 921]); (8102, [8046; 921]); (8103, [8047; 921]);
    (8104, [8040; 921]); (8105, [8041; 921]); (8106, [8042; 921]); (8107, [8043; 921]);
    (8108, [8044; 921]); (8109, [8045; 921]); (8110, [8046; 921]); (8111, [8047; 921]);
    (8114, [8122; 921]); (8115, [913; 921]); (8116, [902; 921]); (8118, [913; 834]);
    (8119, [913; 834; 921]); (8124, [913; 921]); (8130, [8138; 921]); (8131, [919; 921]);
    (8132, [905; 921]); (8134, [919; 834]); (8135, [919; 834; 921]); (8140, [919; 921]);
    (8146, [921; 776; 768]); (8147, [921; 776; 769]); (8150, [921; 834]);
    (8151, [921; 776; 834]); (8162, [933; 776; 768]); (8163, [933; 776; 769]);
    (8164, [929; 787]); (8166, [933; 834]); (8167, [933; 776; 834]); (8178, [8186; 921]);
    (8179, [937; 921]); (8180, [911; 921]); (8182, [937; 834]); (8183, [937; 834; 921]);
    (8188, [937; 921]); (64256, [70; 70]); (64257, [70; 73]); (64258, [70; 76]);
    (64259, [70; 70; 73]); (64260, [70; 70; 76]); (64261, [83; 84]); (64262, [83; 84]);
    (64275, [1348; 1350]); (64276, [1348; 1333]); (64277, [1348; 1339]);
    (64278, [1358; 1350]); (64279, [1348; 1341]) ].

Definition in_range (cp : Z) (r : Z * Z * Z * Z) : bool :=
  let '(first, last, step, _) := r in
  (first <=? cp) && (cp <=? last) && ((cp - first) mod step =? 0).

(** [chr(cp).upper()], as code points. *)
Definition upper_code (cp : Z) : list Z :=
  match List.find (fun entry => fst entry =? cp) upper_special with
  | Some entry => snd entry
  | None =>
      match List.find (in_range cp) upper_ranges with
      | Some (_, _, _, delta) => [cp + delta]
      | None => [cp]
      end
  end.

(** [ch.upper()] for one character. *)
Definition upper_char (ch : string) : string :=
  let cp := ord ch in
  if cp <? 0 then ch else concat (List.map utf8 (upper_code cp)).

(** [s.upper()]. *)
Definition upper (s : string) : string := concat (List.map upper_char (chars s)).

(** [s.lower()] and [s.capitalize()], exact on ASCII text: a character
    outside ASCII is left as it is. *)
Definition ascii_upper (c : ascii) : ascii :=
  let n := code c in
  if (97 <=? n) && (n <=? 122) then ascii_of_nat (Z.to_nat (n - 32)) else c.
Definition lower_char (c : ascii) : ascii :=
  let n := code c in
  if (65 <=? n) && (n <=? 90) then ascii_of_nat (Z.to_nat (n + 32)) else c.

Fixpoint map_chars (f : ascii -> ascii) (s : string) : string :=
  match s with
  | EmptyString => EmptyString
  | String c t => String (f c) (map_chars f t)
  end.

Definition lower : string -> string := map_chars lower_char.

Definition capitalize (s : string) : string :=
  match s with
  | EmptyString => EmptyString
  | String c t => String (ascii_upper c) (lower t)
  end.

(** [str(n)] for an [int]. *)
Definition of_Z (z : Z) : string := NilZero.string_of_int (Z.to_int z).

(** [hay.count(needle)] for a non-empty needle: occurrences from left to
    right, without overlap. *)
Fixpoint count_from (fuel : nat) (needle hay : string) (skip : nat) : nat :=
  match fuel with
  | O => O
  | S fuel' =>
      match hay with
      | EmptyString => O
      | String _ t =>
          match skip with
          | S k => count_from fuel' needle t k
          | O => if String.prefix needle hay
                 then S (count_from fuel' needle t (Nat.pred (String.length needle)))
                 else count_from fuel' needle t O
          end
      end
  end.
Definition count (needle hay : string) : nat :=
  count_from (String.length hay) needle hay O.

(** [repr(s)] of a [str]. *)
Definition hex_digit (n : Z) : ascii :=
  if n <? 10 then ascii_of_nat (Z.to_nat (48 + n)) else ascii_of_nat (Z.to_nat (87 + n)).

Definition repr_char (quote : ascii) (c : ascii) : string :=
  let n := code c in
  if Ascii.eqb c quote then String "\" (String c EmptyString)
  else if Ascii.eqb c "\" then "\\"
  else if n =? 10 then "\n"
  else if n =? 13 then "\r"
  else if n =? 9 then "\t"
  else if (n <? 32) || (n =? 127) then
    String "\" (String "x" (String (hex_digit (n / 16)) (String (hex_digit (n mod 16)) EmptyString)))
  else String c EmptyString.

Fixpoint repr_body (quote : ascii) (s : string) : string :=
  match s with
  | EmptyString => EmptyString
  | String c t => repr_char quote c ++ repr_body quote t
  end.

Definition repr (s : string) : string :=
  let quote := if contains "'" s && negb (contains dq s) then "034"%char else "'"%char in
  String quote (repr_body quote s ++ String quote EmptyString).

End PyStr.

(** ** Exceptions and results *)

(** The exceptions the embedded code can meet. All are subclasses of
    Python's [Exception], so [except Exception] and a bare [except] catch
    each of them; [asyncio.TimeoutError] is the one a handler singles out.
    Cancellation of a coroutine is outside the embedding. *)
Inductive exn : Type :=
  | KeyError (key : string)
  | ValueError (msg : string)
  | TypeError (msg : string)
  | AttributeError (msg : string)
  | IndexError (msg : string)
  | TimeoutError
  | OSError (msg : string)
  | UnicodeDecodeError (msg : string)
  | JSONDecodeError (msg : string)
  | BackendError (msg : string).

(** [str(e)]. A [KeyError] prints the [repr] of its key. *)
Definition str_exn (e : exn) : string :=
  match e with
  | KeyError k => PyStr.repr k
  | TimeoutError => EmptyString
  | ValueError m | TypeError m | AttributeError m | IndexError m
  | OSError m | UnicodeDecodeError m | JSONDecodeError m | BackendError m => m
  end.

Inductive Result (A : Type) : Type :=
  | Ok (a : A)
  | Raise (e : exn).
Arguments Ok {A} a.
Arguments Raise {A} e.

Definition rbind {A B} (r : Result A) (k : A -> Result B) : Result B :=
  match r with
  | Ok a => k a
  | Raise e => Raise e
  end.

(** ** [int(s)] *)

Module PyInt.

Definition digit_val (c : ascii) : option Z :=
  let n := PyStr.code c in
  if (48 <=? n) && (n <=? 57) then Some (n - 48) else None.

(** The digits of a literal, base 10: single underscores are allowed
    between digits only. Returns the value and the number of digits. *)
Fixpoint scan (s : string) (prev : option ascii) (acc : Z) (ndigits : nat)
  : option (Z * nat) :=
  match s with
  | EmptyString =>
      match prev with
      | None => None
      | Some p => if Ascii.eqb p "_" then None else Some (acc, ndigits)
      end
  | String c t =>
      if Ascii.eqb c "_" then
        match prev with
        | None => None
        | Some p => if Ascii.eqb p "_" then None else scan t (Some c) acc ndigits
        end
      else
        match digit_val c with
        | Some d => scan t (Some c) (10 * acc + d) (S ndigits)
        | None => None
        end
  end.

(** CPython's default limit on the digits of an integer literal
    ([sys.int_info.default_max_str_digits]). *)
Definition max_str_digits : nat := 4300.

(** The message quotes at most 200 characters of the literal's [repr]. *)
Definition invalid_literal (s : string) : exn :=
  ValueError ("invalid literal for int() with base 10: "
              ++ PyStr.take 200 (PyStr.repr s)).

Definition exceeds_limit (n : nat) : exn :=
  ValueError ("Exceeds the limit (" ++ PyStr.of_Z (Z.of_nat max_str_digits)
              ++ " digits) for integer string conversion: value has "
              ++ PyStr.of_Z (Z.of_nat n)
              ++ " digits; use sys.set_int_max_str_digits() to increase the limit").

(** The first characters of the decimal digits of each script: the ten
    characters from each are its digits 0 to 9. *)
Definition decimal_zeros : list Z :=
  [ 48; 1632; 1776; 1984; 2406; 2534; 2662; 2790; 2918; 3046; 3174; 3302; 3430; 3558; 3664;
    3792; 3872; 4160; 4240; 6112; 6160; 6470; 6608; 6784; 6800; 6992; 7088; 7232; 7248;
    42528; 43216; 43264; 43472; 43504; 43600; 44016; 65296; 66720; 68912; 69734; 69872;
    69942; 70096; 70384; 70736; 70864; 71248; 71360; 71472; 71904; 72016; 72784; 73040;
    73120; 73552; 92768; 92864; 93008; 120782; 120792; 120802; 120812; 120822; 123200;
    123632; 124144; 125264; 130032 ].

Definition decimal (cp : Z) : option Z :=
  match List.find (fun zero => (zero <=? cp) && (cp <? zero + 10)) decimal_zeros with
  | Some zero => Some (cp - zero)
  | None => None
  end.

(** What [int] reads of a text: an ASCII character as it is, any other
    blank as a space and any other decimal digit as its ASCII digit; the
    text is cut after the first character that is none of these. *)
Fixpoint to_ascii (cs : list string) : string :=
  match cs with
  | [] => EmptyString
  | ch :: rest =>
      let cp := PyStr.ord ch in
      if (0 <=? cp) && (cp <? 127) then ch ++ to_ascii rest
      else if PyStr.isspace ch then " " ++ to_ascii rest
      else match decimal cp with
           | Some d => String (PyStr.byte (48 + d)) (to_ascii rest)
           | None => "?"
           end
  end.

(** The blanks [int] skips around the literal: TAB..CR and the blank,
    not FS..US. *)
Definition c_isspace (c : ascii) : bool :=
  let n := PyStr.code c in
  ((9 <=? n) && (n <=? 13)) || (n =? 32).

(** [int(s)] for a [str]: blanks around, an optional sign, the digits. *)
Definition int (s : string) : Result Z :=
  let body :=
    PyStr.rstrip_by c_isspace (PyStr.lstrip_by c_isspace (to_ascii (PyStr.chars s))) in
  let '(sign, digits) :=
    match body with
    | String c t =>
        if Ascii.eqb c "-" then (-1, t)
        else if Ascii.eqb c "+" then (1, t)
        else (1, body)
    | EmptyString => (1, body)
    end in
  match scan digits None 0 O with
  | None => Raise (invalid_literal s)
  | Some (v, n) =>
      if (max_str_digits <? n)%nat then Raise (exceeds_limit n) else Ok (sign * v)
  end.

End PyInt.

(** ** Python values of unknown type

    What arrives from the client ([arguments: Dict[str, Any]]), from a
    configuration file and from [json.loads] has no static type. A float is
    carried as the text Python prints for it. Error messages are those of
    CPython 3.12. *)

#[warnings="-register-all"]
Inductive pyval : Type :=
  | VNone
  | VBool (b : bool)
  | VInt (z : Z)
  | VFloat (text : string)
  | VStr (s : string)
  | VList (xs : list pyval)
  | VDict (items : list (string * pyval)).

Module Py.

Definition type_name (v : pyval) : string :=
  match v with
  | VNone => "NoneType"
  | VBool _ => "bool"
  | VInt _ => "int"
  | VFloat _ => "float"
  | VStr _ => "str"
  | VList _ => "list"
  | VDict _ => "dict"
  end.

Fixpoint repr (v : pyval) : string :=
  match v with
  | VNone => "None"
  | VBool b => if b then "True" else "False"
  | VInt z => PyStr.of_Z z
  | VFloat text => text
  | VStr s => PyStr.repr s
  | VList xs => "[" ++ PyStr.join ", " (List.map repr xs) ++ "]"
  | VDict items =>
      "{" ++ PyStr.join ", "
               (List.map (fun kv => PyStr.repr (fst kv) ++ ": " ++ repr (snd kv)) items)
          ++ "}"
  end.

(** [str(v)], which is also how an f-string renders [{v}]. *)
Definition str (v : pyval) : string :=
  match v with
  | VStr s => s
  | _ => repr v
  end.

(** The truth value of [v] in [if v:], [not v] and [v or w]. *)
Definition truthy (v : pyval) : bool :=
  match v with
  | VNone => false
  | VBool b => b
  | VInt z => negb (z =? 0)
  | VFloat text => negb (String.eqb text "0.0" || String.eqb text "-0.0")
  | VStr s => negb (String.eqb s EmptyString)
  | VList xs => match xs with [] => false | _ => true end
  | VDict items => match items with [] => false | _ => true end
  end.

Definition or_ (v w : pyval) : pyval := if truthy v then v else w.

Fixpoint assoc (k : string) (items : list (string * pyval)) : option pyval :=
  match items with
  | [] => None
  | (k', v) :: rest => if String.eqb k k' then Some v else assoc k rest
  end.

(** [v[k]] for a string key. *)
Definition getitem (v : pyval) (k : string) : Result pyval :=
  match v with
  | VDict items =>
      match assoc k items with
      | Some x => Ok x
      | None => Raise (KeyError k)
      end
  | VList _ => Raise (TypeError "list indices must be integers or slices, not str")
  | VStr _ => Raise (TypeError "string indices must be integers, not 'str'")
  | _ => Raise (TypeError ("'" ++ type_name v ++ "' object is not subscriptable"))
  end.

(** [v.get(k, default)]. *)
Definition get (v : pyval) (k : string) (default : pyval) : Result pyval :=
  match v with
  | VDict items =>
      match assoc k items with
      | Some x => Ok x
      | None => Ok default
      end
  | _ => Raise (AttributeError ("'" ++ type_name v ++ "' object has no attribute 'get'"))
  end.

Definition chars (s : string) : list pyval := List.map VStr (PyStr.chars s).

(** The items a [for] loop over [v] visits. *)
Definition iter (v : pyval) : Result (list pyval) :=
  match v with
  | VList xs => Ok xs
  | VStr s => Ok (chars s)
  | VDict items => Ok (List.map (fun kv => VStr (fst kv)) items)
  | _ => Raise (TypeError ("'" ++ type_name v ++ "' object is not iterable"))
  end.

(** [len(v)]. *)
Definition len (v : pyval) : Result Z :=
  match v with
  | VList xs => Ok (Z.of_nat (List.length xs))
  | VStr s => Ok (Z.of_nat (PyStr.len s))
  | VDict items => Ok (Z.of_nat (List.length items))
  | _ => Raise (TypeError ("object of type '" ++ type_name v ++ "' has no len()"))
  end.

(** A method of [str] called on [v]: [v.upper()], [v.capitalize()], ... *)
Definition str_method {A} (name : string) (f : string -> A) (v : pyval) : Result A :=
  match v with
  | VStr s => Ok (f s)
  | _ => Raise (AttributeError
                  ("'" ++ type_name v ++ "' object has no attribute '" ++ name ++ "'"))
  end.

End Py.

(** [arguments[k]] and [arguments.get(k, default)] on the argument
    dictionary of a tool call. *)
Definition arg (args : gmap string pyval) (k : string) : Result pyval :=
  match args !! k with
  | Some v => Ok v
  | None => Raise (KeyError k)
  end.

Definition arg_get (args : gmap string pyval) (k : string) (default : pyval) : pyval :=
  match args !! k with
  | Some v => v
  | None => default
  end.

(** ** The world outside the repository *)

(** A [pathlib.Path], by its text form [str(path)]. *)
Definition Path : Type := string.

(** What running the external binary does, as [_run_command] sees it:
    [create_subprocess_exec] or [wait_for(communicate())] raises (the
    expiry of the timeout is [Fails TimeoutError]; a missing binary or a
    refused permission is an [OSError]), or the process ends with an exit
    status and two outputs, each given as the result of its [.decode()]. *)
Inductive ProcBehaviour : Type :=
  | Fails (e : exn)
  | Exits (returncode : Z) (stdout stderr : Result string).

(** A request to the generative backend, [client.messages.create(...)]. *)
Record Request : Type := {
  req_model : pyval;
  req_max_tokens : Z;
  req_temperature : pyval;
  req_prompt : string
}.

(** An element of [message.content]: a block with a [text] attribute, or a
    block of another class. *)
Inductive ContentBlock : Type :=
  | TextBlock (text : string)
  | OtherBlock (class_name : string).

Record World : Type := {
  (** [os.getenv] *)
  getenv : string -> option string;
  (** [pathlib]: [Path(v)], [is_absolute], [a / b], [name], [with_suffix],
      [exists], and [stat().st_size / 1024] *)
  path_of : pyval -> Result Path;
  is_absolute : Path -> bool;
  joinpath : Path -> Path -> Path;
  path_name : Path -> string;
  with_suffix : Path -> string -> Result Path;
  path_exists : Path -> bool;
  stat_size_kb : Path -> Result pyval;
  (** the compiler binary, by argument vector and timeout *)
  run_process : list pyval -> pyval -> ProcBehaviour;
  (** the generative backend, by API key and request *)
  messages_create : pyval -> Request -> Result (list ContentBlock);
  (** [json.loads] *)
  json_loads : string -> Result pyval
}.

(** ** Traces and coroutines *)

(** What a call does outside the process, and what it logs. *)
Inductive Event : Type :=
  | Exec (cmd : list pyval)
  | BackendCall (req : Request)
  | LogError (msg : string).

Definition is_external (ev : Event) : bool :=
  match ev with
  | Exec _ | BackendCall _ => true
  | LogError _ => false
  end.

Definition external_calls (tr : list Event) : list Event := List.filter is_external tr.

(** A coroutine: the events it caused, in order, and how it ended. *)
Definition M (A : Type) : Type := (list Event * Result A)%type.

Definition ret {A} (a : A) : M A := ([], Ok a).
Definition raise {A} (e : exn) : M A := ([], Raise e).
Definition lift {A} (r : Result A) : M A := ([], r).
Definition emit (ev : Event) : M unit := ([ev], Ok tt).

Definition bind {A B} (m : M A) (k : A -> M B) : M B :=
  match m with
  | (tr, Ok a) => let '(tr', r) := k a in ((tr ++ tr')%list, r)
  | (tr, Raise e) => (tr, Raise e)
  end.

(** [try: m  except Exception as e: h e]. *)
Definition try_except {A} (m : M A) (h : exn -> M A) : M A :=
  match m with
  | (tr, Raise e) => let '(tr', r) := h e in ((tr ++ tr')%list, r)
  | done => done
  end.

Definition trace {A} (m : M A) : list Event := fst m.
Definition outcome {A} (m : M A) : Result A := snd m.

Declare Scope py_scope.
Delimit Scope py_scope with py.
Notation "'let?' x ':=' r 'in' k" := (rbind r (fun x => k))
  (at level 10, x name, r at level 100, k at level 200) : py_scope.
Notation "'let*' x ':=' m 'in' k" := (bind m (fun x => k))
  (at level 10, x name, m at level 100, k at level 200) : py_scope.
Local Open Scope py_scope.

(** ** The compiler wrapper ([compiler/wrapper.py]) *)

Module ArcLangCompiler.

Record t : Type := { binary_path : pyval; timeout : pyval }.

(** [os.getenv(name)] as a Python value. *)
Definition getenv_val (w : World) (name : string) : pyval :=
  match getenv w name with
  | Some s => VStr s
  | None => VNone
  end.

Definition __init__ (w : World) (config : gmap string pyval) : t :=
  {| binary_path :=
       Py.or_ (getenv_val w "ARCLANG_BINARY")
              (Py.or_ (arg_get config "path" VNone) (VStr "arclang"));
     timeout := arg_get config "timeout" (VInt 30) |}.

(** The dictionary [_run_command] returns. *)
Record ProcessResult : Type := {
  returncode : Z;
  stdout : string;
  stderr : string
}.

Definition _run_command (w : World) (self : t) (cmd : list pyval) : M ProcessResult :=
  try_except
    (let* _ := emit (Exec cmd) in
     match run_process w cmd (timeout self) with
     | Fails e => raise e
     | Exits rc out err =>
         let* out_text := lift out in
         let* err_text := lift err in
         ret {| returncode := rc; stdout := out_text; stderr := err_text |}
     end)
    (fun e =>
       match e with
       | TimeoutError =>
           ret {| returncode := -1;
                  stdout := EmptyString;
                  stderr := "Command timed out after " ++ Py.str (timeout self)
                            ++ " seconds" |}
       | _ =>
           ret {| returncode := -1; stdout := EmptyString; stderr := str_exn e |}
       end).

(** *** Output parser *)

(** The tail of a labelled line: [line.split(":")[-1].strip()]. *)
Definition line_value (line : string) : string :=
  PyStr.strip (PyStr.last_item (PyStr.split ":" line)).

(** The loop of [_parse_metrics], from the dictionary built so far. *)
Fixpoint parse_metrics_loop (lines : list string) (metrics : gmap string Z)
  : Result (gmap string Z) :=
  match lines with
  | [] => Ok metrics
  | line :: rest =>
      if PyStr.contains "Requirements:" line then
        let? v := PyInt.int (line_value line) in
        parse_metrics_loop rest (<["requirements" := v]> metrics)
      else if PyStr.contains "Components:" line then
        let? v := PyInt.int (line_value line) in
        parse_metrics_loop rest (<["components" := v]> metrics)
      else if PyStr.contains "Functions:" line then
        let? v := PyInt.int (line_value line) in
        parse_metrics_loop rest (<["functions" := v]> metrics)
      else if PyStr.contains "Traces:" line then
        let? v := PyInt.int (line_value line) in
        parse_metrics_loop rest (<["traces" := v]> metrics)
      else parse_metrics_loop rest metrics
  end.

Definition _parse_metrics (output : string) : Result (gmap string Z) :=
  parse_metrics_loop (PyStr.split "010" output) ∅.

Definition _parse_warnings (output : string) : list string :=
  List.filter (fun line => PyStr.contains "warning:" (PyStr.lower line))
              (PyStr.split "010" output).

Definition nonblank (s : string) : bool :=
  match PyStr.strip s with EmptyString => false | _ => true end.

Definition _parse_errors (output : string) : list string :=
  List.filter (fun line => PyStr.contains "error:" (PyStr.lower line) || nonblank line)
              (PyStr.split "010" output).

(** [try: return int(..)  except: pass] inside a loop over the lines. *)
Fixpoint parse_coverage_loop (lines : list string) : Z :=
  match lines with
  | [] => 0
  | line :: rest =>
      if PyStr.contains "Coverage:" line || PyStr.contains "coverage:" line then
        match PyInt.int (PyStr.rstrip_char "%" (line_value line)) with
        | Ok v => v
        | Raise _ => parse_coverage_loop rest
        end
      else parse_coverage_loop rest
  end.

Definition _parse_coverage (output : string) : Z :=
  parse_coverage_loop (PyStr.split "010" output).

Fixpoint count_traces_loop (lines : list string) : Z :=
  match lines with
  | [] => 0
  | line :: rest =>
      if PyStr.contains "Traces:" line || PyStr.contains "traces:" line then
        match PyInt.int (line_value line) with
        | Ok v => v
        | Raise _ => count_traces_loop rest
        end
      else count_traces_loop rest
  end.

Definition _count_traces (output : string) : Z :=
  count_traces_loop (PyStr.split "010" output).

(** The three parsers the source leaves as placeholders. *)
Definition _parse_gaps (output : string) : list (string * list pyval) :=
  [("untraced_requirements", []); ("untraced_components", [])].
Definition _parse_safety_issues (output : string) : list pyval := [].
Definition _parse_hazards (output : string) : list pyval := [].

(** *** One method per operation *)

(** [cmd.append(flag)] under [if cond:]. *)
Definition flag_if (cond : pyval) (flag : string) : list pyval :=
  if Py.truthy cond then [VStr flag] else [].

Record CompileResult : Type := {
  success : bool;
  output : string;
  errors : string;
  metrics : gmap string Z
}.

Definition compile_cmd (self : t) (model_path : Path) (validate optimize : pyval)
  : list pyval :=
  ([binary_path self; VStr "build"; VStr model_path]
   ++ flag_if validate "--validate" ++ flag_if optimize "--optimize")%list.

Definition compile (w : World) (self : t) (model_path : Path) (validate optimize : pyval)
  : M CompileResult :=
  let cmd := compile_cmd self model_path validate optimize in
  let* result := _run_command w self cmd in
  let* parsed :=
    lift (if returncode result =? 0 then _parse_metrics (stdout result) else Ok ∅) in
  ret {| success := returncode result =? 0;
         output := stdout result;
         errors := stderr result;
         metrics := parsed |}.

Record ValidateResult : Type := {
  valid : bool;
  warnings : list string;
  validate_errors : list string
}.

Definition validate (w : World) (self : t) (model_path : Path) (strict : pyval)
  : M ValidateResult :=
  let cmd := ([binary_path self; VStr "check"; VStr model_path; VStr "--lint"]
              ++ flag_if strict "--strict")%list in
  let* result := _run_command w self cmd in
  ret {| valid := returncode result =? 0;
         warnings := _parse_warnings (stdout result);
         validate_errors := _parse_errors (stderr result) |}.

Record TraceResult : Type := {
  coverage : Z;
  total_traces : Z;
  gaps : list (string * list pyval)
}.

Definition trace_cmd (self : t) (model_path : Path) (show_gaps matrix : pyval)
  : list pyval :=
  ([binary_path self; VStr "trace"; VStr model_path; VStr "--validate"]
   ++ flag_if show_gaps "--gaps" ++ flag_if matrix "--matrix")%list.

Definition trace_analysis (w : World) (self : t) (model_path : Path) (show_gaps matrix : pyval)
  : M TraceResult :=
  let cmd := trace_cmd self model_path show_gaps matrix in
  let* result := _run_command w self cmd in
  ret {| coverage := _parse_coverage (stdout result);
         total_traces := _count_traces (stdout result);
         gaps := if Py.truthy show_gaps then _parse_gaps (stdout result) else [] |}.

Record ExportResult : Type := {
  export_success : bool;
  output_path : pyval;
  error : pyval
}.

Definition export_diagram (w : World) (self : t) (model_path : Path)
    (format_type output_path : pyval) : M ExportResult :=
  let* output_path :=
    if negb (Py.truthy output_path)
    then let* html := lift (with_suffix w model_path ".html") in ret (VStr html)
    else ret output_path in
  let cmd := [binary_path self; VStr "export"; VStr model_path;
              VStr "-o"; output_path; VStr "-f"; format_type] in
  let* result := _run_command w self cmd in
  ret {| export_success := returncode result =? 0;
         output_path := if returncode result =? 0 then output_path else VNone;
         error := if negb (returncode result =? 0) then VStr (stderr result) else VNone |}.

Record InfoResult : Type := {
  info_metrics : gmap string Z;
  size_kb : pyval
}.

Definition info (w : World) (self : t) (model_path : Path) (detailed : pyval)
  : M InfoResult :=
  let cmd := ([binary_path self; VStr "info"; VStr model_path; VStr "--metrics"]
              ++ flag_if detailed "--detailed")%list in
  let* result := _run_command w self cmd in
  let* parsed := lift (_parse_metrics (stdout result)) in
  let* size :=
    if path_exists w model_path then lift (stat_size_kb w model_path) else ret (VInt 0) in
  ret {| info_metrics := parsed; size_kb := size |}.

Record SafetyResult : Type := {
  compliant : bool;
  issues : list pyval;
  recommendations : list pyval
}.

Definition safety_check (w : World) (self : t) (model_path : Path)
    (standard generate_report : pyval) : M SafetyResult :=
  let cmd := ([binary_path self; VStr "safety"; VStr model_path; VStr "--standard"; standard]
              ++ flag_if generate_report "--report")%list in
  let* result := _run_command w self cmd in
  ret {| compliant := returncode result =? 0;
         issues := _parse_safety_issues (stdout result);
         recommendations := [] |}.

Record HazardResult : Type := { hazards : list pyval }.

Definition hazard_analysis (w : World) (self : t) (model_path : Path) (standard : pyval)
  : M HazardResult :=
  let cmd := [binary_path self; VStr "safety"; VStr model_path;
              VStr "--hara"; VStr "--standard"; standard] in
  let* result := _run_command w self cmd in
  ret {| hazards := _parse_hazards (stdout result) |}.

Record MergeResult : Type := {
  clean_merge : bool;
  conflicts : list pyval;
  merged_count : Z
}.

(** A placeholder in the source: no process is run. *)
Definition semantic_merge (w : World) (self : t) (base_path ours_path theirs_path : Path)
  : M MergeResult :=
  ret {| clean_merge := false; conflicts := []; merged_count := 0 |}.

Record PlmResult : Type := {
  plm_success : bool;
  changes_count : Z;
  plm_error : pyval
}.

Definition plm_sync (w : World) (self : t) (model_path : Path) (system operation : pyval)
  : M PlmResult :=
  let cmd := [binary_path self; VStr "plm"; operation; VStr model_path;
              VStr "--system"; system] in
  let* result := _run_command w self cmd in
  ret {| plm_success := returncode result =? 0;
         changes_count := 0;
         plm_error := if negb (returncode result =? 0) then VStr (stderr result) else VNone |}.

End ArcLangCompiler.

(** ** The generation facade ([ai/generator.py]) *)

Module AIGenerator.

Import PyStr.

(** [client] is [None] when the attribute was never assigned, [Some None]
    when it holds Python's [None], and [Some (Some key)] when it holds an
    [anthropic.Anthropic] client built with [key]. *)
Record t : Type := {
  provider : pyval;
  model : pyval;
  temperature : pyval;
  client : option (option pyval)
}.

Definition is_str (v : pyval) (s : string) : bool :=
  match v with
  | VStr s' => String.eqb s' s
  | _ => false
  end.

Definition __init__ (w : World) (config : gmap string pyval) : t :=
  let provider := arg_get config "provider" (VStr "anthropic") in
  {| provider := provider;
     model := arg_get config "model" (VStr "claude-3-5-sonnet-20241022");
     temperature := arg_get config "temperature" (VFloat "0.3");
     client :=
       if is_str provider "anthropic" then
         let api_key := Py.or_ (arg_get config "api_key" VNone)
                               (ArcLangCompiler.getenv_val w "ANTHROPIC_API_KEY") in
         Some (if Py.truthy api_key then Some api_key else None)
       else None |}.

(** Reading [self.client]. *)
Definition get_client (self : t) : Result (option pyval) :=
  match client self with
  | Some c => Ok c
  | None => Raise (AttributeError "'AIGenerator' object has no attribute 'client'")
  end.

(** [self.client.messages.create(...)] with one user message. *)
Definition request (self : t) (max_tokens : Z) (prompt : string) : Request :=
  {| req_model := model self; req_max_tokens := max_tokens;
     req_temperature := temperature self; req_prompt := prompt |}.

Definition create (w : World) (self : t) (key : pyval) (max_tokens : Z) (prompt : string)
  : M (list ContentBlock) :=
  let req := request self max_tokens prompt in
  let* _ := emit (BackendCall req) in
  lift (messages_create w key req).

(** [message.content[0].text]. *)
Definition first_text (content : list ContentBlock) : Result string :=
  match content with
  | [] => Raise (IndexError "list index out of range")
  | TextBlock text :: _ => Ok text
  | OtherBlock cls :: _ =>
      Raise (AttributeError ("'" ++ cls ++ "' object has no attribute 'text'"))
  end.

(** The line of a block that carries the safety level, or [absent]. *)
Definition safety_line_or (absent : string) (safety_level : pyval) : string :=
  if Py.truthy safety_level
  then "safety_level: " ++ dq ++ Py.str safety_level ++ dq
  else absent.

Definition tbd : string := "// safety_level: " ++ dq ++ "TBD" ++ dq.

(** [[w[0].upper() for w in words if w]], joined. *)
Definition initial (word : string) : string :=
  match chars word with
  | [] => EmptyString
  | ch :: _ => upper_char ch
  end.

Definition initials (description : string) : string :=
  concat (List.map initial (List.firstn 2 (split_ws description))).

Definition _generate_requirement_id (description : pyval) : Result string :=
  let? prefix := Py.str_method "split" initials description in
  Ok ("REQ-" ++ prefix ++ "-001").

Definition _generate_component_id (description : pyval) : Result string :=
  let? prefix := Py.str_method "split" initials description in
  Ok ("LC-" ++ prefix ++ "-001").

Definition requirement_prompt (description safety_level priority : pyval) : string :=
  let safety_line := safety_line_or tbd safety_level in
  join nl
    [ "Generate an ArcLang requirement based on this description:";
      EmptyString;
      "Description: " ++ Py.str description;
      "Safety Level: " ++ Py.str (Py.or_ safety_level (VStr "Not specified"));
      "Priority: " ++ Py.str priority;
      EmptyString;
      "Generate a complete ArcLang requirement block following this format:";
      EmptyString;
      "requirement " ++ dq ++ "REQ-XXX-YYY" ++ dq ++ " {";
      "    description: " ++ dq ++ "..." ++ dq;
      "    priority: " ++ dq ++ Py.str priority ++ dq;
      "    " ++ safety_line;
      "    type: " ++ dq ++ "Functional" ++ dq ++ "  // or Performance, Safety, etc.";
      "    verification_method: " ++ dq ++ "Test" ++ dq ++ "  // or Analysis, Inspection, Demonstration";
      "}";
      EmptyString;
      "Important:";
      "- Use descriptive requirement ID (e.g., REQ-BRAKE-001)";
      "- Keep description concise and verifiable";
      "- Choose appropriate type based on description";
      "- Follow ISO 26262 / DO-178C conventions if safety level specified";
      EmptyString;
      "Generate only the ArcLang code, no explanation." ].

Definition requirement_template (req_id : string) (description safety_level priority : pyval)
  : string :=
  let safety_line := safety_line_or tbd safety_level in
  join nl
    [ "requirement " ++ dq ++ req_id ++ dq ++ " {";
      "    description: " ++ dq ++ Py.str description ++ dq;
      "    priority: " ++ dq ++ Py.str priority ++ dq;
      "    " ++ safety_line;
      "    type: " ++ dq ++ "Functional" ++ dq;
      "    verification_method: " ++ dq ++ "Test" ++ dq;
      "}" ].

Definition generate_requirement (w : World) (self : t)
    (description safety_level priority : pyval) : M string :=
  let prompt := requirement_prompt description safety_level priority in
  let* c := lift (get_client self) in
  match c with
  | Some key =>
      let* content := create w self key 1024 prompt in
      let* text := lift (first_text content) in
      ret (strip text)
  | None =>
      let* req_id := lift (_generate_requirement_id description) in
      ret (requirement_template req_id description safety_level priority)
  end.

Definition component_prompt (description component_type safety_level : pyval) : string :=
  let safety_line := safety_line_or EmptyString safety_level in
  join nl
    [ "Generate an ArcLang component based on this description:";
      EmptyString;
      "Description: " ++ Py.str description;
      "Type: " ++ Py.str component_type;
      "Safety Level: " ++ Py.str (Py.or_ safety_level (VStr "Not specified"));
      EmptyString;
      "Generate a complete ArcLang component block following this format:";
      EmptyString;
      "component " ++ dq ++ "Component Name" ++ dq ++ " {";
      "    id: " ++ dq ++ "LC-XXX-YYY" ++ dq;
      "    type: " ++ dq ++ Py.str component_type ++ dq;
      "    description: " ++ dq ++ "..." ++ dq;
      "    " ++ safety_line;
      "    ";
      "    function " ++ dq ++ "Main Function" ++ dq ++ " {";
      "        id: " ++ dq ++ "LF-XXX-YYY" ++ dq;
      "        inputs: [" ++ dq ++ "input1" ++ dq ++ ", " ++ dq ++ "input2" ++ dq ++ "]";
      "        outputs: [" ++ dq ++ "output1" ++ dq ++ "]";
      "        execution_time: " ++ dq ++ "XYms" ++ dq;
      "    }";
      "}";
      EmptyString;
      "Important:";
      "- Use descriptive component and function names";
      "- Component ID pattern: LC-<SUBSYSTEM>-<NUM>";
      "- Function ID pattern: LF-<FUNCTION>-<NUM>";
      "- Include realistic inputs/outputs";
      "- Add execution_time for real-time systems";
      EmptyString;
      "Generate only the ArcLang code, no explanation." ].

Definition component_template (comp_id : string) (description component_type safety_level : pyval)
  : string :=
  let safety_line := safety_line_or EmptyString safety_level in
  join nl
    [ "component " ++ dq ++ Py.str description ++ dq ++ " {";
      "    id: " ++ dq ++ comp_id ++ dq;
      "    type: " ++ dq ++ Py.str component_type ++ dq;
      "    description: " ++ dq ++ Py.str description ++ dq;
      "    " ++ safety_line;
      "    ";
      "    function " ++ dq ++ "Process" ++ dq ++ " {";
      "        id: " ++ dq ++ "LF-PROCESS" ++ dq;
      "        inputs: [" ++ dq ++ "input_data" ++ dq ++ "]";
      "        outputs: [" ++ dq ++ "output_data" ++ dq ++ "]";
      "    }";
      "}" ].

Definition generate_component (w : World) (self : t)
    (description component_type safety_level : pyval) : M string :=
  let prompt := component_prompt description component_type safety_level in
  let* c := lift (get_client self) in
  match c with
  | Some key =>
      let* content := create w self key 2048 prompt in
      let* text := lift (first_text content) in
      ret (strip text)
  | None =>
      let* comp_id := lift (_generate_component_id description) in
      ret (component_template comp_id description component_type safety_level)
  end.

(** ["\n".join([f"- {req}" for req in requirements])]. *)
Definition req_list (reqs : list pyval) : string :=
  join nl (List.map (fun req => "- " ++ Py.str req) reqs).

Definition architecture_prompt (req_list : string) (domain : pyval) : string :=
  join nl
    [ "Given these requirements for a " ++ Py.str domain ++ " system, suggest an appropriate architecture:";
      EmptyString;
      "Requirements:";
      req_list;
      EmptyString;
      "Suggest:";
      "1. Main components (5-10 components)";
      "2. Component types (Logical/Physical)";
      "3. Safety levels if applicable";
      "4. Recommended architectural patterns";
      EmptyString;
      "Provide suggestions in JSON format:";
      "{";
      "    " ++ dq ++ "components" ++ dq ++ ": [";
      "        {";
      "            " ++ dq ++ "name" ++ dq ++ ": " ++ dq ++ "Component Name" ++ dq ++ ",";
      "            " ++ dq ++ "type" ++ dq ++ ": " ++ dq ++ "Logical" ++ dq ++ ",";
      "            " ++ dq ++ "description" ++ dq ++ ": " ++ dq ++ "Brief description" ++ dq ++ ",";
      "            " ++ dq ++ "safety_level" ++ dq ++ ": " ++ dq ++ "ASIL_B" ++ dq ++ "  // if applicable";
      "        }";
      "    ],";
      "    " ++ dq ++ "patterns" ++ dq ++ ": [" ++ dq ++ "Pattern 1" ++ dq ++ ", " ++ dq ++ "Pattern 2" ++ dq ++ "]";
      "}" ].

Definition component_entry (name description : string) : pyval :=
  VDict [("name", VStr name); ("type", VStr "Logical"); ("description", VStr description)].

(** The fixed catalogue returned when there is no client. *)
Definition fallback_architecture : pyval :=
  VDict [("components",
          VList [component_entry "Sensor Interface" "Handles sensor data";
                 component_entry "Controller" "Main control logic";
                 component_entry "Actuator Interface" "Controls actuators"]);
         ("patterns", VList [VStr "Layered Architecture"; VStr "Sense-Process-Actuate"])].

(** What the bare [except] around [json.loads] returns. *)
Definition empty_architecture : pyval :=
  VDict [("components", VList []); ("patterns", VList [])].

Definition suggest_architecture (w : World) (self : t) (requirements domain : pyval)
  : M pyval :=
  let* reqs := lift (Py.iter requirements) in
  let prompt := architecture_prompt (req_list reqs) domain in
  let* c := lift (get_client self) in
  match c with
  | Some key =>
      let* content := create w self key 2048 prompt in
      try_except
        (let* text := lift (first_text content) in
         lift (json_loads w (strip text)))
        (fun _ => ret empty_architecture)
  | None => ret fallback_architecture
  end.

End AIGenerator.

(** ** Rendering helpers shared by the tool groups *)

(** [output += f(x)] for each [x] of [xs], in order; the first exception
    ends the loop. *)
Fixpoint render_each {A} (f : A -> Result string) (xs : list A) : Result string :=
  match xs with
  | [] => Ok EmptyString
  | x :: rest =>
      let? line := f x in
      let? more := render_each f rest in
      Ok (line ++ more)
  end.

(** The same over [enumerate(xs, start)]. *)
Fixpoint render_enumerated {A} (f : Z -> A -> Result string) (start : Z) (xs : list A)
  : Result string :=
  match xs with
  | [] => Ok EmptyString
  | x :: rest =>
      let? line := f start x in
      let? more := render_enumerated f (start + 1) rest in
      Ok (line ++ more)
  end.

(** [metrics.get(k, 0)] rendered in an f-string. *)
Definition metric (metrics : gmap string Z) (k : string) : string :=
  PyStr.of_Z (default 0 (metrics !! k)).

(** [len(xs)] rendered in an f-string. *)
Definition len_str {A} (xs : list A) : string := PyStr.of_Z (Z.of_nat (List.length xs)).

(** ** Core tools ([tools/core.py]) *)

Module CoreTools.

Import PyStr.

Record t : Type := { compiler : ArcLangCompiler.t; workspace_root : Path }.

Definition _resolve_path (w : World) (self : t) (path_str : pyval) : Result Path :=
  let? path := path_of w path_str in
  Ok (if negb (is_absolute w path) then joinpath w (workspace_root self) path else path).

(** In the dictionary [compile] returns the key ["metrics"] is always
    present and the keys ["validation"] and ["output_path"] never are, so
    the metrics block is always rendered, the validation block never, and
    the output line shows the default. *)
Definition _compile (w : World) (self : t) (args : gmap string pyval) : M string :=
  let* path_str := lift (arg args "model_path") in
  let* model_path := lift (_resolve_path w self path_str) in
  let validate := arg_get args "validate" (VBool true) in
  let optimize := arg_get args "optimize" (VBool false) in
  let* result := ArcLangCompiler.compile w (compiler self) model_path validate optimize in
  if ArcLangCompiler.success result then
    let metrics := ArcLangCompiler.metrics result in
    ret ("✅ Compilation successful" ++ nl ++ nl
         ++ "**Model**: " ++ path_name w model_path ++ nl
         ++ "**Requirements**: " ++ metric metrics "requirements" ++ nl
         ++ "**Components**: " ++ metric metrics "components" ++ nl
         ++ "**Functions**: " ++ metric metrics "functions" ++ nl
         ++ "**Traces**: " ++ metric metrics "traces" ++ nl
         ++ nl ++ "**Output**: " ++ "N/A")
  else
    ret ("❌ Compilation failed" ++ nl ++ nl ++ "**Errors**:" ++ nl
         ++ ArcLangCompiler.errors result).

Definition _validate (w : World) (self : t) (args : gmap string pyval) : M string :=
  let* path_str := lift (arg args "model_path") in
  let* model_path := lift (_resolve_path w self path_str) in
  let strict := arg_get args "strict" (VBool false) in
  let* result := ArcLangCompiler.validate w (compiler self) model_path strict in
  if ArcLangCompiler.valid result then
    let warnings := ArcLangCompiler.warnings result in
    ret ("✅ Validation passed" ++ nl ++ nl
         ++ "**Model**: " ++ path_name w model_path ++ nl
         ++ "**Syntax**: Valid" ++ nl
         ++ "**Semantics**: Valid" ++ nl
         ++ match warnings with
            | [] => EmptyString
            | _ =>
                nl ++ "⚠️  **Warnings** (" ++ len_str warnings ++ "):" ++ nl
                ++ concat (List.map (fun warning => "  - " ++ warning ++ nl)
                                    (List.firstn 5 warnings))
            end)
  else
    let errors := ArcLangCompiler.validate_errors result in
    ret ("❌ Validation failed" ++ nl ++ nl
         ++ "**Model**: " ++ path_name w model_path ++ nl ++ nl
         ++ "**Errors** (" ++ len_str errors ++ "):" ++ nl
         ++ concat (List.map (fun error => "  - " ++ error ++ nl) (List.firstn 10 errors))).

(** [gaps.get(k, [])] on the dictionary of gaps. *)
Fixpoint gap_list (k : string) (gaps : list (string * list pyval)) : list pyval :=
  match gaps with
  | [] => []
  | (k', xs) :: rest => if String.eqb k k' then xs else gap_list k rest
  end.

(** One block of untraced elements; [label] is the key shown after the
    identifier (["description"] or ["name"]). *)
Definition untraced_block (title label : string) (items : list pyval) : Result string :=
  match items with
  | [] => Ok EmptyString
  | _ =>
      let? lines :=
        render_each
          (fun item =>
             let? id := Py.getitem item "id" in
             let? text := Py.get item label (VStr "N/A") in
             Ok ("  - " ++ Py.str id ++ ": " ++ Py.str text ++ nl))
          (List.firstn 5 items) in
      Ok ("**" ++ title ++ "** (" ++ len_str items ++ "):" ++ nl ++ lines ++ nl)
  end.

Definition _trace_analysis (w : World) (self : t) (args : gmap string pyval) : M string :=
  let* path_str := lift (arg args "model_path") in
  let* model_path := lift (_resolve_path w self path_str) in
  let show_gaps := arg_get args "show_gaps" (VBool true) in
  let matrix := arg_get args "matrix" (VBool false) in
  let* result := ArcLangCompiler.trace_analysis w (compiler self) model_path show_gaps matrix in
  let coverage := ArcLangCompiler.coverage result in
  let gaps := ArcLangCompiler.gaps result in
  let head :=
    "🔗 **Traceability Analysis**" ++ nl ++ nl
    ++ "**Model**: " ++ path_name w model_path ++ nl
    ++ "**Coverage**: " ++ of_Z coverage ++ "%" ++ nl
    ++ "**Total Traces**: " ++ of_Z (ArcLangCompiler.total_traces result) ++ nl ++ nl in
  let* gap_text :=
    if Py.truthy show_gaps && match gaps with [] => false | _ => true end then
      let* reqs := lift (untraced_block "Untraced Requirements" "description"
                           (gap_list "untraced_requirements" gaps)) in
      let* comps := lift (untraced_block "Untraced Components" "name"
                            (gap_list "untraced_components" gaps)) in
      ret ("⚠️  **Gaps Found** (" ++ len_str gaps ++ "):" ++ nl ++ nl ++ reqs ++ comps)
    else ret EmptyString in
  let verdict :=
    if 90 <=? coverage then "✅ Good traceability coverage"
    else if 70 <=? coverage
         then "⚠️  Moderate traceability coverage - consider adding more traces"
         else "❌ Low traceability coverage - significant gaps detected" in
  ret (head ++ gap_text ++ verdict).

(** The dictionary [export_diagram] returns has no key ["metrics"]. *)
Definition _export_diagram (w : World) (self : t) (args : gmap string pyval) : M string :=
  let* path_str := lift (arg args "model_path") in
  let* model_path := lift (_resolve_path w self path_str) in
  let format_type := arg_get args "format" (VStr "html") in
  let output_path := arg_get args "output_path" VNone in
  let* result :=
    ArcLangCompiler.export_diagram w (compiler self) model_path format_type output_path in
  if ArcLangCompiler.export_success result then
    ret ("✅ Diagram generated successfully" ++ nl ++ nl
         ++ "**Model**: " ++ path_name w model_path ++ nl
         ++ "**Format**: " ++ Py.str format_type ++ nl
         ++ "**Output**: " ++ Py.str (ArcLangCompiler.output_path result) ++ nl)
  else
    ret ("❌ Diagram generation failed" ++ nl ++ nl
         ++ Py.str (ArcLangCompiler.error result)).

(** The metrics of [info] hold integers, so a non-zero ["safety"] entry
    would fail at [safety.get]; the dictionary [info] returns has no key
    ["coverage"]. *)
Definition _info (w : World) (self : t) (args : gmap string pyval) : M string :=
  let* path_str := lift (arg args "model_path") in
  let* model_path := lift (_resolve_path w self path_str) in
  let detailed := arg_get args "detailed" (VBool false) in
  let* result := ArcLangCompiler.info w (compiler self) model_path detailed in
  let metrics := ArcLangCompiler.info_metrics result in
  let head :=
    "📊 **Model Information**" ++ nl ++ nl
    ++ "**Path**: " ++ model_path ++ nl
    ++ "**Size**: " ++ Py.str (ArcLangCompiler.size_kb result) ++ " KB" ++ nl ++ nl
    ++ "**Metrics**:" ++ nl
    ++ "  - Requirements: " ++ metric metrics "requirements" ++ nl
    ++ "  - Components: " ++ metric metrics "components" ++ nl
    ++ "  - Functions: " ++ metric metrics "functions" ++ nl
    ++ "  - Traces: " ++ metric metrics "traces" ++ nl
    ++ "  - Actors: " ++ metric metrics "actors" ++ nl
    ++ "  - Nodes: " ++ metric metrics "nodes" ++ nl ++ nl in
  if negb (default 0 (metrics !! "safety") =? 0)
  then raise (AttributeError "'int' object has no attribute 'get'")
  else ret head.

Definition execute (w : World) (self : t) (tool_name : string) (arguments : gmap string pyval)
  : M string :=
  if String.eqb tool_name "arclang_compile" then _compile w self arguments
  else if String.eqb tool_name "arclang_validate" then _validate w self arguments
  else if String.eqb tool_name "arclang_trace_analysis" then _trace_analysis w self arguments
  else if String.eqb tool_name "arclang_export_diagram" then _export_diagram w self arguments
  else if String.eqb tool_name "arclang_info" then _info w self arguments
  else raise (ValueError ("Unknown core tool: " ++ tool_name)).

End CoreTools.

(** ** Generation tools ([tools/generation.py]) *)

Module GenerationTools.

Import PyStr.

Record t : Type := {
  compiler : ArcLangCompiler.t;
  config : gmap string (gmap string pyval);
  generator : AIGenerator.t
}.

Definition __init__ (w : World) (compiler : ArcLangCompiler.t)
    (config : gmap string (gmap string pyval)) : t :=
  {| compiler := compiler;
     config := config;
     generator := AIGenerator.__init__ w (default ∅ (config !! "ai")) |}.

Definition fence (code : string) : string :=
  "```arc" ++ nl ++ code ++ nl ++ "```" ++ nl ++ nl.

Definition _generate_requirement (w : World) (self : t) (args : gmap string pyval) : M string :=
  let* description := lift (arg args "description") in
  let safety_level := arg_get args "safety_level" VNone in
  let priority := arg_get args "priority" (VStr "High") in
  let* requirement_code :=
    AIGenerator.generate_requirement w (generator self) description safety_level priority in
  ret ("✨ **Generated Requirement**" ++ nl ++ nl ++ fence requirement_code
       ++ "**Next Steps**:" ++ nl
       ++ "1. Review the generated requirement" ++ nl
       ++ "2. Adjust safety level if needed" ++ nl
       ++ "3. Add to your model file" ++ nl
       ++ "4. Create traceability links to components").

Definition _generate_component (w : World) (self : t) (args : gmap string pyval) : M string :=
  let* description := lift (arg args "description") in
  let component_type := arg_get args "component_type" (VStr "Logical") in
  let safety_level := arg_get args "safety_level" VNone in
  let* component_code :=
    AIGenerator.generate_component w (generator self) description component_type safety_level in
  ret ("✨ **Generated Component**" ++ nl ++ nl ++ fence component_code
       ++ "**Next Steps**:" ++ nl
       ++ "1. Review the component structure" ++ nl
       ++ "2. Add input/output ports if needed" ++ nl
       ++ "3. Add to your logical_architecture block" ++ nl
       ++ "4. Create traces to requirements").

(** One entry of the list of suggested components. *)
Definition suggested_component (i : Z) (component : pyval) : Result string :=
  let? name := Py.getitem component "name" in
  let? type := Py.getitem component "type" in
  let? description := Py.getitem component "description" in
  let? safety := Py.get component "safety_level" VNone in
  Ok (of_Z i ++ ". **" ++ Py.str name ++ "** (" ++ Py.str type ++ ")" ++ nl
      ++ "   - Purpose: " ++ Py.str description ++ nl
      ++ (if Py.truthy safety then "   - Safety: " ++ Py.str safety ++ nl else EmptyString)
      ++ nl).

Definition _suggest_architecture (w : World) (self : t) (args : gmap string pyval) : M string :=
  let* requirements := lift (arg args "requirements") in
  let domain := arg_get args "domain" (VStr "automotive") in
  let* suggestions :=
    AIGenerator.suggest_architecture w (generator self) requirements domain in
  let* domain_text := lift (Py.str_method "capitalize" capitalize domain) in
  let* count := lift (Py.len requirements) in
  let* components := lift (Py.get suggestions "components" (VList [])) in
  let* items := lift (Py.iter components) in
  let* component_text := lift (render_enumerated suggested_component 1 items) in
  let* patterns := lift (Py.get suggestions "patterns" VNone) in
  let* pattern_text :=
    if Py.truthy patterns then
      let* listed := lift (Py.getitem suggestions "patterns") in
      let* each := lift (Py.iter listed) in
      ret (nl ++ "**Recommended Patterns**:" ++ nl
           ++ concat (List.map (fun pattern => "  - " ++ Py.str pattern ++ nl) each))
    else ret EmptyString in
  ret ("💡 **Architecture Suggestions**" ++ nl ++ nl
       ++ "**Domain**: " ++ domain_text ++ nl
       ++ "**Based on**: " ++ of_Z count ++ " requirements" ++ nl ++ nl
       ++ "**Suggested Components**:" ++ nl ++ nl
       ++ component_text
       ++ pattern_text
       ++ nl ++ "**Next Steps**:" ++ nl
       ++ "1. Review suggested architecture" ++ nl
       ++ "2. Refine based on your specific needs" ++ nl
       ++ "3. Generate individual components" ++ nl
       ++ "4. Establish data flows and interfaces").

Definition execute (w : World) (self : t) (tool_name : string) (arguments : gmap string pyval)
  : M string :=
  if String.eqb tool_name "arclang_generate_requirement"
  then _generate_requirement w self arguments
  else if String.eqb tool_name "arclang_generate_component"
  then _generate_component w self arguments
  else if String.eqb tool_name "arclang_suggest_architecture"
  then _suggest_architecture w self arguments
  else raise (ValueError ("Unknown generation tool: " ++ tool_name)).

End GenerationTools.

(** ** Safety tools ([tools/safety.py]) *)

Module SafetyTools.

Import PyStr.

Record t : Type := {
  compiler : ArcLangCompiler.t;
  config : gmap string (gmap string pyval)
}.

Definition issue_text (issue : pyval) : Result string :=
  let? severity := Py.get issue "severity" (VStr "warning") in
  let icon := if AIGenerator.is_str severity "error" then "🔴" else "⚠️" in
  let? title := Py.getitem issue "title" in
  let? description := Py.getitem issue "description" in
  Ok (icon ++ " **" ++ Py.str title ++ "**" ++ nl
      ++ "   " ++ Py.str description ++ nl ++ nl).

(** The dictionary [safety_check] returns has no key ["report_path"], so
    the line of the detailed report is never rendered. *)
Definition _safety_check (w : World) (self : t) (args : gmap string pyval) : M string :=
  let* path_str := lift (arg args "model_path") in
  let* model_path := lift (path_of w path_str) in
  let* standard := lift (arg args "standard") in
  let generate_report := arg_get args "generate_report" (VBool false) in
  let* result :=
    ArcLangCompiler.safety_check w (compiler self) model_path standard generate_report in
  let* standard_text := lift (Py.str_method "upper" upper standard) in
  let issues := ArcLangCompiler.issues result in
  let recommendations := ArcLangCompiler.recommendations result in
  let* issue_lines := lift (render_each issue_text (List.firstn 10 issues)) in
  ret ("🛡️  **Safety Compliance Check**" ++ nl ++ nl
       ++ "**Standard**: " ++ standard_text ++ nl
       ++ "**Model**: " ++ path_name w model_path ++ nl ++ nl
       ++ (if ArcLangCompiler.compliant result
           then "✅ **Status**: Compliant" ++ nl ++ nl
           else "❌ **Status**: Non-compliant" ++ nl ++ nl)
       ++ match issues with
          | [] => EmptyString
          | _ => "**Issues Found** (" ++ len_str issues ++ "):" ++ nl ++ nl ++ issue_lines
          end
       ++ match recommendations with
          | [] => EmptyString
          | _ => nl ++ "**Recommendations**:" ++ nl
                 ++ concat (List.map (fun rec => "  - " ++ Py.str rec ++ nl)
                                     (List.firstn 5 recommendations))
          end).

Definition hazard_text (hazard : pyval) : Result string :=
  let? id := Py.getitem hazard "id" in
  let? description := Py.getitem hazard "description" in
  let? severity := Py.getitem hazard "severity" in
  let? exposure := Py.get hazard "exposure" (VStr "N/A") in
  let? controllability := Py.get hazard "controllability" (VStr "N/A") in
  let? asil := Py.get hazard "asil" (VStr "N/A") in
  Ok ("**" ++ Py.str id ++ "**: " ++ Py.str description ++ nl
      ++ "  - Severity: " ++ Py.str severity ++ nl
      ++ "  - Exposure: " ++ Py.str exposure ++ nl
      ++ "  - Controllability: " ++ Py.str controllability ++ nl
      ++ "  - ASIL: " ++ Py.str asil ++ nl ++ nl).

Definition _hazard_analysis (w : World) (self : t) (args : gmap string pyval) : M string :=
  let* path_str := lift (arg args "model_path") in
  let* model_path := lift (path_of w path_str) in
  let standard := arg_get args "standard" (VStr "iso26262") in
  let* result := ArcLangCompiler.hazard_analysis w (compiler self) model_path standard in
  let* standard_text := lift (Py.str_method "upper" upper standard) in
  let hazards := ArcLangCompiler.hazards result in
  let* hazard_lines := lift (render_each hazard_text (List.firstn 5 hazards)) in
  ret ("⚠️  **Hazard Analysis (HARA)**" ++ nl ++ nl
       ++ "**Standard**: " ++ standard_text ++ nl
       ++ "**Model**: " ++ path_name w model_path ++ nl ++ nl
       ++ "**Hazards Identified**: " ++ len_str hazards ++ nl ++ nl
       ++ hazard_lines).

Definition execute (w : World) (self : t) (tool_name : string) (arguments : gmap string pyval)
  : M string :=
  if String.eqb tool_name "arclang_safety_check" then _safety_check w self arguments
  else if String.eqb tool_name "arclang_hazard_analysis" then _hazard_analysis w self arguments
  else raise (ValueError ("Unknown safety tool: " ++ tool_name)).

End SafetyTools.

(** ** Integration tools ([tools/integration.py]) *)

Module IntegrationTools.

Import PyStr.

Record t : Type := {
  compiler : ArcLangCompiler.t;
  config : gmap string (gmap string pyval)
}.

Definition conflict_text (conflict : pyval) : Result string :=
  let? id := Py.getitem conflict "id" in
  let? type := Py.getitem conflict "type" in
  let? ours := Py.get conflict "ours_summary" (VStr "N/A") in
  let? theirs := Py.get conflict "theirs_summary" (VStr "N/A") in
  let? suggestion := Py.get conflict "suggestion" (VStr "Manual resolution needed") in
  Ok ("**" ++ Py.str id ++ "**:" ++ nl
      ++ "  - Type: " ++ Py.str type ++ nl
      ++ "  - Ours: " ++ Py.str ours ++ nl
      ++ "  - Theirs: " ++ Py.str theirs ++ nl
      ++ "  - Suggestion: " ++ Py.str suggestion ++ nl ++ nl).

Definition _git_merge (w : World) (self : t) (args : gmap string pyval) : M string :=
  let* base_str := lift (arg args "base_path") in
  let* base_path := lift (path_of w base_str) in
  let* ours_str := lift (arg args "ours_path") in
  let* ours_path := lift (path_of w ours_str) in
  let* theirs_str := lift (arg args "theirs_path") in
  let* theirs_path := lift (path_of w theirs_str) in
  let* result :=
    ArcLangCompiler.semantic_merge w (compiler self) base_path ours_path theirs_path in
  if ArcLangCompiler.clean_merge result then
    ret ("🔀 **Semantic Merge Analysis**" ++ nl ++ nl
         ++ "✅ **Clean merge** - No conflicts!" ++ nl ++ nl
         ++ "**Elements merged**: " ++ of_Z (ArcLangCompiler.merged_count result) ++ nl)
  else
    let conflicts := ArcLangCompiler.conflicts result in
    let* conflict_lines := lift (render_each conflict_text (List.firstn 5 conflicts)) in
    ret ("🔀 **Semantic Merge Analysis**" ++ nl ++ nl
         ++ "⚠️  **Conflicts detected**: " ++ len_str conflicts ++ nl ++ nl
         ++ conflict_lines).

Definition _plm_sync (w : World) (self : t) (args : gmap string pyval) : M string :=
  let* path_str := lift (arg args "model_path") in
  let* model_path := lift (path_of w path_str) in
  let* system := lift (arg args "system") in
  let operation := arg_get args "operation" (VStr "pull") in
  let* result := ArcLangCompiler.plm_sync w (compiler self) model_path system operation in
  let* system_text := lift (Py.str_method "upper" upper system) in
  let head :=
    "🔄 **PLM Synchronization**" ++ nl ++ nl
    ++ "**System**: " ++ system_text ++ nl
    ++ "**Operation**: " ++ Py.str operation ++ nl
    ++ "**Model**: " ++ path_name w model_path ++ nl ++ nl in
  if ArcLangCompiler.plm_success result then
    let changes := of_Z (ArcLangCompiler.changes_count result) in
    ret (head ++ "✅ Synchronization successful" ++ nl ++ nl
         ++ (if AIGenerator.is_str operation "pull"
             then "**Changes pulled**: " ++ changes ++ nl
             else if AIGenerator.is_str operation "push"
                  then "**Changes pushed**: " ++ changes ++ nl
                  else EmptyString))
  else
    ret (head ++ "❌ Synchronization failed" ++ nl ++ nl
         ++ Py.str (ArcLangCompiler.plm_error result)).

Definition execute (w : World) (self : t) (tool_name : string) (arguments : gmap string pyval)
  : M string :=
  if String.eqb tool_name "arclang_git_merge" then _git_merge w self arguments
  else if String.eqb tool_name "arclang_plm_sync" then _plm_sync w self arguments
  else raise (ValueError ("Unknown integration tool: " ++ tool_name)).

End IntegrationTools.

(** ** The dispatcher ([server.py]) *)

(** [TextContent(type="text", text=...)]. *)
Record TextContent : Type := { type : string; text : string }.

(** The [execute] methods of the four tool groups the dispatcher holds. *)
Record ToolGroups : Type := {
  core_execute : string -> gmap string pyval -> M string;
  generation_execute : string -> gmap string pyval -> M string;
  safety_execute : string -> gmap string pyval -> M string;
  integration_execute : string -> gmap string pyval -> M string
}.

Module ArcLangMCPServer.

Record t : Type := {
  workspace_root : Path;
  config : gmap string (gmap string pyval);
  compiler : ArcLangCompiler.t;
  core_tools : CoreTools.t;
  generation_tools : GenerationTools.t;
  safety_tools : SafetyTools.t;
  integration_tools : IntegrationTools.t
}.

(** [__init__], from the configuration [load_config] returned. *)
Definition __init__ (w : World) (workspace_root : Path)
    (config : gmap string (gmap string pyval)) : t :=
  let compiler := ArcLangCompiler.__init__ w (default ∅ (config !! "compiler")) in
  {| workspace_root := workspace_root;
     config := config;
     compiler := compiler;
     core_tools := {| CoreTools.compiler := compiler;
                      CoreTools.workspace_root := workspace_root |};
     generation_tools := GenerationTools.__init__ w compiler config;
     safety_tools := {| SafetyTools.compiler := compiler; SafetyTools.config := config |};
     integration_tools := {| IntegrationTools.compiler := compiler;
                             IntegrationTools.config := config |} |}.

(** The names [list_tools] declares, with the arguments each requires. *)
Definition catalogue : list (string * list string) :=
  [ ("arclang_compile", ["model_path"]);
    ("arclang_validate", ["model_path"]);
    ("arclang_trace_analysis", ["model_path"]);
    ("arclang_export_diagram", ["model_path"]);
    ("arclang_info", ["model_path"]);
    ("arclang_generate_requirement", ["description"]);
    ("arclang_generate_component", ["description"]);
    ("arclang_suggest_architecture", ["requirements"]);
    ("arclang_safety_check", ["model_path"; "standard"]);
    ("arclang_hazard_analysis", ["model_path"]);
    ("arclang_git_merge", ["base_path"; "ours_path"; "theirs_path"]) ].

Definition core_names : list string :=
  ["arclang_validate"; "arclang_trace_analysis"; "arclang_export_diagram"; "arclang_info"].

Definition name_in (name : string) (names : list string) : bool :=
  List.existsb (String.eqb name) names.

(** The routing of [call_tool], inside its [try]. *)
Definition route (g : ToolGroups) (name : string) (arguments : gmap string pyval) : M string :=
  if String.prefix "arclang_compile" name || name_in name core_names
  then core_execute g name arguments
  else if String.prefix "arclang_generate" name
          || String.eqb name "arclang_suggest_architecture"
  then generation_execute g name arguments
  else if String.prefix "arclang_safety" name || String.eqb name "arclang_hazard_analysis"
  then safety_execute g name arguments
  else if String.prefix "arclang_git" name || String.prefix "arclang_plm" name
  then integration_execute g name arguments
  else raise (ValueError ("Unknown tool: " ++ name)).

(** [call_tool] over any four tool groups. *)
Definition dispatch (g : ToolGroups) (name : string) (arguments : gmap string pyval)
  : M (list TextContent) :=
  try_except
    (let* result := route g name arguments in
     ret [ {| type := "text"; text := result |} ])
    (fun e =>
       let* _ := emit (LogError ("Error executing tool " ++ name ++ ": " ++ str_exn e)) in
       ret [ {| type := "text"; text := "Error: " ++ str_exn e |} ]).

Definition groups (w : World) (self : t) : ToolGroups :=
  {| core_execute := CoreTools.execute w (core_tools self);
     generation_execute := GenerationTools.execute w (generation_tools self);
     safety_execute := SafetyTools.execute w (safety_tools self);
     integration_execute := IntegrationTools.execute w (integration_tools self) |}.

Definition call_tool (w : World) (self : t) (name : string) (arguments : gmap string pyval)
  : M (list TextContent) :=
  dispatch (groups w self) name arguments.

End ArcLangMCPServer.

(** ** A sample world

    Paths are taken literally, the environment is empty, the binary
    answers the scenario of the specification, the backend is unreachable
    and no text is JSON. *)

Module Sample.

Import PyStr.

Definition scenario_stdout : string :=
  "Requirements: 12" ++ nl ++ "Components: 5" ++ nl.

Definition literal_path (v : pyval) : Result Path :=
  match v with
  | VStr s => Ok s
  | _ => Raise (TypeError ("expected str, bytes or os.PathLike object, not "
                           ++ Py.type_name v))
  end.

(** The components of a literal path: empty ones and [.] are dropped, as
    [pathlib] does. *)
Definition components (p : Path) : list string :=
  List.filter (fun part => negb (String.eqb part EmptyString || String.eqb part "."))
              (split "/" p).

Definition root (p : Path) : string :=
  if String.prefix "//" p && negb (String.prefix "///" p) then "//"
  else if String.prefix "/" p then "/"
  else EmptyString.

(** [str(path)]. *)
Definition normal (p : Path) : string :=
  match root p ++ join "/" (components p) with
  | EmptyString => "."
  | text => text
  end.

(** [PurePath.with_suffix]: the last suffix of the name is replaced. *)
Definition path_with_suffix (p : Path) (suffix : string) : Result Path :=
  if contains "/" suffix
     || (negb (String.eqb suffix EmptyString) && negb (String.prefix "." suffix))
     || String.eqb suffix "."
  then Raise (ValueError ("Invalid suffix " ++ repr suffix))
  else
    match last_item (components p) with
    | EmptyString =>
        Raise (ValueError ("PosixPath(" ++ repr (normal p) ++ ") has an empty name"))
    | name =>
        let pieces := split "." name in
        let stem := join "." (List.removelast pieces) in
        let has_suffix :=
          negb (String.eqb stem EmptyString)
          && negb (String.eqb (last_item pieces) EmptyString)
          && (1 <? Z.of_nat (List.length pieces)) in
        let kept := if has_suffix then stem else name in
        Ok (root p ++ join "/" (List.removelast (components p) ++ [(kept ++ suffix)%string])%list)
    end.

Definition world (binary : list pyval -> pyval -> ProcBehaviour)
    (backend : pyval -> Request -> Result (list ContentBlock)) : World :=
  {| getenv := fun _ => None;
     path_of := literal_path;
     is_absolute := String.prefix "/";
     joinpath := fun a b => a ++ "/" ++ b;
     path_name := fun p => last_item (split "/" p);
     with_suffix := path_with_suffix;
     path_exists := fun _ => false;
     stat_size_kb := fun _ => Ok (VInt 0);
     run_process := binary;
     messages_create := backend;
     json_loads := fun _ => Raise (JSONDecodeError "Expecting value: line 1 column 1 (char 0)") |}.

Definition unreachable : pyval -> Request -> Result (list ContentBlock) :=
  fun _ _ => Raise (BackendError "Connection error.").

Definition answers (out : string) : list pyval -> pyval -> ProcBehaviour :=
  fun _ _ => Exits 0 (Ok out) (Ok EmptyString).

Definition config (api_key : pyval) : gmap string (gmap string pyval) :=
  {[ "compiler" := {[ "path" := VStr "arclang"; "timeout" := VInt 30 ]};
     "ai" := {[ "provider" := VStr "anthropic"; "api_key" := api_key ]} ]}.

Definition server (w : World) (api_key : pyval) : ArcLangMCPServer.t :=
  ArcLangMCPServer.__init__ w "/ws" (config api_key).

End Sample.

(** ** Configuration ([utils/config.py]) *)

Module Config.

(** [d[k] = v] on a dictionary: the entry is replaced where it stands, or
    added at the end. *)
Fixpoint dict_set (k : string) (v : pyval) (items : list (string * pyval))
  : list (string * pyval) :=
  match items with
  | [] => [(k, v)]
  | (k', x) :: rest =>
      if String.eqb k k' then (k', v) :: rest else (k', x) :: dict_set k v rest
  end.

(** [_deep_merge(base, override)], by recursion on the override: the loop
    runs over [override.items()] and updates the copy of [base]. *)
Fixpoint merge_into (override : pyval) (base : list (string * pyval)) {struct override}
  : list (string * pyval) :=
  match override with
  | VDict items =>
      (fix loop (items : list (string * pyval)) (result : list (string * pyval))
         : list (string * pyval) :=
         match items with
         | [] => result
         | (key, value) :: rest =>
             loop rest
               match Py.assoc key result, value with
               | Some (VDict sub), VDict _ =>
                   dict_set key (VDict (merge_into value sub)) result
               | _, _ => dict_set key value result
               end
         end) items base
  | _ => base
  end.

Definition _deep_merge (base override : list (string * pyval)) : list (string * pyval) :=
  merge_into (VDict override) base.

(** The default configuration, with the API key the environment holds. *)
Definition defaults (w : World) (workspace_root : Path) : list (string * pyval) :=
  [ ("workspace", VDict [("root", VStr workspace_root); ("build_dir", VStr "build/")]);
    ("compiler", VDict [("path", VStr "arclang"); ("timeout", VInt 30)]);
    ("ai", VDict [("provider", VStr "anthropic");
                  ("model", VStr "claude-3-5-sonnet-20241022");
                  ("temperature", VFloat "0.3");
                  ("api_key", ArcLangCompiler.getenv_val w "ANTHROPIC_API_KEY")]);
    ("cache", VDict [("enabled", VBool true); ("ttl", VInt 3600)]);
    ("plm", VDict [("enabled", VBool false)]);
    ("safety", VDict [("default_standard", VStr "iso26262");
                      ("strict_validation", VBool true)]) ].

(** [target[k] = v] for a string key, on any value. *)
Definition setitem (target : pyval) (k : string) (v : pyval) : Result pyval :=
  match target with
  | VDict items => Ok (VDict (dict_set k v items))
  | VList _ => Raise (TypeError "list indices must be integers or slices, not str")
  | _ => Raise (TypeError ("'" ++ Py.type_name target
                           ++ "' object does not support item assignment"))
  end.

(** [config[section][k] = os.environ[name]] under [if name in os.environ]. *)
Definition override_from_env (w : World) (name section k : string)
    (config : list (string * pyval)) : Result (list (string * pyval)) :=
  match getenv w name with
  | Some value =>
      let? table := Py.getitem (VDict config) section in
      let? table' := setitem table k (VStr value) in
      Ok (dict_set section table' config)
  | None => Ok config
  end.

(** [load_config(workspace_root)]; [toml_load] is [toml.load] on the path
    of the configuration file. The first component holds what the function
    prints. *)
Definition load_config (w : World) (toml_load : Path -> Result (list (string * pyval)))
    (workspace_root : Path) : list string * Result (list (string * pyval)) :=
  let config := defaults w workspace_root in
  let config_file := joinpath w workspace_root ".arclang-mcp.toml" in
  let '(printed, config) :=
    if path_exists w config_file then
      match toml_load config_file with
      | Ok user_config => ([], _deep_merge config user_config)
      | Raise e => (["Warning: Failed to load config file: " ++ str_exn e], config)
      end
    else ([], config) in
  (printed,
   let? config := override_from_env w "ARCLANG_BINARY" "compiler" "path" config in
   override_from_env w "ANTHROPIC_API_KEY" "ai" "api_key" config).

End Config.

(** ** The declared tools and resources ([server.py], [resources/syntax_guide.py]) *)

Module Catalogue.

(** [mcp.types.Tool]: a name, a description and a JSON schema. *)
Record Tool : Type := {
  name : string;
  description : string;
  inputSchema : pyval
}.

(** What [list_tools] returns. *)
Definition list_tools : list Tool :=
  [
    {| name := "arclang_compile";
       description :=
         "Compile ArcLang model to Capella XML format. Validates syntax and semantics.";
       inputSchema :=
         VDict [ ("type", VStr "object");
                ("properties", VDict [ ("model_path", VDict [ ("type", VStr "string");
                    ("description", VStr "Path to .arc model file") ]);
                  ("validate", VDict [ ("type", VStr "boolean");
                    ("description", VStr "Run validation checks");
                    ("default", VBool true) ]);
                  ("optimize", VDict [ ("type", VStr "boolean");
                    ("description", VStr "Enable optimizations");
                    ("default", VBool false) ]) ]);
                ("required", VList [VStr "model_path"]) ] |};
    {| name := "arclang_validate";
       description :=
         "Validate ArcLang model syntax and semantics without compilation.";
       inputSchema :=
         VDict [ ("type", VStr "object");
                ("properties", VDict [ ("model_path", VDict [ ("type", VStr "string");
                    ("description", VStr "Path to .arc model file") ]);
                  ("strict", VDict [ ("type", VStr "boolean");
                    ("description", VStr "Enable strict validation mode");
                    ("default", VBool false) ]) ]);
                ("required", VList [VStr "model_path"]) ] |};
    {| name := "arclang_trace_analysis";
       description :=
         "Analyze traceability coverage and find gaps in requirements/component traces.";
       inputSchema :=
         VDict [ ("type", VStr "object");
                ("properties", VDict [ ("model_path", VDict [ ("type", VStr "string");
                    ("description", VStr "Path to .arc model file or directory") ]);
                  ("show_gaps", VDict [ ("type", VStr "boolean");
                    ("description", VStr "Show untraced elements");
                    ("default", VBool true) ]);
                  ("matrix", VDict [ ("type", VStr "boolean");
                    ("description", VStr "Generate traceability matrix");
                    ("default", VBool false) ]) ]);
                ("required", VList [VStr "model_path"]) ] |};
    {| name := "arclang_export_diagram";
       description :=
         "Generate architecture diagram from ArcLang model.";
       inputSchema :=
         VDict [ ("type", VStr "object");
                ("properties", VDict [ ("model_path", VDict [ ("type", VStr "string");
                    ("description", VStr "Path to .arc model file") ]);
                  ("format", VDict [ ("type", VStr "string");
                    ("enum", VList [VStr "capella"; VStr "json"; VStr "yaml"; VStr "xml"; VStr "markdown"; VStr "html"; VStr "pdf"]);
                    ("description", VStr "Output diagram format");
                    ("default", VStr "html") ]);
                  ("output_path", VDict [ ("type", VStr "string");
                    ("description", VStr "Output file path") ]) ]);
                ("required", VList [VStr "model_path"]) ] |};
    {| name := "arclang_info";
       description :=
         "Get model metrics and statistics (requirements count, components, coverage, etc.).";
       inputSchema :=
         VDict [ ("type", VStr "object");
                ("properties", VDict [ ("model_path", VDict [ ("type", VStr "string");
                    ("description", VStr "Path to .arc model file or directory") ]);
                  ("detailed", VDict [ ("type", VStr "boolean");
                    ("description", VStr "Include detailed metrics");
                    ("default", VBool false) ]) ]);
                ("required", VList [VStr "model_path"]) ] |};
    {| name := "arclang_generate_requirement";
       description :=
         (PyStr.join PyStr.nl
        [ "Generate ArcLang requirement from natural language description.";
          "                    ";
          "MANDATORY SYNTAX: Use 'req ID " ++ PyStr.dq ++ "Title" ++ PyStr.dq ++ " { }' format inside 'requirements stakeholder/system/safety { }' block.";
          "CORRECT: requirements stakeholder { req STK-001 " ++ PyStr.dq ++ "Title" ++ PyStr.dq ++ " { description: " ++ PyStr.dq ++ "Text" ++ PyStr.dq ++ " } }";
          "WRONG: requirement " ++ PyStr.dq ++ "REQ-001" ++ PyStr.dq ++ " { } or req { id: " ++ PyStr.dq ++ "REQ-001" ++ PyStr.dq ++ " }" ]);
       inputSchema :=
         VDict [ ("type", VStr "object");
                ("properties", VDict [ ("description", VDict [ ("type", VStr "string");
                    ("description", VStr "Natural language description of requirement") ]);
                  ("safety_level", VDict [ ("type", VStr "string");
                    ("enum", VList [VStr "ASIL_A"; VStr "ASIL_B"; VStr "ASIL_C"; VStr "ASIL_D"; VStr "DAL_A"; VStr "DAL_B"; VStr "DAL_C"; VStr "DAL_D"; VStr "SIL_1"; VStr "SIL_2"; VStr "SIL_3"; VStr "SIL_4"]);
                    ("description", VStr "Safety integrity level") ]);
                  ("priority", VDict [ ("type", VStr "string");
                    ("enum", VList [VStr "Critical"; VStr "High"; VStr "Medium"; VStr "Low"]);
                    ("description", VStr "Requirement priority");
                    ("default", VStr "High") ]) ]);
                ("required", VList [VStr "description"]) ] |};
    {| name := "arclang_generate_component";
       description :=
         (PyStr.join PyStr.nl
        [ "Generate ArcLang component architecture from description.";
          "                    ";
          "MANDATORY SYNTAX: Use 'component Name " ++ PyStr.dq ++ "Display" ++ PyStr.dq ++ " { }' inside 'architecture logical/physical { }' block.";
          "CORRECT: component SensorSubsystem " ++ PyStr.dq ++ "Sensor" ++ PyStr.dq ++ " { provides interface IData { } }";
          "WRONG: component " ++ PyStr.dq ++ "Name" ++ PyStr.dq ++ " { port " ++ PyStr.dq ++ "input" ++ PyStr.dq ++ " { } } or component { name: " ++ PyStr.dq ++ "Name" ++ PyStr.dq ++ " }" ]);
       inputSchema :=
         VDict [ ("type", VStr "object");
                ("properties", VDict [ ("description", VDict [ ("type", VStr "string");
                    ("description", VStr "Natural language description of component") ]);
                  ("component_type", VDict [ ("type", VStr "string");
                    ("enum", VList [VStr "Logical"; VStr "Physical"; VStr "Operational"]);
                    ("description", VStr "Component type");
                    ("default", VStr "Logical") ]);
                  ("safety_level", VDict [ ("type", VStr "string");
                    ("description", VStr "Safety integrity level (optional)") ]) ]);
                ("required", VList [VStr "description"]) ] |};
    {| name := "arclang_suggest_architecture";
       description :=
         "Get AI-powered architecture suggestions based on requirements.";
       inputSchema :=
         VDict [ ("type", VStr "object");
                ("properties", VDict [ ("requirements", VDict [ ("type", VStr "array");
                    ("items", VDict [ ("type", VStr "string") ]);
                    ("description", VStr "List of requirement descriptions") ]);
                  ("domain", VDict [ ("type", VStr "string");
                    ("enum", VList [VStr "automotive"; VStr "aerospace"; VStr "defense"; VStr "industrial"]);
                    ("description", VStr "Application domain") ]) ]);
                ("required", VList [VStr "requirements"]) ] |};
    {| name := "arclang_safety_check";
       description :=
         "Validate model against safety standards (ISO 26262, DO-178C, IEC 61508).";
       inputSchema :=
         VDict [ ("type", VStr "object");
                ("properties", VDict [ ("model_path", VDict [ ("type", VStr "string");
                    ("description", VStr "Path to .arc model file") ]);
                  ("standard", VDict [ ("type", VStr "string");
                    ("enum", VList [VStr "iso26262"; VStr "do178c"; VStr "iec61508"]);
                    ("description", VStr "Safety standard to validate against") ]);
                  ("generate_report", VDict [ ("type", VStr "boolean");
                    ("description", VStr "Generate detailed HTML report");
                    ("default", VBool false) ]) ]);
                ("required", VList [VStr "model_path"; VStr "standard"]) ] |};
    {| name := "arclang_hazard_analysis";
       description :=
         "Perform HARA (Hazard Analysis and Risk Assessment) on model.";
       inputSchema :=
         VDict [ ("type", VStr "object");
                ("properties", VDict [ ("model_path", VDict [ ("type", VStr "string");
                    ("description", VStr "Path to .arc model file") ]);
                  ("standard", VDict [ ("type", VStr "string");
                    ("enum", VList [VStr "iso26262"; VStr "iec61508"]);
                    ("description", VStr "Safety standard");
                    ("default", VStr "iso26262") ]) ]);
                ("required", VList [VStr "model_path"]) ] |};
    {| name := "arclang_git_merge";
       description :=
         "Semantic merge assistance for ArcLang models (resolves conflicts by component ID).";
       inputSchema :=
         VDict [ ("type", VStr "object");
                ("properties", VDict [ ("base_path", VDict [ ("type", VStr "string");
                    ("description", VStr "Path to base version") ]);
                  ("ours_path", VDict [ ("type", VStr "string");
                    ("description", VStr "Path to our version") ]);
                  ("theirs_path", VDict [ ("type", VStr "string");
                    ("description", VStr "Path to their version") ]) ]);
                ("required", VList [VStr "base_path"; VStr "ours_path"; VStr "theirs_path"]) ] |}
  ].

(** [mcp.types.Resource]. *)
Record Resource : Type := {
  uri : string;
  resource_name : string;
  resource_description : string;
  mimeType : string
}.

(** What [list_resources] returns. *)
Definition list_resources : list Resource :=
  [ {| uri := "arclang://syntax-rules";
       resource_name := "ArcLang Syntax Rules";
       resource_description :=
         "Mandatory syntax rules for generating ArcLang models. AI clients MUST follow these rules.";
       mimeType := "text/markdown" |} ].

Definition ARCLANG_SYNTAX_RULES : string :=
  PyStr.join PyStr.nl
    [ EmptyString;
      "# ArcLang Syntax Rules - MANDATORY FOR ALL AI CLIENTS";
      EmptyString;
      "## Model Declaration (REQUIRED FORMAT)";
      "```arc";
      "model ModelName {";
      "    // ModelName must be IDENTIFIER (no quotes, no spaces)";
      "}";
      "```";
      EmptyString;
      "## Requirements (REQUIRED FORMAT)";
      "```arc";
      "requirements stakeholder {";
      "    req REQ-ID " ++ PyStr.dq ++ "Title" ++ PyStr.dq ++ " {";
      "        description: " ++ PyStr.dq ++ "Text" ++ PyStr.dq;
      "        priority: Critical";
      "        safety_level: ASIL_B";
      "    }";
      "}";
      "```";
      EmptyString;
      "## Architecture (REQUIRED FORMAT)";
      "```arc";
      "architecture logical {";
      "    component ComponentName " ++ PyStr.dq ++ "Display Name" ++ PyStr.dq ++ " {";
      "        description: " ++ PyStr.dq ++ "Text" ++ PyStr.dq;
      "        provides interface IName {";
      "            signals: [" ++ PyStr.dq ++ "Signal: Type" ++ PyStr.dq ++ "]";
      "        }";
      "    }";
      "    connect ComponentA.IInterface -> ComponentB";
      "}";
      "```";
      EmptyString;
      "## PROHIBITED SYNTAX";
      "❌ model " ++ PyStr.dq ++ "Name with Spaces" ++ PyStr.dq ++ " { }      → Use: model ModelName { }";
      "❌ system " ++ PyStr.dq ++ "Name" ++ PyStr.dq ++ " { }                  → Use: model Name { }";
      "❌ requirement " ++ PyStr.dq ++ "REQ-001" ++ PyStr.dq ++ " { }          → Use: req REQ-001 " ++ PyStr.dq ++ "Title" ++ PyStr.dq ++ " { }";
      "❌ logical_architecture { }           → Use: architecture logical { }";
      "❌ component " ++ PyStr.dq ++ "Name" ++ PyStr.dq ++ " { }               → Use: component Name " ++ PyStr.dq ++ "Display" ++ PyStr.dq ++ " { }";
      "❌ port " ++ PyStr.dq ++ "name" ++ PyStr.dq ++ " { }                    → Use: provides interface IName { }";
      "❌ function " ++ PyStr.dq ++ "name" ++ PyStr.dq ++ " { }                → Use: description attribute";
      "❌ Top-level requirements { }         → Wrap in model { }";
      EmptyString;
      "## Key Rules";
      "1. Always wrap everything in: model Name { }";
      "2. Use 'architecture logical' not 'logical_architecture'";
      "3. Use 'requirements stakeholder/system/safety' with subtype";
      "4. Use 'req ID " ++ PyStr.dq ++ "Title" ++ PyStr.dq ++ "' not 'requirement " ++ PyStr.dq ++ "ID" ++ PyStr.dq ++ "'";
      "5. Component names are identifiers, display names are strings";
      "6. Interfaces use 'provides/requires' not 'port'";
      EmptyString;
      "ALL GENERATED CODE WILL BE VALIDATED. FOLLOW THESE RULES EXACTLY.";
      EmptyString ].

Definition get_syntax_rules : string := ARCLANG_SYNTAX_RULES.

Definition read_resource (uri : string) : Result string :=
  if String.eqb uri "arclang://syntax-rules" then Ok get_syntax_rules
  else Raise (ValueError ("Unknown resource: " ++ uri)).

End Catalogue.

(** * The vocabulary of the properties *)

(** ** Metrics extraction: terms *)

Section MetricsTerms.

Import ArcLangCompiler.

(** The metric a line reports, by the order of the tests of
    [_parse_metrics]. *)
Definition label_of (line : string) : option string :=
  if PyStr.contains "Requirements:" line then Some "requirements"
  else if PyStr.contains "Components:" line then Some "components"
  else if PyStr.contains "Functions:" line then Some "functions"
  else if PyStr.contains "Traces:" line then Some "traces"
  else None.

Definition metric_fields : list string :=
  ["requirements"; "components"; "functions"; "traces"].

(** A line is well formed when it reports no metric, or its tail is an
    integer literal. *)
Definition line_ok (line : string) : bool :=
  match label_of line with
  | Some _ => match PyInt.int (line_value line) with Ok _ => true | Raise _ => false end
  | None => true
  end.

(** What a dictionary of metrics holds for an output: an entry exactly
    for the metrics some line reports, each the integer of such a line and
    one of the four fields. *)
Definition holds_reported (output : string) (m : gmap string Z) : Prop :=
  let lines := PyStr.split "010" output in
  (forall k, is_Some (m !! k) <-> exists line, In line lines /\ label_of line = Some k)
  /\ (forall k v, m !! k = Some v ->
        In k metric_fields
        /\ exists line, In line lines /\ label_of line = Some k
                        /\ PyInt.int (line_value line) = Ok v).

(** How a report is to show a metric: its value, and 0 when the dictionary
    has no entry for it. *)
Definition shown (m : gmap string Z) (k : string) : string :=
  match m !! k with
  | Some v => PyStr.of_Z v
  | None => "0"
  end.

(** The report of a successful compilation that shows the metrics [m]. *)
Definition compile_report (name : string) (m : gmap string Z) : string :=
  "✅ Compilation successful" ++ PyStr.nl ++ PyStr.nl
  ++ "**Model**: " ++ name ++ PyStr.nl
  ++ "**Requirements**: " ++ shown m "requirements" ++ PyStr.nl
  ++ "**Components**: " ++ shown m "components" ++ PyStr.nl
  ++ "**Functions**: " ++ shown m "functions" ++ PyStr.nl
  ++ "**Traces**: " ++ shown m "traces" ++ PyStr.nl
  ++ PyStr.nl ++ "**Output**: N/A".

(** The report of [arclang_info] that shows the metrics [m]. *)
Definition info_report (model_path : Path) (size : pyval) (m : gmap string Z) : string :=
  "📊 **Model Information**" ++ PyStr.nl ++ PyStr.nl
  ++ "**Path**: " ++ model_path ++ PyStr.nl
  ++ "**Size**: " ++ Py.str size ++ " KB" ++ PyStr.nl ++ PyStr.nl
  ++ "**Metrics**:" ++ PyStr.nl
  ++ "  - Requirements: " ++ shown m "requirements" ++ PyStr.nl
  ++ "  - Components: " ++ shown m "components" ++ PyStr.nl
  ++ "  - Functions: " ++ shown m "functions" ++ PyStr.nl
  ++ "  - Traces: " ++ shown m "traces" ++ PyStr.nl
  ++ "  - Actors: 0" ++ PyStr.nl
  ++ "  - Nodes: 0" ++ PyStr.nl ++ PyStr.nl.

(** The command line of [arclang_compile] and of [arclang_info] for the
    arguments of a call. *)
Definition compile_call (self : CoreTools.t) (model_path : Path)
    (args : gmap string pyval) : list pyval :=
  compile_cmd (CoreTools.compiler self) model_path
    (arg_get args "validate" (VBool true)) (arg_get args "optimize" (VBool false)).

Definition info_call (self : CoreTools.t) (model_path : Path)
    (args : gmap string pyval) : list pyval :=
  ([binary_path (CoreTools.compiler self); VStr "info"; VStr model_path; VStr "--metrics"]
   ++ flag_if (arg_get args "detailed" (VBool false)) "--detailed")%list.

(** The size [info] reads for a path. *)
Definition size_read (w : World) (model_path : Path) : Result pyval :=
  if path_exists w model_path then stat_size_kb w model_path else Ok (VInt 0).

(** The reports that show the metrics read them with a default of 0: when
    the process prints [output], the compile report (after exit status 0)
    and the info report (after any exit status) show the entries of [m]
    and 0 for a metric [m] lacks. *)
Definition reports_default_to_zero (output : string) (m : gmap string Z) : Prop :=
  forall (w : World) (self : CoreTools.t) (args : gmap string pyval) (p : pyval)
         (model_path : Path) (err : string),
    args !! "model_path" = Some p ->
    CoreTools._resolve_path w self p = Ok model_path ->
    (run_process w (compile_call self model_path args) (timeout (CoreTools.compiler self))
     = Exits 0 (Ok output) (Ok err) ->
     outcome (CoreTools._compile w self args)
     = Ok (compile_report (path_name w model_path) m))
    /\ (forall rc size,
          run_process w (info_call self model_path args) (timeout (CoreTools.compiler self))
          = Exits rc (Ok output) (Ok err) ->
          size_read w model_path = Ok size ->
          outcome (CoreTools._info w self args) = Ok (info_report model_path size m)).

End MetricsTerms.

(** ** The process invoker: terms *)

Section ProcessInvokerTerms.

Import ArcLangCompiler.


Definition never_answers : list pyval -> pyval -> ProcBehaviour :=
  fun _ _ => Fails TimeoutError.


Definition sample_compiler : t := {| binary_path := VStr "arclang"; timeout := VInt 30 |}.

End ProcessInvokerTerms.

(** ** The compiler facade: terms *)

Section CompilerFacadeTerms.

Import ArcLangCompiler.

Definition scenario_world : World :=
  Sample.world (Sample.answers Sample.scenario_stdout) Sample.unreachable.

Definition scenario_tools : CoreTools.t :=
  {| CoreTools.compiler := sample_compiler; CoreTools.workspace_root := "/ws" |}.

Definition scenario_call : gmap string pyval := {[ "model_path" := VStr "brake.arc" ]}.

(** The compile report of the scenario. *)
Definition scenario_report (name : string) : string :=
  "✅ Compilation successful" ++ PyStr.nl ++ PyStr.nl
  ++ "**Model**: " ++ name ++ PyStr.nl
  ++ "**Requirements**: 12" ++ PyStr.nl
  ++ "**Components**: 5" ++ PyStr.nl
  ++ "**Functions**: 0" ++ PyStr.nl
  ++ "**Traces**: 0" ++ PyStr.nl
  ++ PyStr.nl ++ "**Output**: N/A".

End CompilerFacadeTerms.

(** ** Coverage: terms *)

Section CoverageTerms.

Import ArcLangCompiler.

Definition coverage_line (line : string) : bool :=
  PyStr.contains "Coverage:" line || PyStr.contains "coverage:" line.

(** The report of the trace analysis up to the coverage line. *)
Definition trace_report_head (name : string) : string :=
  "🔗 **Traceability Analysis**" ++ PyStr.nl ++ PyStr.nl
  ++ "**Model**: " ++ name ++ PyStr.nl.

Definition coverage_world (out : string) : World :=
  Sample.world (Sample.answers out) Sample.unreachable.

Definition brake_model : gmap string pyval := {[ "model_path" := VStr "brake.arc" ]}.

Definition partial_world : World :=
  coverage_world ("Coverage: 85%" ++ PyStr.nl ++ "Traces: 40").
Definition high_world : World := coverage_world "Coverage: 150%".
Definition low_world : World := coverage_world "coverage: -5".

Definition core_of (w : World) : CoreTools.t :=
  ArcLangMCPServer.core_tools (Sample.server w VNone).

End CoverageTerms.

(** ** The generation facade: terms *)

Section GenerationFacadeTerms.

Import AIGenerator.

(** The identifier [_generate_requirement_id] builds for a text. *)
Definition requirement_id (d : string) : string := "REQ-" ++ initials d ++ "-001".
Definition component_id (d : string) : string := "LC-" ++ initials d ++ "-001".

Definition no_backend (w : World) : t := __init__ w ∅.
Definition with_backend (w : World) : t := __init__ w {[ "api_key" := VStr "sk-test" ]}.

Definition offline : World := Sample.world (Sample.answers EmptyString) Sample.unreachable.

Definition brake : pyval := VStr "brake pressure must not exceed limit".

(** The text a requirement block opens with. *)
Definition requirement_header (req_id : string) : string :=
  "requirement " ++ PyStr.dq ++ req_id ++ PyStr.dq.

(** A backend that answers every request with one text block. *)
Definition replies (text : string) : pyval -> Request -> Result (list ContentBlock) :=
  fun _ _ => Ok [TextBlock text].

Definition brake_block : string :=
  requirement_template "REQ-BP-001" brake VNone (VStr "High").

(** A world whose backend answers with the very text of the template. *)
Definition parrot : World :=
  Sample.world (Sample.answers EmptyString) (replies brake_block).

(** Whether a generator has a backend. *)
Definition has_backend (self : t) : bool :=
  match client self with
  | Some (Some _) => true
  | _ => false
  end.

Definition quoting : pyval := VStr "REQ-RR-001 rocks".

Definition chatty : World :=
  Sample.world (Sample.answers EmptyString) (replies "Here is an architecture for you.").

End GenerationFacadeTerms.

(** ** The dispatcher: terms *)

Section DispatcherTerms.

Import ArcLangMCPServer.

Definition payload (message : string) : list TextContent :=
  [ {| type := "text"; text := message |} ].

Definition error_payload (e : exn) : list TextContent :=
  payload ("Error: " ++ str_exn e).

(** Whether [call_tool] routes a name to one of the tool groups. *)
Definition routed (name : string) : bool :=
  String.prefix "arclang_compile" name || name_in name core_names
  || String.prefix "arclang_generate" name || String.eqb name "arclang_suggest_architecture"
  || String.prefix "arclang_safety" name || String.eqb name "arclang_hazard_analysis"
  || String.prefix "arclang_git" name || String.prefix "arclang_plm" name.

Definition missing (args : gmap string pyval) (field : string) : bool :=
  match args !! field with
  | None => true
  | Some _ => false
  end.

(** The first required argument, in the order of the schema, that a call
    does not carry. *)
Definition first_missing (required : list string) (args : gmap string pyval)
  : option string :=
  List.find (missing args) required.

(** The required arguments listed before [field]. *)
Fixpoint earlier (field : string) (required : list string) : list string :=
  match required with
  | [] => []
  | k :: rest => if String.eqb k field then [] else k :: earlier field rest
  end.

(** The arguments read before [field] are accepted by [Path]. *)
Definition paths_accepted (w : World) (args : gmap string pyval)
    (field : string) (required : list string) : Prop :=
  forall k v, In k (earlier field required) -> args !! k = Some v ->
              exists path, path_of w v = Ok path.

(** What a handler does when a required argument is missing: it raises
    before any outside call, and the exception is the [KeyError] of the
    first missing argument when the arguments read before it are paths. *)
Definition fails_fast (w : World) (m : M string) (args : gmap string pyval)
    (field : string) (required : list string) : Prop :=
  exists e, m = ([], Raise e)
            /\ (paths_accepted w args field required -> e = KeyError field).

Definition no_standard : gmap string pyval := {[ "model_path" := VStr "brake.arc" ]}.

(** A call whose [model_path] is a number, and which has no [standard]. *)
Definition numbered_path : gmap string pyval := {[ "model_path" := VInt 5 ]}.

Definition not_a_path : string := "expected str, bytes or os.PathLike object, not int".

End DispatcherTerms.

(** ** The output parser: terms *)

Section ParserTerms.

Import ArcLangCompiler.

(** Every byte of [s] satisfies [p]. *)
Fixpoint all_chars (p : ascii -> bool) (s : string) : bool :=
  match s with
  | EmptyString => true
  | String c t => p c && all_chars p t
  end.

(** A blank of one byte: TAB..CR, FS..US and the space. *)
Definition blank_byte (c : ascii) : bool := PyStr.isspace (String c EmptyString).

(** A byte of ASCII. *)
Definition ascii_byte (c : ascii) : bool := PyStr.code c <? 128.

(** A text of ASCII characters only. *)
Definition is_ascii (s : string) : bool := all_chars ascii_byte s.

(** A byte a blank can hold: a blank of ASCII, or a byte outside ASCII. *)
Definition hollow_byte (c : ascii) : bool := blank_byte c || negb (ascii_byte c).

(** The bytes of one character: a byte, then continuation bytes only. *)
Definition is_group (ch : string) : bool :=
  match ch with
  | EmptyString => false
  | String _ t => all_chars PyStr.is_continuation t
  end.

(** Characters that follow another: each begins with a byte that is not a
    continuation byte. *)
Fixpoint grouped_tail (cs : list string) : bool :=
  match cs with
  | [] => true
  | ch :: rest => is_group ch && negb (PyStr.continues ch) && grouped_tail rest
  end.

(** A list of characters as [PyStr.chars] cuts them. *)
Definition grouped (cs : list string) : bool :=
  match cs with
  | [] => true
  | ch :: rest => is_group ch && grouped_tail rest
  end.

(** The bytes of a text, each as a text of its own. *)
Fixpoint singletons (s : string) : list string :=
  match s with
  | EmptyString => []
  | String c t => String c EmptyString :: singletons t
  end.

(** A line that bears a coverage label and whose tail [_parse_coverage]
    can read. *)
Definition coverage_value (line : string) : option Z :=
  if coverage_line line then
    match PyInt.int (PyStr.rstrip_char "%" (line_value line)) with
    | Ok v => Some v
    | Raise _ => None
    end
  else None.

End ParserTerms.

(** ** The facade operations: terms *)

Section FacadeTerms.

Import ArcLangCompiler.

(** The report of [arclang_info] up to the line of the traces. *)
Definition info_report_head (model_path : Path) (r : InfoResult) : string :=
  "📊 **Model Information**" ++ PyStr.nl ++ PyStr.nl
  ++ "**Path**: " ++ model_path ++ PyStr.nl
  ++ "**Size**: " ++ Py.str (size_kb r) ++ " KB" ++ PyStr.nl ++ PyStr.nl
  ++ "**Metrics**:" ++ PyStr.nl
  ++ "  - Requirements: " ++ metric (info_metrics r) "requirements" ++ PyStr.nl
  ++ "  - Components: " ++ metric (info_metrics r) "components" ++ PyStr.nl
  ++ "  - Functions: " ++ metric (info_metrics r) "functions" ++ PyStr.nl
  ++ "  - Traces: " ++ metric (info_metrics r) "traces" ++ PyStr.nl.

End FacadeTerms.

(** ** Decimal numerals: terms *)

Section NumeralTerms.

(** A character of a decimal numeral: a digit or the minus sign. *)
Definition numeral_char (c : ascii) : bool :=
  match PyInt.digit_val c with
  | Some _ => true
  | None => Ascii.eqb c "-"
  end.

(** A character that is neither a blank nor a colon. *)
Definition plain_char (c : ascii) : bool :=
  ascii_byte c && negb (blank_byte c) && negb (Ascii.eqb c ":").

(** Within the limit of [int] on the number of digits. *)
Definition within_digit_limit (z : Z) : Prop :=
  (String.length (PyStr.of_Z (Z.abs z)) <= PyInt.max_str_digits)%nat.

End NumeralTerms.

(** ** Construction: terms *)

Section ConstructionTerms.

(** An environment variable that is set to a non-empty text. *)
Definition env_set (w : World) (name : string) : bool :=
  match getenv w name with
  | Some s => negb (String.eqb s EmptyString)
  | None => false
  end.

(** A lower-case ASCII letter. *)
Definition is_lower (c : ascii) : bool :=
  (97 <=? PyStr.code c) && (PyStr.code c <=? 122).

(** A character an initial can be: not a blank, not a lower-case letter. *)
Definition initial_char (c : ascii) : bool :=
  negb (blank_byte c) && negb (is_lower c).

Definition anthropic_error : exn :=
  AttributeError "'AIGenerator' object has no attribute 'client'".

(** The binary a wrapper built from a configuration runs. *)
Definition chosen_binary (w : World) (config : gmap string pyval) : pyval :=
  ArcLangCompiler.binary_path (ArcLangCompiler.__init__ w config).

(** A world with another environment. *)
Definition with_env (env : string -> option string) (w : World) : World :=
  {| getenv := env;
     path_of := path_of w;
     is_absolute := is_absolute w;
     joinpath := joinpath w;
     path_name := path_name w;
     with_suffix := with_suffix w;
     path_exists := path_exists w;
     stat_size_kb := stat_size_kb w;
     run_process := run_process w;
     messages_create := messages_create w;
     json_loads := json_loads w |}.

(** An environment that holds one variable. *)
Definition one_variable (name value : string) : string -> option string :=
  fun asked => if String.eqb asked name then Some value else None.

End ConstructionTerms.

(** ** Routing: terms *)

Section RoutingTerms.

Import ArcLangMCPServer.

(** What [call_tool] returns and logs for an exception raised before any
    outside call. *)
Definition refused (name : string) (e : exn) : M (list TextContent) :=
  ([LogError ("Error executing tool " ++ name ++ ": " ++ str_exn e)], Ok (error_payload e)).

End RoutingTerms.

(** ** Tool reports: terms *)

Section ReportTerms.

Import PyStr.

(** What the trace report shows between the totals and the verdict. *)
Definition gaps_section (show_gaps : pyval) : string :=
  if Py.truthy show_gaps then "⚠️  **Gaps Found** (2):" ++ nl ++ nl else EmptyString.

(** The last line of the trace report. *)
Definition coverage_verdict (coverage : Z) : string :=
  if 90 <=? coverage then "✅ Good traceability coverage"
  else if 70 <=? coverage
       then "⚠️  Moderate traceability coverage - consider adding more traces"
       else "❌ Low traceability coverage - significant gaps detected".

Definition merge_report : string :=
  "🔀 **Semantic Merge Analysis**" ++ nl ++ nl
  ++ "⚠️  **Conflicts detected**: 0" ++ nl ++ nl.

Definition three_versions : gmap string pyval :=
  {[ "base_path" := VStr "base.arc"; "ours_path" := VStr "ours.arc";
     "theirs_path" := VStr "theirs.arc" ]}.

Definition no_attribute_upper (v : pyval) : exn :=
  AttributeError ("'" ++ Py.type_name v ++ "' object has no attribute 'upper'").

Definition numbered_standard : gmap string pyval :=
  {[ "model_path" := VStr "brake.arc"; "standard" := VInt 26262 ]}.

Definition windchill : gmap string pyval :=
  {[ "model_path" := VStr "brake.arc"; "system" := VStr "windchill" ]}.

(** A process that exits with status 1 after printing on its error output. *)
Definition complains (err : string) : list pyval -> pyval -> ProcBehaviour :=
  fun _ _ => Exits 1 (Ok EmptyString) (Ok err).

End ReportTerms.

(** ** Configuration: terms *)

Section ConfigTerms.

Import Config.

(** What a key of the merged dictionary holds, from what the base and the
    override hold under it. *)
Definition merged_entry (base_entry override_entry : option pyval) : option pyval :=
  match override_entry with
  | None => base_entry
  | Some value =>
      match base_entry, value with
      | Some (VDict sub), VDict over => Some (VDict (_deep_merge sub over))
      | _, _ => Some value
      end
  end.

(** [config[section][k]]. *)
Definition setting (config : list (string * pyval)) (section k : string) : Result pyval :=
  let? table := Py.getitem (VDict config) section in
  Py.getitem table k.

Definition config_file (w : World) (workspace_root : Path) : Path :=
  joinpath w workspace_root ".arclang-mcp.toml".

Definition empty_file : Path -> Result (list (string * pyval)) := fun _ => Ok [].

(** A world like the sample one, with a configuration file and one
    environment variable. *)
Definition configured (name value : string) : World :=
  {| getenv := fun n => if String.eqb n name then Some value else None;
     path_of := Sample.literal_path;
     is_absolute := String.prefix "/";
     joinpath := fun a b => a ++ "/" ++ b;
     path_name := fun p => PyStr.last_item (PyStr.split "/" p);
     with_suffix := Sample.path_with_suffix;
     path_exists := fun _ => true;
     stat_size_kb := fun _ => Ok (VInt 0);
     run_process := Sample.answers EmptyString;
     messages_create := Sample.unreachable;
     json_loads := fun _ => Raise (JSONDecodeError "Expecting value: line 1 column 1 (char 0)") |}.

Definition broken_file : Path -> Result (list (string * pyval)) :=
  fun _ => Raise (ValueError "Invalid statement (at line 1, column 1)").

(** A file that sets the compiler path and its time limit. *)
Definition user_file : Path -> Result (list (string * pyval)) :=
  fun _ => Ok [("compiler", VDict [("path", VStr "/opt/arclang"); ("timeout", VInt 60)])].

(** A file where [compiler] is a string, not a table. *)
Definition flat_file : Path -> Result (list (string * pyval)) :=
  fun _ => Ok [("compiler", VStr "/opt/arclang")].

Definition is_dict (v : pyval) : bool :=
  match v with VDict _ => true | _ => false end.

End ConfigTerms.

(** ** The declared tools: terms *)

Section CatalogueTerms.

Import Catalogue.

(** The entries of a dictionary value. *)
Definition entries (v : pyval) : list (string * pyval) :=
  match v with
  | VDict items => items
  | _ => []
  end.

(** The properties a tool's schema declares. *)
Definition declared_properties (t : Tool) : list (string * pyval) :=
  match Py.assoc "properties" (entries (inputSchema t)) with
  | Some properties => entries properties
  | None => []
  end.

(** The defaults a tool's schema declares, one for each property that has
    a ["default"]. *)
Definition declared_defaults (t : Tool) : list (string * pyval) :=
  List.flat_map
    (fun property =>
       match Py.assoc "default" (entries (snd property)) with
       | Some d => [(fst property, d)]
       | None => []
       end)
    (declared_properties t).

(** The arguments a tool's schema requires. *)
Definition declared_required (t : Tool) : list string :=
  match Py.assoc "required" (entries (inputSchema t)) with
  | Some (VList names) =>
      List.flat_map (fun v => match v with VStr s => [s] | _ => [] end) names
  | _ => []
  end.

(** The arguments of a call, with [d] under [k] when the call has nothing
    there. *)
Definition add_default (k : string) (d : pyval) (args : gmap string pyval)
  : gmap string pyval :=
  match args !! k with
  | Some _ => args
  | None => <[k := d]> args
  end.

(** The arguments of a call completed with the defaults the schema
    declares. *)
Definition with_defaults (t : Tool) (args : gmap string pyval) : gmap string pyval :=
  List.fold_right (fun entry => add_default (fst entry) (snd entry)) args
                  (declared_defaults t).

End CatalogueTerms.

(** ** The diagram script ([generate_svg.py])

    The script reads a document, lays its requirements and components out
    on a grid, draws the traces between them and writes the drawing. The
    embedding takes what [findall] returns for the three tags, and gives
    the text written. *)

Module GenerateSvg.

Import PyStr.

(** An element of the document, by its attributes. *)
Definition Element : Type := list (string * string).

(** [element.get(k)]. *)
Fixpoint get (e : Element) (k : string) : option string :=
  match e with
  | [] => None
  | (k', v) :: rest => if String.eqb k k' then Some v else get rest k
  end.

(** An attribute in an f-string: an absent one prints as [None]. *)
Definition show (v : option string) : string :=
  match v with
  | Some s => s
  | None => "None"
  end.

Record Document : Type := {
  requirements : list Element;
  components : list Element;
  traces : list Element
}.

Definition width : Z := 1400.
Definition height : Z := 1000.

Definition header : string :=
    "<?xml version=" ++ dq ++ "1.0" ++ dq ++ " encoding=" ++ dq ++ "UTF-8" ++ dq ++ "?>" ++ nl
    ++ "<svg xmlns=" ++ dq ++ "http://www.w3.org/2000/svg" ++ dq ++ " width=" ++ dq
    ++ of_Z width ++ dq ++ " height=" ++ dq ++ of_Z height ++ dq ++ " viewBox=" ++ dq ++ "0 0 "
    ++ of_Z width ++ " " ++ of_Z height ++ dq ++ ">" ++ nl ++ "  <defs>" ++ nl
    ++ "    <marker id=" ++ dq ++ "arrowhead" ++ dq ++ " markerWidth=" ++ dq ++ "10" ++ dq
    ++ " markerHeight=" ++ dq ++ "10" ++ dq ++ " refX=" ++ dq ++ "9" ++ dq ++ " refY=" ++ dq
    ++ "3" ++ dq ++ " orient=" ++ dq ++ "auto" ++ dq ++ ">" ++ nl ++ "      <polygon points="
    ++ dq ++ "0 0, 10 3, 0 6" ++ dq ++ " fill=" ++ dq ++ "#666" ++ dq ++ " />" ++ nl
    ++ "    </marker>" ++ nl ++ "  </defs>" ++ nl ++ "  <style>" ++ nl
    ++ "    .requirement { fill: #E3F2FD; stroke: #1976D2; stroke-width: 2; }" ++ nl
    ++ "    .component { fill: #FFF3E0; stroke: #F57C00; stroke-width: 2; }" ++ nl
    ++ "    .text { font-family: Arial, sans-serif; font-size: 12px; text-anchor: middle; }"
    ++ nl ++ "    .title { font-weight: bold; font-size: 14px; }" ++ nl
    ++ "    .trace { stroke: #666; stroke-width: 1.5; fill: none; marker-end: url(#arrowhead); }"
    ++ nl ++ "    .satisfies { stroke: #4CAF50; stroke-dasharray: 5,5; }" ++ nl
    ++ "    .implements { stroke: #2196F3; }" ++ nl ++ "  </style>" ++ nl ++ "  " ++ nl
    ++ "  <rect x=" ++ dq ++ "0" ++ dq ++ " y=" ++ dq ++ "0" ++ dq ++ " width=" ++ dq
    ++ of_Z width ++ dq ++ " height=" ++ dq ++ of_Z height ++ dq ++ " fill=" ++ dq ++ "#FAFAFA"
    ++ dq ++ "/>" ++ nl ++ "  " ++ nl ++ "  <text x=" ++ dq ++ of_Z (width / 2) ++ dq ++ " y="
    ++ dq ++ "30" ++ dq ++ " class=" ++ dq ++ "text title" ++ dq ++ " font-size=" ++ dq ++ "20"
    ++ dq ++ ">Adaptive Cruise Control - Logical Architecture</text>" ++ nl.

Definition req_y : Z := 80.
Definition req_x_start : Z := 50.
Definition req_width : Z := 280.
Definition req_height : Z := 60.
Definition req_spacing : Z := 20.

(** [positions]: the centre recorded under each identifier; the entry
    written last is the one found. *)
Definition Positions : Type := list (option string * (Z * Z)).

Definition same_key (a b : option string) : bool :=
  match a, b with
  | Some x, Some y => String.eqb x y
  | None, None => true
  | _, _ => false
  end.

Fixpoint lookup (k : option string) (positions : Positions) : option (Z * Z) :=
  match positions with
  | [] => None
  | (k', centre) :: rest => if same_key k k' then Some centre else lookup k rest
  end.

Definition set (k : option string) (centre : Z * Z) (positions : Positions) : Positions :=
  (k, centre) :: positions.

(** The corner of the box of the [i]-th requirement. *)
Definition requirement_x (i : Z) : Z := req_x_start + (i mod 2) * (req_width + req_spacing).
Definition requirement_y (i : Z) : Z := req_y + (i / 2) * (req_height + req_spacing).

(** The description as shown in the box. *)
Definition shown_description (req : Element) : string :=
  let desc := default EmptyString (get req "description") in
  if 40 <? Z.of_nat (len desc) then take 37 desc ++ "..." else desc.

Fixpoint requirements_loop (i : Z) (reqs : list Element) (svg : string)
    (positions : Positions) : string * Positions :=
  match reqs with
  | [] => (svg, positions)
  | req :: rest =>
      let x := requirement_x i in
      let y := requirement_y i in
      let positions := set (get req "id") (x + req_width / 2, y + req_height / 2) positions in
      let svg := svg ++
        "  <rect x=" ++ dq ++ of_Z x ++ dq ++ " y=" ++ dq ++ of_Z y ++ dq ++ " width=" ++ dq
        ++ of_Z req_width ++ dq ++ " height=" ++ dq ++ of_Z req_height ++ dq ++ " class=" ++ dq
        ++ "requirement" ++ dq ++ " rx=" ++ dq ++ "5" ++ dq ++ "/>" ++ nl in
      let svg := svg ++
        "  <text x=" ++ dq ++ of_Z (x + req_width / 2) ++ dq ++ " y=" ++ dq ++ of_Z (y + 20) ++ dq
        ++ " class=" ++ dq ++ "text title" ++ dq ++ ">" ++ show (get req "id") ++ "</text>" ++ nl in
      let desc := shown_description req in
      let svg := svg ++
        "  <text x=" ++ dq ++ of_Z (x + req_width / 2) ++ dq ++ " y=" ++ dq ++ of_Z (y + 38) ++ dq
        ++ " class=" ++ dq ++ "text" ++ dq ++ " font-size=" ++ dq ++ "10" ++ dq ++ ">" ++ desc
        ++ "</text>" ++ nl in
      let svg := svg ++
        "  <text x=" ++ dq ++ of_Z (x + req_width / 2) ++ dq ++ " y=" ++ dq ++ of_Z (y + 52) ++ dq
        ++ " class=" ++ dq ++ "text" ++ dq ++ " font-size=" ++ dq ++ "9" ++ dq ++ " fill=" ++ dq
        ++ "#666" ++ dq ++ ">" ++ show (get req "priority") ++ "</text>" ++ nl in
      requirements_loop (i + 1) rest svg positions
  end.

Definition comp_y : Z := 400.
Definition comp_x_start : Z := 50.
Definition comp_width : Z := 140.
Definition comp_height : Z := 80.
Definition comp_spacing : Z := 20.

(** The corner of the box of the [i]-th component. *)
Definition component_x (i : Z) : Z := comp_x_start + (i mod 5) * (comp_width + comp_spacing).
Definition component_y (i : Z) : Z := comp_y + (i / 5) * (comp_height + comp_spacing).

(** The name of a component, on two lines when it is longer than 15
    characters. *)
Definition name_lines (x y : Z) (name : string) : string :=
  if 15 <? Z.of_nat (len name) then
    let words := split_ws name in
    let half := Nat.div (List.length words) 2 in
    let line1 := join " " (List.firstn half words) in
    let line2 := join " " (List.skipn half words) in
    "  <text x=" ++ dq ++ of_Z (x + comp_width / 2) ++ dq ++ " y=" ++ dq ++ of_Z (y + 45) ++ dq
    ++ " class=" ++ dq ++ "text" ++ dq ++ " font-size=" ++ dq ++ "10" ++ dq ++ ">" ++ line1
    ++ "</text>" ++ nl
    ++ "  <text x=" ++ dq ++ of_Z (x + comp_width / 2) ++ dq ++ " y=" ++ dq ++ of_Z (y + 58) ++ dq
    ++ " class=" ++ dq ++ "text" ++ dq ++ " font-size=" ++ dq ++ "10" ++ dq ++ ">" ++ line2
    ++ "</text>" ++ nl
  else
    "  <text x=" ++ dq ++ of_Z (x + comp_width / 2) ++ dq ++ " y=" ++ dq ++ of_Z (y + 50) ++ dq
    ++ " class=" ++ dq ++ "text" ++ dq ++ " font-size=" ++ dq ++ "10" ++ dq ++ ">" ++ name
    ++ "</text>" ++ nl.

Fixpoint components_loop (i : Z) (comps : list Element) (svg : string)
    (positions : Positions) : string * Positions :=
  match comps with
  | [] => (svg, positions)
  | comp :: rest =>
      let x := component_x i in
      let y := component_y i in
      let positions :=
        set (get comp "id") (x + comp_width / 2, y + comp_height / 2) positions in
      let svg := svg ++
        "  <rect x=" ++ dq ++ of_Z x ++ dq ++ " y=" ++ dq ++ of_Z y ++ dq ++ " width=" ++ dq
        ++ of_Z comp_width ++ dq ++ " height=" ++ dq ++ of_Z comp_height ++ dq ++ " class=" ++ dq
        ++ "component" ++ dq ++ " rx=" ++ dq ++ "5" ++ dq ++ "/>" ++ nl in
      let svg := svg ++
        "  <text x=" ++ dq ++ of_Z (x + comp_width / 2) ++ dq ++ " y=" ++ dq ++ of_Z (y + 25) ++ dq
        ++ " class=" ++ dq ++ "text title" ++ dq ++ ">" ++ show (get comp "id") ++ "</text>" ++ nl in
      let name := default EmptyString (get comp "name") in
      let svg := svg ++ name_lines x y name in
      components_loop (i + 1) rest svg positions
  end.

Definition is_satisfies (trace_type : option string) : bool :=
  match trace_type with
  | Some s => String.eqb s "satisfies"
  | None => false
  end.

Fixpoint traces_loop (traces : list Element) (positions : Positions) (svg : string) : string :=
  match traces with
  | [] => svg
  | trace :: rest =>
      let from_id := get trace "from" in
      let to_id := get trace "to" in
      let trace_type := get trace "type" in
      match lookup from_id positions, lookup to_id positions with
      | Some (x1, y1), Some (x2, y2) =>
          let class_name :=
            if is_satisfies trace_type then "trace satisfies" else "trace implements" in
          traces_loop rest positions (svg ++
            "  <line x1=" ++ dq ++ of_Z x1 ++ dq ++ " y1=" ++ dq ++ of_Z y1 ++ dq ++ " x2=" ++ dq
            ++ of_Z x2 ++ dq ++ " y2=" ++ dq ++ of_Z y2 ++ dq ++ " class=" ++ dq ++ class_name ++ dq
            ++ "/>" ++ nl)
      | _, _ => traces_loop rest positions svg
      end
  end.

(** The text of the drawing. *)
Definition generate (doc : Document) : string :=
  let svg := header in
  let svg := svg ++ "  <!-- Requirements -->" ++ nl in
  let '(svg, positions) := requirements_loop 0 (requirements doc) svg [] in
  let svg := svg ++ "  <!-- Components -->" ++ nl in
  let '(svg, positions) := components_loop 0 (components doc) svg positions in
  let svg := svg ++ "  <!-- Traces -->" ++ nl in
  let svg := traces_loop (List.firstn 30 (traces doc)) positions svg in
  svg ++ "</svg>".

(** [sys.argv[i]]. *)
Definition argument (argv : list string) (i : nat) : Result string :=
  match List.nth_error argv i with
  | Some s => Ok s
  | None => Raise (IndexError "list index out of range")
  end.

(** What the script writes and prints. *)
Record Output : Type := {
  file : string;
  content : string;
  printed : string
}.

(** The script, from its command line; [parse] is [ET.parse] followed by
    the three [findall]. *)
Definition main (argv : list string) (parse : string -> Result Document) : Result Output :=
  let? xml_file := argument argv 1 in
  let? svg_file := argument argv 2 in
  let? doc := parse xml_file in
  Ok {| file := svg_file;
        content := generate doc;
        printed := "SVG diagram generated: " ++ svg_file |}.

End GenerateSvg.

(** ** The diagram script: terms *)

Section DiagramTerms.

Import GenerateSvg.

(** A box of the drawing: corner, width and height. *)
Record Box : Type := { left : Z; top : Z; box_width : Z; box_height : Z }.

Definition requirement_box (i : Z) : Box :=
  {| left := requirement_x i; top := requirement_y i;
     box_width := req_width; box_height := req_height |}.

Definition component_box (i : Z) : Box :=
  {| left := component_x i; top := component_y i;
     box_width := comp_width; box_height := comp_height |}.

(** Two boxes that share no inner point. *)
Definition apart (a b : Box) : Prop :=
  left a + box_width a <= left b \/ left b + box_width b <= left a
  \/ top a + box_height a <= top b \/ top b + box_height b <= top a.

(** The description attribute of a requirement, empty when absent. *)
Definition description_of (req : Element) : string :=
  default EmptyString (get req "description").

(** Forty characters, five of them outside ASCII. *)
Definition accented_description : string :=
  "Le véhicule doit être freiné à l'arrêt..".

Definition long_requirement : Element :=
  [("id", "REQ-001");
   ("description", "The vehicle shall keep a safe distance to the vehicle ahead")].

End DiagramTerms.

(** * Properties *)

(** ** Metrics extraction *)

Section Metrics.

Import ArcLangCompiler.

Lemma parse_metrics_loop_step line rest (m : gmap string Z) :
  parse_metrics_loop (line :: rest) m =
  match label_of line with
  | Some k => let? v := PyInt.int (line_value line) in parse_metrics_loop rest (<[k := v]> m)
  | None => parse_metrics_loop rest m
  end.
Proof.
  unfold label_of; simpl.
  repeat (match goal with |- context [PyStr.contains ?l line] =>
            destruct (PyStr.contains l line); [reflexivity|] end).
  reflexivity.
Qed.

Lemma label_of_field line k : label_of line = Some k -> In k metric_fields.
Proof.
  unfold label_of, metric_fields.
  repeat (match goal with |- context [PyStr.contains ?l line] =>
            destruct (PyStr.contains l line) end);
    intros [= <-]; simpl; auto.
Qed.

Lemma label_somewhere lines k :
  (exists line, In line lines /\ label_of line = Some k)
  \/ (forall line, In line lines -> label_of line <> Some k).
Proof.
  induction lines as [|l rest [(l' & Hin & Hl)|Hnone]].
  - right. intros line [].
  - left. exists l'. split; [right; exact Hin|exact Hl].
  - destruct (decide (label_of l = Some k)) as [Hl|Hl].
    + left. exists l. split; [left; reflexivity|exact Hl].
    + right. intros line [<-|Hin]; [exact Hl|apply Hnone; exact Hin].
Qed.

(** The loop of [_parse_metrics] on well-formed lines: it ends without an
    exception, leaves alone the metrics no line reports, and every entry it
    adds is the integer of a line that reports that metric. *)
Lemma parse_metrics_loop_ok lines : forall m : gmap string Z,
  forallb line_ok lines = true ->
  exists m',
    parse_metrics_loop lines m = Ok m'
    /\ (forall k, (forall line, In line lines -> label_of line <> Some k) -> m' !! k = m !! k)
    /\ (forall k line, In line lines -> label_of line = Some k -> is_Some (m' !! k))
    /\ (forall k v, m' !! k = Some v ->
          m !! k = Some v
          \/ exists line, In line lines /\ label_of line = Some k
                          /\ PyInt.int (line_value line) = Ok v).
Proof.
  induction lines as [|line rest IH]; intros m Hok.
  - exists m. simpl. repeat split; auto. intros k line [].
  - simpl in Hok. apply andb_prop in Hok as [Hline Hrest].
    rewrite parse_metrics_loop_step. unfold line_ok in Hline.
    destruct (label_of line) as [k0|] eqn:Hlabel.
    + destruct (PyInt.int (line_value line)) as [v0|] eqn:Hint; [|discriminate].
      simpl. destruct (IH (<[k0 := v0]> m) Hrest) as (m' & Hrun & Hkeep & Hadd & Hfrom).
      exists m'. split; [exact Hrun|]. split; [|split].
      * intros k Hnone. rewrite Hkeep.
        -- apply lookup_insert_ne. intros ->. apply (Hnone line); [left; reflexivity|exact Hlabel].
        -- intros l Hin. apply Hnone. right; exact Hin.
      * intros k l [<-|Hin] Hl.
        -- rewrite Hlabel in Hl. injection Hl as <-.
           destruct (m' !! k0) as [v|] eqn:Hm'; [eauto|].
           destruct (label_somewhere rest k0) as [(l' & Hin' & Hl')|Hnone].
           ++ rewrite <- Hm'. eapply Hadd; eauto.
           ++ rewrite Hkeep in Hm' by exact Hnone.
              rewrite lookup_insert_eq in Hm'. discriminate.
        -- eapply Hadd; eauto.
      * intros k v Hk. destruct (Hfrom k v Hk) as [Hins|(l & Hin & Hl & Hv)].
        -- destruct (decide (k0 = k)) as [->|Hne].
           ++ rewrite lookup_insert_eq in Hins. injection Hins as ->.
              right. exists line. split; [left; reflexivity|]. split; assumption.
           ++ rewrite lookup_insert_ne in Hins by exact Hne. left; exact Hins.
        -- right. exists l. split; [right; exact Hin|]. split; assumption.
    + destruct (IH m Hrest) as (m' & Hrun & Hkeep & Hadd & Hfrom).
      exists m'. split; [exact Hrun|]. split; [|split].
      * intros k Hnone. apply Hkeep. intros l Hin. apply Hnone. right; exact Hin.
      * intros k l [<-|Hin] Hl; [congruence|]. eapply Hadd; eauto.
      * intros k v Hk. destruct (Hfrom k v Hk) as [Hm|(l & Hin & Hl & Hv)]; [left; exact Hm|].
        right. exists l. split; [right; exact Hin|]. split; assumption.
Qed.

Lemma shown_metric (m : gmap string Z) (k : string) : metric m k = shown m k.
Proof. unfold metric, shown. destruct (m !! k); reflexivity. Qed.

Lemma absent_key (m : gmap string Z) (k : string) :
  (forall k' v, m !! k' = Some v -> In k' metric_fields) ->
  ~ In k metric_fields -> m !! k = None.
Proof.
  intros Hkeys Hk. destruct (m !! k) as [v|] eqn:Hv; [|reflexivity].
  exfalso. apply Hk. exact (Hkeys k v Hv).
Qed.

(** The reports show the dictionary [_parse_metrics] returns, with 0 for
    the metrics it lacks. *)
Lemma reports_show_parsed (output : string) (m : gmap string Z) :
  _parse_metrics output = Ok m ->
  (forall k v, m !! k = Some v -> In k metric_fields) ->
  reports_default_to_zero output m.
Proof.
  intros Hparse Hkeys w self args p model_path err Hp Hpath. split.
  - intros Hrun. unfold CoreTools._compile, arg. rewrite Hp. cbn [lift bind].
    rewrite Hpath. cbn [bind app]. unfold compile.
    unfold compile_call in Hrun.
    unfold _run_command. rewrite Hrun.
    cbn [emit bind lift ret try_except app returncode stdout stderr Z.eqb].
    rewrite Hparse. cbn [bind lift ret app success metrics outcome snd].
    unfold compile_report. rewrite !shown_metric. reflexivity.
  - intros rc size Hrun Hsize. unfold CoreTools._info, arg. rewrite Hp. cbn [lift bind].
    rewrite Hpath. cbn [bind app]. unfold info.
    unfold info_call in Hrun.
    unfold _run_command. rewrite Hrun.
    cbn [emit bind lift ret try_except app returncode stdout stderr].
    rewrite Hparse. cbn [bind app]. unfold size_read in Hsize.
    assert (Hsafety : m !! "safety" = None)
      by (apply absent_key; [exact Hkeys|cbn; intuition discriminate]).
    assert (Hactors : m !! "actors" = None)
      by (apply absent_key; [exact Hkeys|cbn; intuition discriminate]).
    assert (Hnodes : m !! "nodes" = None)
      by (apply absent_key; [exact Hkeys|cbn; intuition discriminate]).
    destruct (path_exists w model_path).
    + rewrite Hsize. cbn [lift bind ret app info_metrics size_kb].
      rewrite Hsafety. cbn [default negb Z.eqb outcome snd]. unfold info_report.
      rewrite !shown_metric. unfold shown at 5 6. rewrite Hactors, Hnodes.
      reflexivity.
    + injection Hsize as <-. cbn [lift bind ret app info_metrics size_kb].
      rewrite Hsafety. cbn [default negb Z.eqb outcome snd]. unfold info_report.
      rewrite !shown_metric. unfold shown at 5 6. rewrite Hactors, Hnodes.
      reflexivity.
Qed.

(** C1 (amended). For every output whose metric lines all end in an
    integer literal, [_parse_metrics] returns a dictionary, without
    raising; the dictionary has an entry exactly for the metrics that some
    line reports, and a metric no line reports is absent from it; the
    compile report and the info report built from that output show such a
    metric as 0. *)
Theorem parse_metrics_well_formed (output : string) :
  forallb line_ok (PyStr.split "010" output) = true ->
  exists m, _parse_metrics output = Ok m
            /\ holds_reported output m
            /\ reports_default_to_zero output m.
Proof.
  intros Hok.
  destruct (parse_metrics_loop_ok _ ∅ Hok) as (m & Hrun & Hkeep & Hadd & Hfrom).
  assert (Hheld : holds_reported output m).
  { unfold holds_reported. split.
    - intros k. split.
      + intros [v Hv]. destruct (Hfrom k v Hv) as [Hempty|(l & Hin & Hl & _)].
        * rewrite lookup_empty in Hempty. discriminate.
        * exists l. split; assumption.
      + intros (l & Hin & Hl). eapply Hadd; eauto.
    - intros k v Hv. destruct (Hfrom k v Hv) as [Hempty|(l & Hin & Hl & Hint)].
      + rewrite lookup_empty in Hempty. discriminate.
      + split; [eapply label_of_field; exact Hl|]. exists l. repeat split; assumption. }
  exists m. split; [exact Hrun|]. split; [exact Hheld|].
  apply reports_show_parsed; [exact Hrun|].
  intros k v Hv. exact (proj1 (proj2 Hheld k v Hv)).
Qed.

Lemma parse_metrics_well_formed_witness :
  forallb line_ok (PyStr.split "010" Sample.scenario_stdout) = true
  /\ exists m, _parse_metrics Sample.scenario_stdout = Ok m
               /\ holds_reported Sample.scenario_stdout m
               /\ reports_default_to_zero Sample.scenario_stdout m.
Proof.
  split; [reflexivity|].
  apply (parse_metrics_well_formed Sample.scenario_stdout). reflexivity.
Defined.

(** C1 as stated fails: on the empty output the dictionary returned is
    empty, so no metric field is present in it. *)
Lemma parse_metrics_fields_absent :
  _parse_metrics EmptyString = Ok ∅
  /\ ~ (forall output, exists m : gmap string Z,
          _parse_metrics output = Ok m
          /\ forall k, In k metric_fields -> is_Some (m !! k)).
Proof.
  split; [reflexivity|]. intros Hall.
  destruct (Hall EmptyString) as (m & Hrun & Hfields).
  change (_parse_metrics EmptyString) with (Ok (∅ : gmap string Z)) in Hrun.
  injection Hrun as <-.
  destruct (Hfields "requirements") as [v Hv]; [simpl; auto|].
  rewrite lookup_empty in Hv. discriminate.
Qed.

(** A metric line whose tail is not an integer makes [_parse_metrics]
    raise, where [_parse_coverage] and [_count_traces] skip the line. *)
Lemma parse_metrics_raises_on_malformed :
  _parse_metrics "Requirements: abc"
  = Raise (ValueError "invalid literal for int() with base 10: 'abc'")
  /\ _count_traces "Traces: abc" = 0
  /\ _parse_coverage "Coverage: abc%" = 0.
Proof. repeat split; reflexivity. Qed.

End Metrics.

(** ** The process invoker *)

Section ProcessInvoker.

Import ArcLangCompiler.



End ProcessInvoker.

(** ** The compiler facade *)

Section CompilerFacade.

Import ArcLangCompiler.

Lemma run_command_exits (w : World) (self : t) (cmd : list pyval) rc out err :
  run_process w cmd (timeout self) = Exits rc (Ok out) (Ok err) ->
  _run_command w self cmd
  = ([Exec cmd], Ok {| returncode := rc; stdout := out; stderr := err |}).
Proof. intros H. unfold _run_command. rewrite H. reflexivity. Qed.

Lemma parse_scenario :
  _parse_metrics Sample.scenario_stdout
  = Ok {[ "requirements" := 12; "components" := 5 ]}.
Proof. reflexivity. Qed.

(** C6 (amended). When the process exits with status 0 and prints the two
    lines of the scenario, [compile] succeeds with the metrics dictionary
    {requirements: 12, components: 5}: the metrics functions and traces are
    absent from it, and the compile report shows them as 0. *)
Theorem compile_scenario (w : World) (self : CoreTools.t) (args : gmap string pyval)
    (p : pyval) (model_path : Path) (err : string) :
  args !! "model_path" = Some p ->
  CoreTools._resolve_path w self p = Ok model_path ->
  run_process w (compile_call self model_path args) (timeout (CoreTools.compiler self))
  = Exits 0 (Ok Sample.scenario_stdout) (Ok err) ->
  (exists r,
     outcome (compile w (CoreTools.compiler self) model_path
                (arg_get args "validate" (VBool true))
                (arg_get args "optimize" (VBool false))) = Ok r
     /\ success r = true
     /\ metrics r = {[ "requirements" := 12; "components" := 5 ]}
     /\ metrics r !! "functions" = None
     /\ metrics r !! "traces" = None)
  /\ outcome (CoreTools._compile w self args)
     = Ok (scenario_report (path_name w model_path)).
Proof.
  intros Hp Hpath H. unfold compile_call in H. split.
  - unfold compile. rewrite (run_command_exits _ _ _ _ _ _ H).
    unfold bind, lift, ret, outcome. cbn [returncode stdout stderr Z.eqb].
    rewrite parse_scenario. cbn [snd]. eexists. split; [reflexivity|].
    cbn [success metrics]. repeat split; reflexivity.
  - unfold CoreTools._compile, arg. rewrite Hp. cbn [lift bind]. rewrite Hpath.
    cbn [bind app]. unfold compile. rewrite (run_command_exits _ _ _ _ _ _ H).
    cbn [bind lift ret app returncode stdout stderr Z.eqb]. rewrite parse_scenario.
    reflexivity.
Qed.

Lemma compile_scenario_witness :
  (exists r,
     outcome (compile scenario_world sample_compiler "/ws/brake.arc"
                (VBool true) (VBool false)) = Ok r
     /\ success r = true
     /\ metrics r = {[ "requirements" := 12; "components" := 5 ]}
     /\ metrics r !! "functions" = None
     /\ metrics r !! "traces" = None)
  /\ outcome (CoreTools._compile scenario_world scenario_tools scenario_call)
     = Ok (scenario_report "brake.arc").
Proof.
  apply (compile_scenario scenario_world scenario_tools scenario_call
           (VStr "brake.arc") "/ws/brake.arc" EmptyString); reflexivity.
Defined.

(** C6 as stated fails: in the scenario the metrics dictionary has no
    entry for functions, so it is not the dictionary with four entries. *)
Lemma compile_scenario_metrics_missing :
  exists r,
    outcome (compile scenario_world sample_compiler "/ws/brake.arc" (VBool true) (VBool false))
    = Ok r
    /\ success r = true
    /\ metrics r !! "functions" = None
    /\ metrics r <> {[ "requirements" := 12; "components" := 5;
                       "functions" := 0; "traces" := 0 ]}.
Proof.
  eexists. split; [reflexivity|]. split; [reflexivity|]. split; [reflexivity|].
  intros Heq. apply (f_equal (fun m : gmap string Z => m !! "functions")) in Heq.
  vm_compute in Heq. discriminate.
Qed.

End CompilerFacade.

(** ** Facts about strings *)

Section StringFacts.

Lemma append_assoc_s (a b c : string) : ((a ++ b) ++ c = a ++ (b ++ c))%string.
Proof.
  induction a as [|ch a IH]; [reflexivity|].
  change (String ch ((a ++ b) ++ c) = String ch (a ++ b ++ c)). now rewrite IH.
Qed.

Lemma prefix_append_cancel (a b c : string) :
  String.prefix (a ++ b) (a ++ c) = String.prefix b c.
Proof.
  induction a as [|ch a IH]; [reflexivity|].
  change (String.prefix (String ch (a ++ b)) (String ch (a ++ c)) = String.prefix b c).
  simpl. destruct (ascii_dec ch ch) as [_|Hne]; [exact IH|contradiction Hne; reflexivity].
Qed.

Lemma prefix_append (p s : string) : String.prefix p (p ++ s) = true.
Proof.
  induction p as [|c p IH]; [destruct s; reflexivity|].
  change (String.prefix (String c p) (String c (p ++ s)) = true).
  simpl. destruct (ascii_dec c c) as [_|Hne]; [exact IH|contradiction Hne; reflexivity].
Qed.

Lemma contains_of_prefix (needle hay : string) :
  String.prefix needle hay = true -> PyStr.contains needle hay = true.
Proof. intros H. destruct hay; cbn [PyStr.contains]; rewrite H; reflexivity. Qed.

Lemma contains_append (needle before after : string) :
  PyStr.contains needle (before ++ needle ++ after) = true.
Proof.
  induction before as [|c before IH].
  - change (PyStr.contains needle (needle ++ after) = true).
    apply contains_of_prefix, prefix_append.
  - change (PyStr.contains needle (String c (before ++ needle ++ after)) = true).
    cbn [PyStr.contains]. rewrite IH. apply orb_true_r.
Qed.

Lemma prefix_of_empty (needle : string) :
  needle <> EmptyString -> String.prefix needle EmptyString = false.
Proof. destruct needle; [contradiction|reflexivity]. Qed.

Lemma count_from_positive (needle hay : string) : forall fuel,
  needle <> EmptyString ->
  (String.length hay <= fuel)%nat ->
  PyStr.contains needle hay = true ->
  (1 <= PyStr.count_from fuel needle hay O)%nat.
Proof.
  induction hay as [|c hay IH]; intros fuel Hne Hfuel Hin.
  - destruct needle; [contradiction|]. discriminate Hin.
  - destruct fuel as [|fuel]; [simpl in Hfuel; lia|].
    cbn [PyStr.count_from]. cbn [PyStr.contains] in Hin.
    destruct (String.prefix needle (String c hay)); [lia|].
    apply IH; [exact Hne|simpl in Hfuel; lia|exact Hin].
Qed.

Lemma count_positive (needle hay : string) :
  needle <> EmptyString ->
  PyStr.contains needle hay = true ->
  (1 <= PyStr.count needle hay)%nat.
Proof. intros Hne Hin. apply count_from_positive; [exact Hne|lia|exact Hin]. Qed.

End StringFacts.

(** ** Coverage *)

Section Coverage.

Import ArcLangCompiler.

Lemma parse_coverage_loop_absent lines :
  (forall line, In line lines -> coverage_line line = false) ->
  parse_coverage_loop lines = 0.
Proof.
  induction lines as [|line rest IH]; intros Hnone; [reflexivity|].
  simpl. fold (coverage_line line).
  rewrite (Hnone line) by (left; reflexivity).
  apply IH. intros l Hin. apply Hnone. right; exact Hin.
Qed.

(** C9 (amended). The coverage shown to the client is the integer
    [_parse_coverage] read from the output of the process, as it is: no
    caller clamps it. It is 0 when no line of the output bears a coverage
    label. *)
Theorem coverage_delivered_as_parsed (w : World) (self : CoreTools.t)
    (args : gmap string pyval) (p : pyval) (model_path : Path)
    (rc : Z) (out err : string) :
  args !! "model_path" = Some p ->
  CoreTools._resolve_path w self p = Ok model_path ->
  run_process w
    (trace_cmd (CoreTools.compiler self) model_path
       (arg_get args "show_gaps" (VBool true)) (arg_get args "matrix" (VBool false)))
    (timeout (CoreTools.compiler self))
  = Exits rc (Ok out) (Ok err) ->
  (exists after,
      outcome (CoreTools._trace_analysis w self args)
      = Ok (trace_report_head (path_name w model_path)
            ++ "**Coverage**: " ++ PyStr.of_Z (_parse_coverage out) ++ "%" ++ after))
  /\ ((forall line, In line (PyStr.split "010" out) -> coverage_line line = false) ->
      _parse_coverage out = 0).
Proof.
  intros Harg Hpath Hrun. split.
  - unfold CoreTools._trace_analysis, arg. rewrite Harg.
    unfold lift at 1. unfold bind at 1. rewrite Hpath.
    unfold lift at 1. unfold bind at 1.
    unfold trace_analysis. rewrite (run_command_exits _ _ _ _ _ _ Hrun).
    cbn [bind ret stdout coverage total_traces gaps].
    set (show := Py.truthy (arg_get args "show_gaps" (VBool true))).
    unfold trace_report_head.
    destruct show; cbn -[PyStr.of_Z _parse_coverage _count_traces Z.leb].
    all: eexists; rewrite !append_assoc_s; reflexivity.
  - intros Hnone. apply parse_coverage_loop_absent. exact Hnone.
Qed.

Lemma coverage_delivered_as_parsed_witness :
  exists after,
    outcome (CoreTools._trace_analysis partial_world (core_of partial_world) brake_model)
    = Ok (trace_report_head "brake.arc" ++ "**Coverage**: " ++ "85" ++ "%" ++ after).
Proof.
  apply (coverage_delivered_as_parsed partial_world (core_of partial_world)
           brake_model (VStr "brake.arc") "/ws/brake.arc" 0
           ("Coverage: 85%" ++ PyStr.nl ++ "Traces: 40") EmptyString);
    reflexivity.
Defined.

(** C9 as stated fails: a coverage of 150 or of -5 printed by the process
    reaches the client unchanged. *)
Lemma coverage_out_of_range :
  _parse_coverage "Coverage: 150%" = 150
  /\ _parse_coverage "coverage: -5" = -5
  /\ (exists text,
        outcome (ArcLangMCPServer.call_tool high_world (Sample.server high_world VNone)
                   "arclang_trace_analysis" brake_model)
        = Ok [ {| type := "text"; text := text |} ]
        /\ PyStr.contains "**Coverage**: 150%" text = true)
  /\ (exists text,
        outcome (ArcLangMCPServer.call_tool low_world (Sample.server low_world VNone)
                   "arclang_trace_analysis" brake_model)
        = Ok [ {| type := "text"; text := text |} ]
        /\ PyStr.contains "**Coverage**: -5%" text = true).
Proof.
  repeat split; try reflexivity; eexists; split; reflexivity.
Qed.

End Coverage.

(** ** The generation facade *)

Section GenerationFacade.

Import AIGenerator.

Lemma generate_requirement_id_text (d : string) :
  _generate_requirement_id (VStr d) = Ok (requirement_id d).
Proof. reflexivity. Qed.

Lemma generate_requirement_fallback (w : World) (self : t) (d : string) (sl pr : pyval) :
  client self = Some None ->
  generate_requirement w self (VStr d) sl pr
  = ([], Ok (requirement_template (requirement_id d) (VStr d) sl pr)).
Proof. intros H. unfold generate_requirement, get_client. rewrite H. reflexivity. Qed.

Lemma generate_component_fallback (w : World) (self : t) (d : string) (ct sl : pyval) :
  client self = Some None ->
  generate_component w self (VStr d) ct sl
  = ([], Ok (component_template (component_id d) (VStr d) ct sl)).
Proof. intros H. unfold generate_component, get_client. rewrite H. reflexivity. Qed.

Lemma suggest_architecture_fallback (w : World) (self : t) (reqs : list pyval) (domain : pyval) :
  client self = Some None ->
  suggest_architecture w self (VList reqs) domain = ([], Ok fallback_architecture).
Proof. intros H. unfold suggest_architecture, get_client. rewrite H. reflexivity. Qed.

Lemma create_fails (w : World) (self : t) (key : pyval) (n : Z) (prompt : string) (e : exn) :
  messages_create w key (request self n prompt) = Raise e ->
  create w self key n prompt = ([BackendCall (request self n prompt)], Raise e).
Proof. intros H. unfold create. simpl. rewrite H. reflexivity. Qed.

Lemma create_answers (w : World) (self : t) (key : pyval) (n : Z) (prompt : string) content :
  messages_create w key (request self n prompt) = Ok content ->
  create w self key n prompt = ([BackendCall (request self n prompt)], Ok content).
Proof. intros H. unfold create. simpl. rewrite H. reflexivity. Qed.

(** C2 (amended). With no backend configured, each of the three
    generation calls returns its deterministic template, without raising
    and without any call outside the process (the trace is empty). With a
    backend configured, a failure of the backend call is not absorbed: the
    exception leaves the facade. *)
Theorem generation_fallback_and_failure (w : World) (self : t) :
  (client self = Some None ->
   (forall d sl pr,
       generate_requirement w self (VStr d) sl pr
       = ([], Ok (requirement_template (requirement_id d) (VStr d) sl pr)))
   /\ (forall d ct sl,
       generate_component w self (VStr d) ct sl
       = ([], Ok (component_template (component_id d) (VStr d) ct sl)))
   /\ (forall reqs domain,
       suggest_architecture w self (VList reqs) domain = ([], Ok fallback_architecture)))
  /\ (forall key e, client self = Some (Some key) ->
      (forall d sl pr,
          messages_create w key (request self 1024 (requirement_prompt d sl pr)) = Raise e ->
          outcome (generate_requirement w self d sl pr) = Raise e)
      /\ (forall d ct sl,
          messages_create w key (request self 2048 (component_prompt d ct sl)) = Raise e ->
          outcome (generate_component w self d ct sl) = Raise e)
      /\ (forall reqs domain,
          messages_create w key
            (request self 2048 (architecture_prompt (req_list reqs) domain)) = Raise e ->
          outcome (suggest_architecture w self (VList reqs) domain) = Raise e)).
Proof.
  split.
  - intros H. split; [|split]; intros.
    + apply generate_requirement_fallback, H.
    + apply generate_component_fallback, H.
    + apply suggest_architecture_fallback, H.
  - intros key e H. split; [|split]; intros.
    + unfold generate_requirement, get_client. rewrite H. cbn [lift bind].
      rewrite (create_fails _ _ _ _ _ _ H0). reflexivity.
    + unfold generate_component, get_client. rewrite H. cbn [lift bind].
      rewrite (create_fails _ _ _ _ _ _ H0). reflexivity.
    + unfold suggest_architecture, get_client. rewrite H. cbn [lift bind Py.iter].
      rewrite (create_fails _ _ _ _ _ _ H0). reflexivity.
Qed.

Lemma generation_fallback_and_failure_witness :
  generate_requirement offline (no_backend offline) brake VNone (VStr "High")
  = ([], Ok (requirement_template "REQ-BP-001" brake VNone (VStr "High")))
  /\ outcome (generate_requirement offline (with_backend offline) brake VNone (VStr "High"))
     = Raise (BackendError "Connection error.").
Proof.
  split.
  - apply (proj1 (generation_fallback_and_failure offline (no_backend offline)) eq_refl).
  - apply (proj1 (proj2 (generation_fallback_and_failure offline (with_backend offline))
                    (VStr "sk-test") (BackendError "Connection error.") eq_refl)).
    reflexivity.
Defined.

(** C2 as stated fails: with a backend configured and unreachable, the
    requirement generation raises the backend's error instead of returning
    the template, and the dispatcher reports it as an error. *)
Lemma backend_failure_escapes :
  outcome (generate_requirement offline (with_backend offline) brake VNone (VStr "High"))
  = Raise (BackendError "Connection error.")
  /\ outcome (ArcLangMCPServer.call_tool offline (Sample.server offline (VStr "sk-test"))
                "arclang_generate_requirement" {[ "description" := brake ]})
     = Ok [ {| type := "text"; text := "Error: Connection error." |} ].
Proof. split; reflexivity. Qed.

(** A provider other than ["anthropic"] leaves [client] unassigned, and
    every generation call then fails on reading it. *)
Lemma unassigned_client_raises :
  generate_requirement offline (__init__ offline {[ "provider" := VStr "openai" ]})
    brake VNone (VStr "High")
  = ([], Raise (AttributeError "'AIGenerator' object has no attribute 'client'")).
Proof. reflexivity. Qed.

Lemma requirement_template_shape (req_id : string) (d sl pr : pyval) :
  exists rest,
    requirement_template req_id d sl pr = requirement_header req_id ++ rest.
Proof.
  unfold requirement_template, requirement_header. cbn [PyStr.join].
  eexists. rewrite !append_assoc_s. reflexivity.
Qed.

Lemma requirement_header_nonempty (req_id rest : string) :
  requirement_header req_id ++ rest <> EmptyString.
Proof. discriminate. Qed.

Lemma requirement_header_contains (req_id rest : string) :
  PyStr.contains req_id (requirement_header req_id ++ rest) = true.
Proof.
  unfold requirement_header. rewrite !append_assoc_s.
  rewrite <- (append_assoc_s "requirement " PyStr.dq).
  apply contains_append.
Qed.

Lemma requirement_id_nonempty (d : string) : requirement_id d <> EmptyString.
Proof. discriminate. Qed.

(** C7 (amended). A generated artifact is a bare text: with a backend it
    is the stripped text of the answer and nothing else, so no generation
    mode is attached to it. For every description, generation with no
    backend configured returns, without any outside call, a non-empty block
    that opens with [requirement "<id>"] for the synthesized identifier,
    which therefore occurs in it at least once. *)
Theorem fallback_requirement_block (w : World) (self : t) :
  (client self = Some None ->
   forall d sl pr,
   exists block,
     generate_requirement w self (VStr d) sl pr = ([], Ok block)
     /\ block <> EmptyString
     /\ String.prefix (requirement_header (requirement_id d)) block = true
     /\ (1 <= PyStr.count (requirement_id d) block)%nat)
  /\ (forall key, client self = Some (Some key) ->
      forall d sl pr text rest,
      messages_create w key (request self 1024 (requirement_prompt d sl pr))
      = Ok (TextBlock text :: rest) ->
      outcome (generate_requirement w self d sl pr) = Ok (PyStr.strip text)).
Proof.
  split.
  - intros H d sl pr.
    destruct (requirement_template_shape (requirement_id d) (VStr d) sl pr) as [rest Hshape].
    exists (requirement_template (requirement_id d) (VStr d) sl pr).
    split; [apply generate_requirement_fallback, H|].
    rewrite Hshape. split; [apply requirement_header_nonempty|].
    split; [apply prefix_append|].
    apply count_positive; [apply requirement_id_nonempty|apply requirement_header_contains].
  - intros key H d sl pr text rest Hanswer.
    unfold generate_requirement, get_client. rewrite H. cbn [lift bind].
    rewrite (create_answers _ _ _ _ _ _ Hanswer). reflexivity.
Qed.

Lemma fallback_requirement_block_witness :
  (exists block,
      generate_requirement offline (no_backend offline) brake VNone (VStr "High")
      = ([], Ok block)
      /\ block <> EmptyString
      /\ String.prefix (requirement_header "REQ-BP-001") block = true
      /\ (1 <= PyStr.count "REQ-BP-001" block)%nat)
  /\ outcome (generate_requirement parrot (with_backend parrot) brake VNone (VStr "High"))
     = Ok (PyStr.strip brake_block).
Proof.
  split.
  - apply (proj1 (fallback_requirement_block offline (no_backend offline)) eq_refl
             "brake pressure must not exceed limit" VNone (VStr "High")).
  - apply (proj2 (fallback_requirement_block parrot (with_backend parrot))
             (VStr "sk-test") eq_refl brake VNone (VStr "High") brake_block []).
    reflexivity.
Defined.

(** C7 as stated fails. No generation mode can be read off an artifact:
    the same text is returned once by a backend and once by the template.
    And the synthesized identifier can occur more than once: a description
    that quotes it puts it twice in the block. *)
Lemma artifact_carries_no_mode :
  ~ (exists mode_of : string -> bool,
        forall w self d sl pr text,
          outcome (generate_requirement w self d sl pr) = Ok text ->
          mode_of text = has_backend self)
  /\ _generate_requirement_id quoting = Ok "REQ-RR-001"
  /\ (exists block,
         generate_requirement offline (no_backend offline) quoting VNone (VStr "High")
         = ([], Ok block)
         /\ PyStr.count "REQ-RR-001" block = 2%nat).
Proof.
  split; [|split].
  - intros [mode_of Hmode].
    pose proof (Hmode parrot (with_backend parrot) brake VNone (VStr "High") brake_block
                  eq_refl) as Hback.
    pose proof (Hmode offline (no_backend offline) brake VNone (VStr "High") brake_block
                  eq_refl) as Hfall.
    rewrite Hback in Hfall. discriminate Hfall.
  - reflexivity.
  - eexists. split; reflexivity.
Qed.

(** C8 (amended). With no backend configured, the description "brake
    pressure must not exceed limit" yields the identifier REQ-BP-001, the
    upper-cased initials of its first two words brake and pressure, and the
    fallback block opens with it. *)
Theorem brake_requirement_identifier (w : World) (self : t) (sl pr : pyval) :
  client self = Some None ->
  _generate_requirement_id brake = Ok "REQ-BP-001"
  /\ exists rest,
       generate_requirement w self brake sl pr
       = ([], Ok (requirement_header "REQ-BP-001" ++ rest))
       /\ PyStr.contains "REQ-BP-001" (requirement_header "REQ-BP-001" ++ rest) = true.
Proof.
  intros H. split; [reflexivity|].
  destruct (requirement_template_shape "REQ-BP-001" brake sl pr) as [rest Hshape].
  exists rest. split.
  - rewrite <- Hshape.
    exact (generate_requirement_fallback w self "brake pressure must not exceed limit"
             sl pr H).
  - apply requirement_header_contains.
Qed.

Lemma brake_requirement_identifier_witness :
  _generate_requirement_id brake = Ok "REQ-BP-001"
  /\ exists rest,
       generate_requirement offline (no_backend offline) brake VNone (VStr "High")
       = ([], Ok (requirement_header "REQ-BP-001" ++ rest))
       /\ PyStr.contains "REQ-BP-001" (requirement_header "REQ-BP-001" ++ rest) = true.
Proof.
  apply (brake_requirement_identifier offline (no_backend offline) VNone (VStr "High")).
  reflexivity.
Defined.

(** C8 as stated fails: the identifier is not REQ-BM-001, and that text
    occurs nowhere in the fallback block. *)
Lemma brake_identifier_is_not_BM :
  _generate_requirement_id brake <> Ok "REQ-BM-001"
  /\ exists block,
       generate_requirement offline (no_backend offline) brake VNone (VStr "High")
       = ([], Ok block)
       /\ PyStr.contains "REQ-BM-001" block = false.
Proof.
  split; [discriminate|]. eexists. split; reflexivity.
Qed.

(** C10. With a client configured, when the text the backend answers is
    rejected by [json.loads], [suggest_architecture] returns the dictionary
    with two empty lists, which is not the catalogue of the fallback, and
    raises nothing. *)
Theorem invalid_json_gives_empty_lists (w : World) (self : t) (key : pyval)
    (reqs : list pyval) (domain : pyval) (text : string) (rest : list ContentBlock)
    (e : exn) :
  client self = Some (Some key) ->
  messages_create w key (request self 2048 (architecture_prompt (req_list reqs) domain))
  = Ok (TextBlock text :: rest) ->
  json_loads w (PyStr.strip text) = Raise e ->
  outcome (suggest_architecture w self (VList reqs) domain)
  = Ok (VDict [("components", VList []); ("patterns", VList [])])
  /\ VDict [("components", VList []); ("patterns", VList [])] <> fallback_architecture.
Proof.
  intros Hclient Hanswer Hjson. split; [|discriminate].
  unfold suggest_architecture, get_client. rewrite Hclient. cbn [lift bind Py.iter].
  rewrite (create_answers _ _ _ _ _ _ Hanswer).
  cbn [bind first_text lift]. rewrite Hjson. reflexivity.
Qed.

Lemma invalid_json_gives_empty_lists_witness :
  outcome (suggest_architecture chatty (with_backend chatty)
             (VList [VStr "The brake shall hold on a slope"]) (VStr "automotive"))
  = Ok (VDict [("components", VList []); ("patterns", VList [])])
  /\ VDict [("components", VList []); ("patterns", VList [])] <> fallback_architecture.
Proof.
  apply (invalid_json_gives_empty_lists chatty (with_backend chatty) (VStr "sk-test")
           [VStr "The brake shall hold on a slope"] (VStr "automotive")
           "Here is an architecture for you." []
           (JSONDecodeError "Expecting value: line 1 column 1 (char 0)"));
    reflexivity.
Defined.

End GenerationFacade.

(** ** The dispatcher *)

Section Dispatcher.

Import ArcLangMCPServer.

Lemma dispatch_of_route (g : ToolGroups) (name : string) (args : gmap string pyval) :
  dispatch g name args
  = match route g name args with
    | (tr, Ok result) => (tr, Ok (payload result))
    | (tr, Raise e) =>
        ((tr ++ [LogError ("Error executing tool " ++ name ++ ": " ++ str_exn e)])%list,
         Ok (error_payload e))
    end.
Proof.
  unfold dispatch. destruct (route g name args) as [tr [result|e]]; simpl.
  - rewrite app_nil_r. reflexivity.
  - reflexivity.
Qed.

Lemma route_unknown (g : ToolGroups) (name : string) (args : gmap string pyval) :
  routed name = false ->
  route g name args = ([], Raise (ValueError ("Unknown tool: " ++ name))).
Proof.
  unfold routed, route. intros H.
  repeat (apply orb_false_elim in H; destruct H as [H ?]).
  repeat match goal with Heq : _ = false |- _ => rewrite Heq; clear Heq end.
  reflexivity.
Qed.

(** C4. Whatever the tool groups do, [call_tool] returns exactly one text
    payload and raises nothing: the text the tool group returned, or
    [Error: <message>] for the exception it raised; a name that is routed
    nowhere gives [Error: Unknown tool: <name>]. *)
Theorem dispatch_returns_one_payload (g : ToolGroups) (name : string)
    (args : gmap string pyval) :
  outcome (dispatch g name args)
  = Ok (payload match outcome (route g name args) with
                | Ok result => result
                | Raise e => "Error: " ++ str_exn e
                end)
  /\ (routed name = false ->
      outcome (dispatch g name args) = Ok (payload ("Error: Unknown tool: " ++ name))).
Proof.
  split.
  - rewrite dispatch_of_route. destruct (route g name args) as [tr [result|e]]; reflexivity.
  - intros H. rewrite dispatch_of_route, (route_unknown g name args H). reflexivity.
Qed.

Lemma dispatch_returns_one_payload_witness :
  outcome (call_tool offline (Sample.server offline VNone) "arclang_deploy" ∅)
  = Ok (payload "Error: Unknown tool: arclang_deploy").
Proof.
  apply (proj2 (dispatch_returns_one_payload
                  (groups offline (Sample.server offline VNone)) "arclang_deploy" ∅)).
  reflexivity.
Defined.

(** *** Calls that lack a required argument *)

Ltac read_missing H :=
  unfold arg; rewrite H; eexists; split; [reflexivity|intros _; reflexivity].

Lemma one_required_fails_fast (w : World) (args : gmap string pyval) (field f : string)
    (k : pyval -> M string) :
  first_missing [field] args = Some f ->
  fails_fast w (let* v := lift (arg args field) in k v) args f [field].
Proof.
  unfold first_missing, missing. simpl.
  destruct (args !! field) eqn:H; [discriminate|]. intros [= <-].
  read_missing H.
Qed.

(** A second argument read after the first was turned into a path. *)
Lemma two_required_fail_fast (w : World) (args : gmap string pyval) (a b f : string)
    (k : Path -> pyval -> M string) :
  a <> b ->
  first_missing [a; b] args = Some f ->
  fails_fast w
    (let* x := lift (arg args a) in
     let* path := lift (path_of w x) in
     let* y := lift (arg args b) in
     k path y)
    args f [a; b].
Proof.
  intros Hab. unfold first_missing, missing. simpl.
  destruct (args !! a) as [x|] eqn:Ha.
  - destruct (args !! b) eqn:Hb; [discriminate|]. intros [= <-].
    unfold arg. rewrite Ha. cbn [lift bind].
    destruct (path_of w x) as [path|e] eqn:Hpath.
    + rewrite Hb. eexists. split; [reflexivity|intros _; reflexivity].
    + eexists. split; [reflexivity|]. intros Hpaths.
      destruct (Hpaths a x) as [path Hok]; [|exact Ha|congruence].
      simpl. apply String.eqb_neq in Hab. rewrite Hab. left; reflexivity.
  - intros [= <-]. read_missing Ha.
Qed.

Lemma three_required_fail_fast (w : World) (args : gmap string pyval) (a b c f : string)
    (k : Path -> Path -> pyval -> M string) :
  a <> b -> a <> c -> b <> c ->
  first_missing [a; b; c] args = Some f ->
  fails_fast w
    (let* x := lift (arg args a) in
     let* pa := lift (path_of w x) in
     let* y := lift (arg args b) in
     let* pb := lift (path_of w y) in
     let* z := lift (arg args c) in
     k pa pb z)
    args f [a; b; c].
Proof.
  intros Hab Hac Hbc. unfold first_missing, missing. simpl.
  apply String.eqb_neq in Hab, Hac, Hbc.
  destruct (args !! a) as [x|] eqn:Ha; [|intros [= <-]; read_missing Ha].
  unfold arg. rewrite Ha. cbn [lift bind].
  destruct (path_of w x) as [pa|e] eqn:Hpa.
  - destruct (args !! b) as [y|] eqn:Hb.
    + destruct (args !! c) eqn:Hc; [discriminate|]. intros [= <-].
      cbn [lift bind]. destruct (path_of w y) as [pb|e] eqn:Hpb.
      * eexists. split; [reflexivity|intros _; reflexivity].
      * eexists. split; [reflexivity|]. intros Hpaths.
        destruct (Hpaths b y) as [path Hok]; [|exact Hb|congruence].
        simpl. rewrite Hac, Hbc. right; left; reflexivity.
    + intros [= <-]. eexists. split; [reflexivity|intros _; reflexivity].
  - intros Hf. eexists. split; [reflexivity|]. intros Hpaths.
    destruct (Hpaths a x) as [path Hok]; [|exact Ha|congruence].
    destruct (args !! b); [destruct (args !! c); [discriminate|]|];
      injection Hf as <-; simpl; [rewrite Hac|rewrite Hab]; left; reflexivity.
Qed.

Lemma catalogue_fails_fast (w : World) (self : t) (name : string)
    (required : list string) (args : gmap string pyval) (f : string) :
  In (name, required) catalogue ->
  first_missing required args = Some f ->
  fails_fast w (route (groups w self) name args) args f required.
Proof.
  unfold catalogue. intros Hin Hf.
  repeat (destruct Hin as [[= <- <-]|Hin]);
    [ apply one_required_fails_fast; exact Hf ..
    | apply two_required_fail_fast; [discriminate|exact Hf]
    | apply one_required_fails_fast; exact Hf
    | apply three_required_fail_fast; [discriminate..|exact Hf]
    | destruct Hin ].
Qed.

(** C5 (amended). A call of a tool of the catalogue that lacks a required argument
    ends in a single error payload and causes no call outside the process:
    no subprocess is started and the backend is not contacted. The payload
    names the first missing argument (the message of its [KeyError]) when
    the arguments read before it are accepted by [Path]. *)
Theorem missing_argument_fails_fast (w : World) (self : t) (name : string)
    (required : list string) (args : gmap string pyval) (f : string) :
  In (name, required) catalogue ->
  first_missing required args = Some f ->
  external_calls (trace (call_tool w self name args)) = []
  /\ (exists e, outcome (call_tool w self name args) = Ok (error_payload e))
  /\ (paths_accepted w args f required ->
      outcome (call_tool w self name args) = Ok (payload ("Error: " ++ PyStr.repr f))).
Proof.
  intros Hin Hf.
  destruct (catalogue_fails_fast w self name required args f Hin Hf) as (e & Hroute & He).
  unfold call_tool. rewrite dispatch_of_route, Hroute.
  split; [reflexivity|]. split; [exists e; reflexivity|].
  intros Hpaths. rewrite (He Hpaths). reflexivity.
Qed.

Lemma missing_argument_fails_fast_witness :
  (external_calls (trace (call_tool offline (Sample.server offline VNone)
                            "arclang_compile" ∅)) = []
   /\ outcome (call_tool offline (Sample.server offline VNone) "arclang_compile" ∅)
      = Ok (payload "Error: 'model_path'"))
  /\ (external_calls (trace (call_tool offline (Sample.server offline VNone)
                               "arclang_safety_check" no_standard)) = []
      /\ outcome (call_tool offline (Sample.server offline VNone)
                    "arclang_safety_check" no_standard)
         = Ok (payload "Error: 'standard'")).
Proof.
  split.
  - destruct (missing_argument_fails_fast offline (Sample.server offline VNone)
                "arclang_compile" ["model_path"] ∅ "model_path") as (Hcalls & _ & Hname).
    + left; reflexivity.
    + reflexivity.
    + split; [exact Hcalls|]. apply Hname. intros k v [].
  - destruct (missing_argument_fails_fast offline (Sample.server offline VNone)
                "arclang_safety_check" ["model_path"; "standard"] no_standard "standard")
      as (Hcalls & _ & Hname).
    + do 8 right; left; reflexivity.
    + reflexivity.
    + split; [exact Hcalls|]. apply Hname.
      intros k v [<-|[]] Hv. vm_compute in Hv. injection Hv as <-.
      eexists; reflexivity.
Defined.

(** C5 as stated fails: a call of [arclang_safety_check] that lacks
    [standard] and whose [model_path] is a number is answered with the
    error of [Path], which does not name the missing argument. *)
Lemma missing_field_not_always_named :
  first_missing ["model_path"; "standard"] numbered_path = Some "standard"
  /\ call_tool offline (Sample.server offline VNone) "arclang_safety_check" numbered_path
     = ([LogError ("Error executing tool arclang_safety_check: " ++ not_a_path)],
        Ok (payload ("Error: " ++ not_a_path)))
  /\ PyStr.contains "standard" ("Error: " ++ not_a_path) = false
  /\ ~ (forall (w : World) (self : t) (name : string) (required : list string)
               (args : gmap string pyval) (f : string),
          In (name, required) catalogue ->
          first_missing required args = Some f ->
          exists message,
            outcome (call_tool w self name args) = Ok (payload message)
            /\ PyStr.contains f message = true).
Proof.
  split; [reflexivity|]. split; [reflexivity|]. split; [reflexivity|].
  intros Hall.
  destruct (Hall offline (Sample.server offline VNone) "arclang_safety_check"
              ["model_path"; "standard"] numbered_path "standard")
    as (message & Hout & Hnamed).
  - do 8 right; left; reflexivity.
  - reflexivity.
  - vm_compute in Hout. injection Hout as <-. vm_compute in Hnamed. discriminate Hnamed.
Qed.

End Dispatcher.

(** * Further properties of the code *)

(** ** The output parser *)

Section Parser.

Import ArcLangCompiler.

Lemma chars_nonempty (s : string) : List.Forall (fun ch => ch <> EmptyString) (PyStr.chars s).
Proof.
  induction s as [|c t IH]; [constructor|]. cbn [PyStr.chars].
  destruct (PyStr.continues t).
  - destruct (PyStr.chars t) as [|g rest].
    + constructor; [discriminate|constructor].
    + inversion IH; subst. constructor; [discriminate|assumption].
  - constructor; [discriminate|exact IH].
Qed.

Lemma concat_chars (s : string) : PyStr.concat (PyStr.chars s) = s.
Proof.
  induction s as [|c t IH]; [reflexivity|]. cbn [PyStr.chars].
  destruct (PyStr.continues t) eqn:Hc.
  - destruct (PyStr.chars t) as [|g rest].
    + cbn in IH. subst t. discriminate Hc.
    + change (String c (PyStr.concat (g :: rest)) = String c t). rewrite IH. reflexivity.
  - change (String c (PyStr.concat (PyStr.chars t)) = String c t). rewrite IH. reflexivity.
Qed.

Lemma concat_empty (cs : list string) :
  List.Forall (fun ch => ch <> EmptyString) cs -> PyStr.concat cs = EmptyString -> cs = [].
Proof.
  intros H Hc. destruct cs as [|g rest]; [reflexivity|].
  inversion H; subst. cbn [PyStr.concat fold_right] in Hc.
  destruct g; [contradiction|discriminate Hc].
Qed.

Lemma drop_while_all {A} (p : A -> bool) (xs : list A) :
  PyStr.drop_while p xs = [] -> List.forallb p xs = true.
Proof.
  induction xs as [|x rest IH]; [reflexivity|]. cbn [PyStr.drop_while List.forallb].
  destruct (p x); [exact IH|discriminate].
Qed.

Lemma drop_while_head {A} (p : A -> bool) (xs : list A) :
  match PyStr.drop_while p xs with
  | [] => True
  | x :: _ => p x = false
  end.
Proof.
  induction xs as [|x rest IH]; [exact I|]. cbn [PyStr.drop_while].
  destruct (p x) eqn:H; [exact IH|exact H].
Qed.

Lemma drop_while_sublist {A} (p : A -> bool) (xs : list A) (x : A) :
  In x (PyStr.drop_while p xs) -> In x xs.
Proof.
  induction xs as [|y rest IH]; [intros []|]. cbn [PyStr.drop_while].
  destruct (p y); [intros H; right; apply IH, H|exact id].
Qed.

Lemma blank_all_space (s : string) :
  PyStr.strip s = EmptyString -> List.forallb PyStr.isspace (PyStr.chars s) = true.
Proof.
  unfold PyStr.strip. intros H.
  assert (Hne : List.Forall (fun ch => ch <> EmptyString)
                  (List.rev (PyStr.drop_while PyStr.isspace
                     (List.rev (PyStr.drop_while PyStr.isspace (PyStr.chars s)))))).
  { apply List.Forall_forall. intros ch Hin. apply List.in_rev in Hin.
    apply drop_while_sublist in Hin. apply List.in_rev in Hin.
    apply drop_while_sublist in Hin.
    exact (proj1 (List.Forall_forall _ _) (chars_nonempty s) ch Hin). }
  apply (concat_empty _ Hne) in H.
  apply (f_equal (@List.rev string)) in H. rewrite List.rev_involutive in H.
  cbn [List.rev] in H. apply drop_while_all in H.
  pose proof (drop_while_head PyStr.isspace (PyStr.chars s)) as Hhead.
  destruct (PyStr.drop_while PyStr.isspace (PyStr.chars s)) as [|ch rest] eqn:Hl.
  - apply drop_while_all, Hl.
  - exfalso.
    assert (Hin : In ch (List.rev (ch :: rest))) by (apply -> List.in_rev; left; reflexivity).
    rewrite (proj1 (List.forallb_forall _ _) H ch Hin) in Hhead. discriminate Hhead.
Qed.

Lemma ord_utf8 (ch : string) : 0 <= PyStr.ord ch -> PyStr.utf8 (PyStr.ord ch) = ch.
Proof.
  unfold PyStr.ord.
  match goal with
  | |- context [if ?b then ?cp else _] => destruct b eqn:Hb; [|intros H; lia]
  end.
  intros _. apply andb_prop in Hb as [_ Hb]. apply String.eqb_eq, Hb.
Qed.

Lemma all_chars_concat (p : ascii -> bool) (cs : list string) :
  List.forallb (all_chars p) cs = true -> all_chars p (PyStr.concat cs) = true.
Proof.
  induction cs as [|g rest IH]; [reflexivity|]. cbn [List.forallb PyStr.concat fold_right].
  intros H. apply andb_prop in H as [Hg Hrest]. specialize (IH Hrest).
  induction g as [|c g IHg]; [exact IH|].
  change (String c g ++ fold_right String.append EmptyString rest)
    with (String c (g ++ fold_right String.append EmptyString rest)).
  cbn [all_chars] in *. apply andb_prop in Hg as [Hc Hg]. rewrite Hc. apply IHg, Hg.
Qed.

Lemma isspace_hollow (ch : string) :
  PyStr.isspace ch = true -> all_chars hollow_byte ch = true.
Proof.
  unfold PyStr.isspace. intros H. apply List.existsb_exists in H as (cp & Hin & Heq).
  apply Z.eqb_eq in Heq.
  assert (Hall : List.forallb (fun cp => (0 <=? cp) && all_chars hollow_byte (PyStr.utf8 cp))
                   PyStr.whitespace = true) by (vm_compute; reflexivity).
  pose proof (proj1 (List.forallb_forall _ _) Hall cp Hin) as Hcp.
  apply andb_prop in Hcp as [Hpos Hcp]. apply Z.leb_le in Hpos.
  rewrite <- Heq in Hcp, Hpos. rewrite (ord_utf8 ch Hpos) in Hcp. exact Hcp.
Qed.

Lemma blank_all_hollow (s : string) :
  PyStr.strip s = EmptyString -> all_chars hollow_byte s = true.
Proof.
  intros H. rewrite <- (concat_chars s). apply all_chars_concat.
  pose proof (blank_all_space s H) as Hall.
  apply List.forallb_forall. intros ch Hin.
  apply isspace_hollow. exact (proj1 (List.forallb_forall _ _) Hall ch Hin).
Qed.

Lemma hollow_cases (c : ascii) :
  hollow_byte c = true ->
  (9 <= PyStr.code c <= 13) \/ (28 <= PyStr.code c <= 32) \/ 128 <= PyStr.code c.
Proof.
  destruct c as [[] [] [] [] [] [] [] []]; vm_compute; intros H;
    first [discriminate H | left; split; discriminate
          | right; left; split; discriminate | right; right; discriminate].
Qed.

Lemma lower_space (c : ascii) : hollow_byte c = true -> PyStr.lower_char c = c.
Proof.
  intros H. apply hollow_cases in H. unfold PyStr.lower_char.
  destruct ((65 <=? PyStr.code c) && (PyStr.code c <=? 90)) eqn:Hup; [|reflexivity].
  exfalso. apply andb_prop in Hup as [H1 H2].
  apply Z.leb_le in H1, H2. lia.
Qed.

Lemma prefix_head_differs (a b : ascii) (s t : string) :
  a <> b -> String.prefix (String a s) (String b t) = false.
Proof. intros H. simpl. destruct (ascii_dec a b); [contradiction|reflexivity]. Qed.

Lemma no_error_in_blank (s : string) :
  all_chars hollow_byte s = true ->
  PyStr.contains "error:" (PyStr.lower s) = false.
Proof.
  induction s as [|c t IH]; [reflexivity|].
  simpl. intros H. apply andb_prop in H as [Hc Ht].
  rewrite (lower_space c Hc).
  change (PyStr.contains "error:" (String c (PyStr.lower t)) = false).
  cbn [PyStr.contains]. rewrite (IH Ht), orb_false_r.
  apply prefix_head_differs. intros <-. discriminate Hc.
Qed.

Lemma error_line_nonblank (line : string) :
  PyStr.contains "error:" (PyStr.lower line) = true -> nonblank line = true.
Proof.
  intros H. unfold nonblank.
  destruct (PyStr.strip line) eqn:Hs; [|reflexivity].
  rewrite (no_error_in_blank line (blank_all_hollow line Hs)) in H. discriminate.
Qed.

(** [_parse_errors] returns the lines that are not blank, all of them and
    in their order: a line that holds [error:] is never blank, so that test
    selects nothing more. *)
Theorem parse_errors_keeps_nonblank_lines (output : string) :
  _parse_errors output = List.filter nonblank (PyStr.split "010" output).
Proof.
  unfold _parse_errors. apply List.filter_ext. intros line.
  destruct (nonblank line) eqn:Hn; [apply orb_true_r|].
  rewrite orb_false_r.
  destruct (PyStr.contains "error:" (PyStr.lower line)) eqn:He; [|reflexivity].
  rewrite (error_line_nonblank line He) in Hn. discriminate.
Qed.

End Parser.

(** ** Metrics and coverage, line by line *)

Section LineByLine.

Import ArcLangCompiler.

Lemma parse_metrics_loop_app (a b : list string) : forall m : gmap string Z,
  parse_metrics_loop (a ++ b)%list m
  = let? m1 := parse_metrics_loop a m in parse_metrics_loop b m1.
Proof.
  induction a as [|line a IH]; intros m; [reflexivity|].
  change ((line :: a) ++ b)%list with (line :: (a ++ b))%list.
  rewrite !parse_metrics_loop_step.
  destruct (label_of line); [|apply IH].
  destruct (PyInt.int (line_value line)); [apply IH|reflexivity].
Qed.

(** Without any assumption on the lines: a metric that no line reports
    keeps the value it had. *)
Lemma parse_metrics_loop_keeps (lines : list string) (k : string) :
  forall m m' : gmap string Z,
  parse_metrics_loop lines m = Ok m' ->
  (forall line, In line lines -> label_of line <> Some k) ->
  m' !! k = m !! k.
Proof.
  induction lines as [|line rest IH]; intros m m' Hrun Hnone.
  - injection Hrun as <-. reflexivity.
  - rewrite parse_metrics_loop_step in Hrun.
    assert (Hrest : forall l, In l rest -> label_of l <> Some k)
      by (intros l Hl; apply Hnone; right; exact Hl).
    destruct (label_of line) as [k0|] eqn:Hlabel; [|exact (IH _ _ Hrun Hrest)].
    destruct (PyInt.int (line_value line)) as [v|]; [|discriminate].
    rewrite (IH _ _ Hrun Hrest). apply lookup_insert_ne.
    intros ->. exact (Hnone line (or_introl eq_refl) Hlabel).
Qed.

(** The last line that reports a metric decides its value: when
    [_parse_metrics] returns, the entry of a metric is the integer of the
    last line that bears its label, whatever earlier lines said. *)
Theorem last_metric_line_wins (output line : string) (before after : list string)
    (k : string) (m : gmap string Z) :
  PyStr.split "010" output = (before ++ line :: after)%list ->
  label_of line = Some k ->
  (forall l, In l after -> label_of l <> Some k) ->
  _parse_metrics output = Ok m ->
  exists v, PyInt.int (line_value line) = Ok v /\ m !! k = Some v.
Proof.
  intros Hsplit Hlabel Hafter. unfold _parse_metrics.
  rewrite Hsplit, parse_metrics_loop_app.
  destruct (parse_metrics_loop before ∅) as [m1|]; [|discriminate].
  cbn [rbind]. rewrite parse_metrics_loop_step, Hlabel.
  destruct (PyInt.int (line_value line)) as [v|]; [|discriminate].
  cbn [rbind]. intros Hrun. exists v. split; [reflexivity|].
  rewrite (parse_metrics_loop_keeps after k _ _ Hrun Hafter).
  apply lookup_insert_eq.
Qed.

Lemma last_metric_line_wins_witness :
  exists v,
    PyInt.int (line_value "Requirements: 12") = Ok v
    /\ ({[ "requirements" := 12; "components" := 5 ]} : gmap string Z) !! "requirements"
       = Some v.
Proof.
  apply (last_metric_line_wins
           ("Requirements: 7" ++ PyStr.nl ++ "Requirements: 12" ++ PyStr.nl
            ++ "Components: 5")
           "Requirements: 12" ["Requirements: 7"] ["Components: 5"] "requirements").
  - reflexivity.
  - reflexivity.
  - intros l [<-|[]]. discriminate.
  - reflexivity.
Defined.

Lemma parse_coverage_loop_skips (before : list string) (rest : list string) :
  (forall l, In l before -> coverage_value l = None) ->
  parse_coverage_loop (before ++ rest)%list = parse_coverage_loop rest.
Proof.
  induction before as [|l before IH]; intros Hskip; [reflexivity|].
  change ((l :: before) ++ rest)%list with (l :: (before ++ rest))%list.
  cbn [parse_coverage_loop]. fold (coverage_line l).
  pose proof (Hskip l (or_introl eq_refl)) as Hl. unfold coverage_value in Hl.
  assert (IH' := IH (fun x Hx => Hskip x (or_intror Hx))).
  destruct (coverage_line l); [|exact IH'].
  destruct (PyInt.int (PyStr.rstrip_char "%" (line_value l))); [discriminate|exact IH'].
Qed.

(** The first line that bears a coverage label and can be read decides the
    coverage: labelled lines before it whose tail is not an integer are
    passed over, and nothing after it is looked at. *)
Theorem first_coverage_line_wins (output line : string) (before after : list string)
    (v : Z) :
  PyStr.split "010" output = (before ++ line :: after)%list ->
  (forall l, In l before -> coverage_value l = None) ->
  coverage_value line = Some v ->
  _parse_coverage output = v.
Proof.
  intros Hsplit Hbefore Hline. unfold _parse_coverage.
  rewrite Hsplit, (parse_coverage_loop_skips before _ Hbefore).
  cbn [parse_coverage_loop]. fold (coverage_line line).
  unfold coverage_value in Hline.
  destruct (coverage_line line); [|discriminate].
  destruct (PyInt.int (PyStr.rstrip_char "%" (line_value line))); [|discriminate].
  congruence.
Qed.

Lemma first_coverage_line_wins_witness :
  _parse_coverage ("Coverage: n/a" ++ PyStr.nl ++ "coverage: 85 %" ++ PyStr.nl
                   ++ "Coverage: 100%")
  = 85.
Proof.
  apply (first_coverage_line_wins _ "coverage: 85 %" ["Coverage: n/a"] ["Coverage: 100%"]).
  - reflexivity.
  - intros l [<-|[]]. reflexivity.
  - reflexivity.
Defined.

End LineByLine.

(** ** What the metrics dictionary can hold *)

Section MetricKeys.

Import ArcLangCompiler.

Lemma parse_metrics_loop_keys (lines : list string) (k : string) :
  forall m m' : gmap string Z,
  parse_metrics_loop lines m = Ok m' ->
  is_Some (m' !! k) ->
  is_Some (m !! k) \/ In k metric_fields.
Proof.
  induction lines as [|line rest IH]; intros m m' Hrun Hk.
  - injection Hrun as <-. left; exact Hk.
  - rewrite parse_metrics_loop_step in Hrun.
    destruct (label_of line) as [k0|] eqn:Hlabel; [|exact (IH _ _ Hrun Hk)].
    destruct (PyInt.int (line_value line)) as [v|]; [|discriminate].
    destruct (IH _ _ Hrun Hk) as [Hins|Hin]; [|right; exact Hin].
    destruct (decide (k0 = k)) as [->|Hne].
    + right. exact (label_of_field line k Hlabel).
    + left. rewrite lookup_insert_ne in Hins by exact Hne. exact Hins.
Qed.

(** Whatever the output, the dictionary [_parse_metrics] returns holds no
    key besides requirements, components, functions and traces. *)
Theorem metrics_keys_are_the_four_fields (output : string) (m : gmap string Z)
    (k : string) :
  _parse_metrics output = Ok m ->
  is_Some (m !! k) ->
  In k metric_fields.
Proof.
  intros Hrun Hk.
  destruct (parse_metrics_loop_keys _ k _ _ Hrun Hk) as [[v Hv]|Hin]; [|exact Hin].
  rewrite lookup_empty in Hv. discriminate.
Qed.

Lemma metrics_keys_are_the_four_fields_witness :
  In "components" metric_fields.
Proof.
  apply (metrics_keys_are_the_four_fields Sample.scenario_stdout
           {[ "requirements" := 12; "components" := 5 ]} "components").
  - reflexivity.
  - exists 5. reflexivity.
Defined.

Lemma info_metrics_parsed (w : World) (self : t) (model_path : Path) (detailed : pyval)
    (r : InfoResult) :
  outcome (info w self model_path detailed) = Ok r ->
  exists out, _parse_metrics out = Ok (info_metrics r).
Proof.
  unfold info.
  destruct (_run_command w self _) as [tr [pr|e]]; [|discriminate].
  cbn [bind lift].
  destruct (_parse_metrics (stdout pr)) as [parsed|e] eqn:Hparse; [|discriminate].
  cbn [bind]. destruct (path_exists w model_path).
  - destruct (stat_size_kb w model_path) as [size|e]; [|discriminate].
    cbn. intros [= <-]. exists (stdout pr). exact Hparse.
  - cbn. intros [= <-]. exists (stdout pr). exact Hparse.
Qed.

Lemma absent_metric (output : string) (m : gmap string Z) (k : string) :
  _parse_metrics output = Ok m -> ~ In k metric_fields -> m !! k = None.
Proof.
  intros Hrun Hk. destruct (m !! k) as [v|] eqn:Hv; [|reflexivity].
  exfalso. apply Hk.
  destruct (parse_metrics_loop_keys _ k _ _ Hrun (ex_intro _ v Hv)) as [[v' Hv']|Hin];
    [|exact Hin].
  rewrite lookup_empty in Hv'. discriminate.
Qed.

End MetricKeys.

(** ** The facade operations and the process *)

Section FacadeOperations.

Import ArcLangCompiler.

Lemma run_command_total (w : World) (self : t) (cmd : list pyval) :
  exists pr, _run_command w self cmd = ([Exec cmd], Ok pr).
Proof.
  unfold _run_command.
  destruct (run_process w cmd (timeout self)) as [e|rc [out|e] [err|e']].
  - destruct e; simpl; eauto.
  - simpl; eauto.
  - destruct e'; simpl; eauto.
  - destruct e; simpl; eauto.
  - destruct e; simpl; eauto.
Qed.

(** Validation, trace analysis, safety check, hazard analysis and PLM
    synchronisation each start exactly one process and never raise,
    whatever the process does (fail to start, time out, exit with any
    status, print anything); the semantic merge starts none. *)
Theorem operations_that_never_raise (w : World) (self : t) (model_path : Path)
    (a b : pyval) (p q : Path) :
  (exists cmd r, validate w self model_path a = ([Exec cmd], Ok r))
  /\ (exists cmd r, trace_analysis w self model_path a b = ([Exec cmd], Ok r))
  /\ (exists cmd r, safety_check w self model_path a b = ([Exec cmd], Ok r))
  /\ (exists cmd r, hazard_analysis w self model_path a = ([Exec cmd], Ok r))
  /\ (exists cmd r, plm_sync w self model_path a b = ([Exec cmd], Ok r))
  /\ (exists r, semantic_merge w self model_path p q = ([], Ok r)).
Proof.
  repeat split.
  - unfold validate. edestruct run_command_total as [pr ->]. simpl. eauto.
  - unfold trace_analysis. edestruct run_command_total as [pr ->]. simpl. eauto.
  - unfold safety_check. edestruct run_command_total as [pr ->]. simpl. eauto.
  - unfold hazard_analysis. edestruct run_command_total as [pr ->]. simpl. eauto.
  - unfold plm_sync. edestruct run_command_total as [pr ->]. simpl. eauto.
  - unfold semantic_merge. eexists. reflexivity.
Qed.

(** When the process does not end with status 0 (it failed to start, timed
    out, or exited with another status), [compile] does not read its
    output: it returns a failed result with the error output and an empty
    metrics dictionary, and does not raise. *)
Theorem compile_failure_is_reported (w : World) (self : t) (model_path : Path)
    (validate optimize : pyval) (pr : ProcessResult) :
  outcome (_run_command w self (compile_cmd self model_path validate optimize)) = Ok pr ->
  returncode pr <> 0 ->
  outcome (compile w self model_path validate optimize)
  = Ok {| success := false; output := stdout pr; errors := stderr pr; metrics := ∅ |}.
Proof.
  intros Hrun Hrc. unfold compile.
  destruct (_run_command w self _) as [tr [pr'|e]]; [|discriminate].
  injection Hrun as ->. apply Z.eqb_neq in Hrc.
  cbn [bind lift]. rewrite Hrc. reflexivity.
Qed.

Lemma compile_failure_is_reported_witness :
  outcome (compile (Sample.world never_answers Sample.unreachable) sample_compiler
             "/ws/brake.arc" (VBool true) (VBool false))
  = Ok {| success := false;
          output := EmptyString;
          errors := "Command timed out after 30 seconds";
          metrics := ∅ |}.
Proof.
  apply (compile_failure_is_reported (Sample.world never_answers Sample.unreachable)
           sample_compiler "/ws/brake.arc" (VBool true) (VBool false)
           {| returncode := -1; stdout := EmptyString;
              stderr := "Command timed out after 30 seconds" |}).
  - reflexivity.
  - discriminate.
Defined.

(** The report of [arclang_info] always shows 0 actors and 0 nodes, and
    never reaches its safety block: the parser extracts none of these
    keys. *)
Theorem info_report_has_no_actors_nor_nodes (w : World) (self : CoreTools.t)
    (args : gmap string pyval) (p : pyval) (model_path : Path) (r : InfoResult) :
  args !! "model_path" = Some p ->
  CoreTools._resolve_path w self p = Ok model_path ->
  outcome (info w (CoreTools.compiler self) model_path
             (arg_get args "detailed" (VBool false))) = Ok r ->
  outcome (CoreTools._info w self args)
  = Ok (info_report_head model_path r
        ++ "  - Actors: 0" ++ PyStr.nl ++ "  - Nodes: 0" ++ PyStr.nl ++ PyStr.nl).
Proof.
  intros Harg Hpath Hinfo.
  destruct (info_metrics_parsed _ _ _ _ _ Hinfo) as [out Hparse].
  assert (Hsafety : info_metrics r !! "safety" = None)
    by (apply (absent_metric out); [exact Hparse|unfold metric_fields; simpl; intuition discriminate]).
  assert (Hactors : info_metrics r !! "actors" = None)
    by (apply (absent_metric out); [exact Hparse|unfold metric_fields; simpl; intuition discriminate]).
  assert (Hnodes : info_metrics r !! "nodes" = None)
    by (apply (absent_metric out); [exact Hparse|unfold metric_fields; simpl; intuition discriminate]).
  unfold CoreTools._info, arg. rewrite Harg.
  unfold lift at 1. unfold bind at 1. rewrite Hpath.
  unfold lift at 1. unfold bind at 1.
  destruct (info w _ model_path _) as [tr [r'|e]]; [|discriminate].
  injection Hinfo as ->. unfold bind.
  rewrite Hsafety. unfold metric at 5 6. rewrite Hactors, Hnodes.
  unfold info_report_head. rewrite !append_assoc_s. reflexivity.
Qed.

Lemma info_report_has_no_actors_nor_nodes_witness :
  exists r,
    outcome (CoreTools._info scenario_world (core_of scenario_world) brake_model)
    = Ok (info_report_head "/ws/brake.arc" r
          ++ "  - Actors: 0" ++ PyStr.nl ++ "  - Nodes: 0" ++ PyStr.nl ++ PyStr.nl)
    /\ info_metrics r = {[ "requirements" := 12; "components" := 5 ]}.
Proof.
  eexists. split.
  - apply (info_report_has_no_actors_nor_nodes scenario_world (core_of scenario_world)
             brake_model (VStr "brake.arc") "/ws/brake.arc"); reflexivity.
  - reflexivity.
Defined.

End FacadeOperations.

(** ** Reading back a printed integer *)

Section Numerals.

Import ArcLangCompiler.

Lemma digit_is_not_underscore (c : ascii) (d : Z) :
  PyInt.digit_val c = Some d -> Ascii.eqb c "_" = false.
Proof.
  intros H. destruct (Ascii.eqb_spec c "_") as [->|_]; [discriminate H|reflexivity].
Qed.

Lemma scan_digit (c : ascii) (t : string) (prev : option ascii) (acc : Z) (n : nat) (d : Z) :
  PyInt.digit_val c = Some d ->
  PyInt.scan (String c t) prev acc n = PyInt.scan t (Some c) (10 * acc + d) (S n).
Proof.
  intros H. cbn [PyInt.scan]. rewrite (digit_is_not_underscore c d H), H. reflexivity.
Qed.

Lemma scan_end (c : ascii) (acc : Z) (n : nat) :
  Ascii.eqb c "_" = false -> PyInt.scan EmptyString (Some c) acc n = Some (acc, n).
Proof. intros H. cbn [PyInt.scan]. rewrite H. reflexivity. Qed.

Ltac digit_value :=
  match goal with
  | |- context [PyStr.code ?ch - 48] =>
      let r := eval vm_compute in (PyStr.code ch - 48) in
      change (PyStr.code ch - 48) with r
  end.

Lemma scan_with_accumulator (d : Decimal.uint) :
  forall (acc : positive) (c : ascii) (n : nat),
  Ascii.eqb c "_" = false ->
  PyInt.scan (NilEmpty.string_of_uint d) (Some c) (Z.pos acc) n
  = Some (Z.pos (Pos.of_uint_acc d acc), (n + Decimal.nb_digits d)%nat).
Proof.
  induction d as [|d IH|d IH|d IH|d IH|d IH|d IH|d IH|d IH|d IH|d IH];
    intros acc c n Hc;
    cbn [NilEmpty.string_of_uint Pos.of_uint_acc Decimal.nb_digits].
  1: rewrite Nat.add_0_r; apply scan_end, Hc.
  all: erewrite scan_digit by reflexivity; digit_value.
  all: match goal with
       | |- PyInt.scan _ _ ?v _ = Some (Z.pos (Pos.of_uint_acc _ ?a), _) =>
           replace v with (Z.pos a) by lia
       end.
  all: rewrite IH by reflexivity; f_equal; f_equal; lia.
Qed.

Lemma scan_from_zero (d : Decimal.uint) :
  forall (prev : option ascii) (n : nat),
  d <> Decimal.Nil ->
  PyInt.scan (NilEmpty.string_of_uint d) prev 0 n
  = Some (Z.of_N (Pos.of_uint d), (n + Decimal.nb_digits d)%nat).
Proof.
  induction d as [|d IH|d IH|d IH|d IH|d IH|d IH|d IH|d IH|d IH|d IH];
    intros prev n Hd; [contradiction|..];
    cbn [NilEmpty.string_of_uint Pos.of_uint Decimal.nb_digits];
    erewrite scan_digit by reflexivity; digit_value.
  1: { destruct (Decimal.uint_eq_dec d Decimal.Nil) as [->|Hne].
       - cbn. f_equal. f_equal. lia.
       - change (10 * 0 + 0) with 0. rewrite (IH _ _ Hne). f_equal. f_equal. lia. }
  all: match goal with
       | |- PyInt.scan _ _ ?v _ = Some (Z.of_N (N.pos (Pos.of_uint_acc _ ?a)), _) =>
           change v with (Z.pos a)
       end.
  all: rewrite scan_with_accumulator by reflexivity; cbn [Z.of_N]; f_equal; f_equal; lia.
Qed.

End Numerals.

Section NumeralLines.

Import ArcLangCompiler.

Lemma lstrip_nothing (p : ascii -> bool) (s : string) :
  match s with EmptyString => True | String c _ => p c = false end ->
  PyStr.lstrip_by p s = s.
Proof. destruct s as [|c t]; [reflexivity|]. simpl. intros ->. reflexivity. Qed.

Lemma rstrip_nothing (p : ascii -> bool) (s : string) :
  all_chars (fun c => negb (p c)) s = true -> PyStr.rstrip_by p s = s.
Proof.
  induction s as [|c t IH]; [reflexivity|].
  cbn [all_chars PyStr.rstrip_by]. intros H. apply andb_prop in H as [Hc Ht].
  rewrite (IH Ht). apply negb_true_iff in Hc. rewrite Hc.
  destruct t; reflexivity.
Qed.

Lemma all_chars_weaken (p q : ascii -> bool) (s : string) :
  (forall c, p c = true -> q c = true) ->
  all_chars p s = true -> all_chars q s = true.
Proof.
  intros Hpq. induction s as [|c t IH]; [reflexivity|].
  cbn [all_chars]. intros H. apply andb_prop in H as [Hc Ht].
  rewrite (Hpq c Hc), (IH Ht). reflexivity.
Qed.

Lemma numeral_char_facts (c : ascii) :
  numeral_char c = true ->
  blank_byte c = false /\ PyInt.c_isspace c = false
  /\ Ascii.eqb c ":" = false /\ Ascii.eqb c "010" = false /\ Ascii.eqb "%" c = false
  /\ (PyStr.code c <? 127) = true.
Proof.
  destruct c as [[|] [|] [|] [|] [|] [|] [|] [|]]; intros H;
    first [discriminate H | repeat split; vm_compute; reflexivity].
Qed.

Lemma byte_code (c : ascii) : PyStr.byte (PyStr.code c) = c.
Proof. unfold PyStr.byte, PyStr.code. rewrite Nat2Z.id. apply ascii_nat_embedding. Qed.

Lemma ord_ascii (c : ascii) :
  ascii_byte c = true -> PyStr.ord (String c EmptyString) = PyStr.code c.
Proof.
  unfold ascii_byte, PyStr.ord, PyStr.utf8. intros H. rewrite H, byte_code, String.eqb_refl.
  replace (0 <=? PyStr.code c) with true; [reflexivity|].
  symmetry. apply Z.leb_le. unfold PyStr.code. lia.
Qed.

Lemma chars_ascii (s : string) : is_ascii s = true -> PyStr.chars s = singletons s.
Proof.
  unfold is_ascii. induction s as [|c t IH]; [reflexivity|].
  cbn [all_chars PyStr.chars singletons]. intros H. apply andb_prop in H as [_ Ht].
  rewrite (IH Ht). destruct t as [|c' t']; [reflexivity|].
  cbn [all_chars] in Ht. apply andb_prop in Ht as [Hc' _].
  unfold ascii_byte in Hc'. apply Z.ltb_lt in Hc'.
  replace (PyStr.continues (String c' t')) with false; [reflexivity|].
  symmetry. unfold PyStr.continues, PyStr.is_continuation.
  apply andb_false_iff. left. apply Z.leb_gt. exact Hc'.
Qed.

Lemma concat_singletons (s : string) : PyStr.concat (singletons s) = s.
Proof.
  induction s as [|c t IH]; [reflexivity|].
  change (String c (PyStr.concat (singletons t)) = String c t). rewrite IH. reflexivity.
Qed.

Lemma to_ascii_plain (s : string) :
  all_chars (fun c => PyStr.code c <? 127) s = true -> PyInt.to_ascii (singletons s) = s.
Proof.
  induction s as [|c t IH]; [reflexivity|].
  cbn [all_chars singletons PyInt.to_ascii]. intros H. apply andb_prop in H as [Hc Ht].
  rewrite ord_ascii by (unfold ascii_byte; apply Z.ltb_lt in Hc; apply Z.ltb_lt; lia).
  rewrite Hc, (IH Ht).
  replace (0 <=? PyStr.code c) with true; [reflexivity|].
  symmetry. apply Z.leb_le. unfold PyStr.code. lia.
Qed.

Lemma drop_while_none {A} (p : A -> bool) (xs : list A) :
  List.forallb (fun x => negb (p x)) xs = true -> PyStr.drop_while p xs = xs.
Proof.
  destruct xs as [|x rest]; [reflexivity|]. cbn [List.forallb PyStr.drop_while].
  intros H. apply andb_prop in H as [Hx _]. apply negb_true_iff in Hx. rewrite Hx.
  reflexivity.
Qed.

Lemma forallb_reversed {A} (p : A -> bool) (xs : list A) :
  List.forallb p xs = true -> List.forallb p (List.rev xs) = true.
Proof.
  intros H. apply List.forallb_forall. intros x Hin. apply List.in_rev in Hin.
  exact (proj1 (List.forallb_forall _ _) H x Hin).
Qed.

Lemma singletons_not_blank (s : string) :
  all_chars (fun c => negb (blank_byte c)) s = true ->
  List.forallb (fun ch => negb (PyStr.isspace ch)) (singletons s) = true.
Proof.
  induction s as [|c t IH]; [reflexivity|].
  cbn [all_chars singletons List.forallb]. intros H. apply andb_prop in H as [Hc Ht].
  rewrite (IH Ht). unfold blank_byte in Hc. rewrite Hc. reflexivity.
Qed.

(** [strip] leaves alone an ASCII text without blanks, and removes a space
    before it. *)
Lemma strip_nothing (s : string) :
  is_ascii s = true ->
  all_chars (fun c => negb (blank_byte c)) s = true ->
  PyStr.strip s = s /\ PyStr.strip (String " " s) = s.
Proof.
  intros Hascii Hs. pose proof (singletons_not_blank s Hs) as Hall.
  assert (Hstrip : PyStr.concat
                     (List.rev (PyStr.drop_while PyStr.isspace
                        (List.rev (PyStr.drop_while PyStr.isspace (singletons s))))) = s).
  { rewrite (drop_while_none _ _ Hall).
    rewrite (drop_while_none _ _ (forallb_reversed _ _ Hall)).
    rewrite List.rev_involutive. apply concat_singletons. }
  split.
  - unfold PyStr.strip. rewrite (chars_ascii s Hascii). exact Hstrip.
  - unfold PyStr.strip. rewrite (chars_ascii (String " " s)) by exact Hascii.
    cbn [singletons PyStr.drop_while].
    change (PyStr.isspace (String " " EmptyString)) with true. cbn match. exact Hstrip.
Qed.

Lemma uint_chars (d : Decimal.uint) :
  all_chars numeral_char (NilEmpty.string_of_uint d) = true.
Proof. induction d; cbn [NilEmpty.string_of_uint all_chars]; rewrite ?IHd; reflexivity. Qed.

Lemma of_Z_pos (p : positive) :
  PyStr.of_Z (Z.pos p) = NilEmpty.string_of_uint (Pos.to_uint p).
Proof.
  unfold PyStr.of_Z. cbn [Z.to_int NilZero.string_of_int]. unfold NilZero.string_of_uint.
  pose proof (DecimalPos.Unsigned.to_uint_nonnil p) as Hne.
  destruct (Pos.to_uint p); [contradiction|reflexivity..].
Qed.

Lemma of_Z_neg (p : positive) :
  PyStr.of_Z (Z.neg p) = String "-" (PyStr.of_Z (Z.pos p)).
Proof.
  rewrite of_Z_pos. unfold PyStr.of_Z. cbn [Z.to_int NilZero.string_of_int].
  unfold NilZero.string_of_uint.
  pose proof (DecimalPos.Unsigned.to_uint_nonnil p) as Hne.
  destruct (Pos.to_uint p); [contradiction|reflexivity..].
Qed.

Lemma of_Z_chars (z : Z) : all_chars numeral_char (PyStr.of_Z z) = true.
Proof.
  destruct z as [|p|p].
  - reflexivity.
  - rewrite of_Z_pos. apply uint_chars.
  - rewrite of_Z_neg, of_Z_pos. cbn [all_chars]. rewrite uint_chars. reflexivity.
Qed.

Lemma of_Z_nonempty (z : Z) : PyStr.of_Z z <> EmptyString.
Proof.
  destruct z as [|p|p].
  - discriminate.
  - rewrite of_Z_pos. pose proof (DecimalPos.Unsigned.to_uint_nonnil p) as Hne.
    destruct (Pos.to_uint p); [contradiction|discriminate..].
  - rewrite of_Z_neg. discriminate.
Qed.

Lemma uint_length (d : Decimal.uint) :
  String.length (NilEmpty.string_of_uint d) = Decimal.nb_digits d.
Proof. induction d; cbn [NilEmpty.string_of_uint String.length Decimal.nb_digits]; congruence. Qed.

Lemma blanks_around_numeral (p : ascii -> bool) (s : string) :
  (forall c, numeral_char c = true -> p c = false) ->
  all_chars numeral_char s = true ->
  PyStr.rstrip_by p (PyStr.lstrip_by p s) = s.
Proof.
  intros Hp Hs. rewrite lstrip_nothing.
  - apply rstrip_nothing. revert Hs. apply all_chars_weaken.
    intros c Hc. rewrite (Hp c Hc). reflexivity.
  - destruct s as [|c t]; [exact I|]. cbn [all_chars] in Hs.
    apply andb_prop in Hs as [Hc _]. exact (Hp c Hc).
Qed.

Lemma int_of_positive (p : positive) :
  PyInt.scan (PyStr.of_Z (Z.pos p)) None 0 0
  = Some (Z.pos p, String.length (PyStr.of_Z (Z.pos p))).
Proof.
  rewrite of_Z_pos, scan_from_zero by apply DecimalPos.Unsigned.to_uint_nonnil.
  rewrite DecimalPos.Unsigned.of_to, uint_length. reflexivity.
Qed.

Lemma first_char_of_positive (p : positive) :
  exists c t, PyStr.of_Z (Z.pos p) = String c t
              /\ Ascii.eqb c "-" = false /\ Ascii.eqb c "+" = false.
Proof.
  rewrite of_Z_pos. pose proof (DecimalPos.Unsigned.to_uint_nonnil p) as Hne.
  destruct (Pos.to_uint p); [contradiction|..];
    cbn [NilEmpty.string_of_uint]; eexists _, _; repeat split; reflexivity.
Qed.

(** [int] reads back the decimal text of an integer, within its limit on
    the number of digits. *)
Lemma int_of_printed (z : Z) :
  within_digit_limit z -> PyInt.int (PyStr.of_Z z) = Ok z.
Proof.
  unfold within_digit_limit, PyInt.int. intros Hlimit.
  rewrite chars_ascii
    by (generalize (of_Z_chars z); apply all_chars_weaken;
        intros c Hc; unfold ascii_byte;
        destruct (numeral_char_facts c Hc) as (_ & _ & _ & _ & _ & Hlt);
        apply Z.ltb_lt in Hlt; apply Z.ltb_lt; lia).
  rewrite to_ascii_plain
    by (generalize (of_Z_chars z); apply all_chars_weaken;
        intros c Hc; apply (numeral_char_facts c Hc)).
  rewrite blanks_around_numeral
    by (try apply of_Z_chars; intros c Hc; apply (numeral_char_facts c Hc)).
  destruct z as [|p|p].
  - reflexivity.
  - destruct (first_char_of_positive p) as (c & t & Heq & Hminus & Hplus).
    rewrite Heq at 1. rewrite Hminus, Hplus.
    rewrite (int_of_positive p).
    change (Z.abs (Z.pos p)) with (Z.pos p) in Hlimit.
    apply Nat.ltb_ge in Hlimit. rewrite Hlimit. reflexivity.
  - rewrite of_Z_neg. change (Ascii.eqb "-" "-") with true. cbn match.
    rewrite (int_of_positive p).
    change (Z.abs (Z.neg p)) with (Z.pos p) in Hlimit.
    apply Nat.ltb_ge in Hlimit. rewrite Hlimit. reflexivity.
Qed.

End NumeralLines.

Section PrintedLines.

Import ArcLangCompiler.

Lemma split_without_separator (sep : ascii) (s : string) :
  all_chars (fun c => negb (Ascii.eqb c sep)) s = true ->
  PyStr.split sep s = [s].
Proof.
  induction s as [|c t IH]; [reflexivity|].
  cbn [all_chars PyStr.split]. intros H. apply andb_prop in H as [Hc Ht].
  apply negb_true_iff in Hc. rewrite Hc, (IH Ht). reflexivity.
Qed.

Lemma split_at_separator (sep : ascii) (a b : string) :
  all_chars (fun c => negb (Ascii.eqb c sep)) a = true ->
  PyStr.split sep (a ++ String sep b) = a :: PyStr.split sep b.
Proof.
  induction a as [|c t IH]; intros H.
  - change (PyStr.split sep (String sep b) = EmptyString :: PyStr.split sep b).
    cbn [PyStr.split]. rewrite Ascii.eqb_refl. reflexivity.
  - change (PyStr.split sep (String c (t ++ String sep b))
            = String c t :: PyStr.split sep b).
    cbn [all_chars] in H. apply andb_prop in H as [Hc Ht].
    apply negb_true_iff in Hc. cbn [PyStr.split]. rewrite Hc, (IH Ht). reflexivity.
Qed.

Lemma all_chars_app (p : ascii -> bool) (a b : string) :
  all_chars p (a ++ b) = all_chars p a && all_chars p b.
Proof.
  induction a as [|c t IH]; [reflexivity|].
  change (all_chars p (String c (t ++ b)) = all_chars p (String c t) && all_chars p b).
  cbn [all_chars]. rewrite IH, andb_assoc. reflexivity.
Qed.

Lemma numeral_is_plain (c : ascii) : numeral_char c = true -> plain_char c = true.
Proof.
  intros Hc. destruct (numeral_char_facts c Hc) as (Hs & _ & Hcolon & _ & _ & Hlt).
  unfold plain_char, ascii_byte. rewrite Hs, Hcolon.
  replace (PyStr.code c <? 128) with true; [reflexivity|].
  symmetry. apply Z.ltb_lt in Hlt. apply Z.ltb_lt. lia.
Qed.

Lemma numeral_not_newline (c : ascii) :
  numeral_char c = true -> negb (Ascii.eqb c "010") = true.
Proof.
  intros Hc. destruct (numeral_char_facts c Hc) as (_ & _ & _ & Hnl & _ & _).
  rewrite Hnl. reflexivity.
Qed.

(** The tail of a labelled line [label: x] is [x], when [x] holds neither
    blanks nor colons. *)
Lemma line_value_of_plain (label x : string) :
  all_chars (fun c => negb (Ascii.eqb c ":")) label = true ->
  all_chars plain_char x = true ->
  line_value (label ++ String ":" (String " " x)) = x.
Proof.
  intros Hlabel Hx. unfold line_value.
  rewrite (split_at_separator ":" label _ Hlabel).
  rewrite split_without_separator.
  - cbn [PyStr.last_item List.last].
    apply strip_nothing.
    + revert Hx. apply all_chars_weaken.
      intros c Hc. apply andb_prop in Hc as [Hc _]. apply andb_prop in Hc as [Hc _].
      exact Hc.
    + revert Hx. apply all_chars_weaken.
      intros c Hc. apply andb_prop in Hc as [Hc _]. apply andb_prop in Hc as [_ Hc].
      exact Hc.
  - cbn [all_chars]. change (negb (Ascii.eqb " " ":")) with true. cbn [andb].
    revert Hx. apply all_chars_weaken.
    intros c Hc. apply andb_prop in Hc as [_ Hc]. exact Hc.
Qed.

Lemma rstrip_percent (x : string) :
  all_chars numeral_char x = true ->
  x <> EmptyString ->
  PyStr.rstrip_char "%" (x ++ "%") = x.
Proof.
  unfold PyStr.rstrip_char. induction x as [|c t IH]; intros Hx Hne; [contradiction|].
  change (PyStr.rstrip_by (Ascii.eqb "%") (String c (t ++ "%")) = String c t).
  cbn [all_chars] in Hx. apply andb_prop in Hx as [Hc Ht].
  destruct (numeral_char_facts c Hc) as (_ & _ & _ & _ & Hp & _).
  cbn [PyStr.rstrip_by]. destruct t as [|c' t'].
  - change (EmptyString ++ "%") with "%". cbn [PyStr.rstrip_by].
    change (Ascii.eqb "%" "%") with true. cbn match. rewrite Hp. reflexivity.
  - rewrite (IH Ht) by discriminate. reflexivity.
Qed.

(** A line [Requirements: n], [Traces: n] or [Coverage: n%] printed with
    the decimal text of an integer [n] is read back as [n]: by
    [_parse_metrics] as the only entry of the dictionary, by
    [_count_traces] and by [_parse_coverage] as their result, for every
    integer within the digit limit of [int]. *)
Theorem printed_integer_is_read_back (z : Z) :
  within_digit_limit z ->
  _parse_metrics ("Requirements: " ++ PyStr.of_Z z) = Ok {[ "requirements" := z ]}
  /\ _count_traces ("Traces: " ++ PyStr.of_Z z) = z
  /\ _parse_coverage ("Coverage: " ++ PyStr.of_Z z ++ "%") = z.
Proof.
  intros Hlimit. pose proof (of_Z_chars z) as Hz.
  assert (Hplain : all_chars plain_char (PyStr.of_Z z) = true)
    by (revert Hz; apply all_chars_weaken, numeral_is_plain).
  assert (Hnl : all_chars (fun c => negb (Ascii.eqb c "010")) (PyStr.of_Z z) = true)
    by (revert Hz; apply all_chars_weaken, numeral_not_newline).
  split; [|split].
  - unfold _parse_metrics. rewrite split_without_separator
      by (rewrite all_chars_app, Hnl; reflexivity).
    rewrite parse_metrics_loop_step.
    replace (label_of ("Requirements: " ++ PyStr.of_Z z)) with (Some "requirements")
      by (unfold label_of;
          change ("Requirements: " ++ PyStr.of_Z z)
            with ("Requirements:" ++ " " ++ PyStr.of_Z z);
          rewrite (contains_of_prefix "Requirements:" _ (prefix_append "Requirements:" _));
          reflexivity).
    change (line_value ("Requirements: " ++ PyStr.of_Z z))
      with (line_value ("Requirements" ++ String ":" (String " " (PyStr.of_Z z)))).
    rewrite (line_value_of_plain "Requirements" _ eq_refl Hplain), (int_of_printed z Hlimit).
    reflexivity.
  - unfold _count_traces. rewrite split_without_separator
      by (rewrite all_chars_app, Hnl; reflexivity).
    cbn [count_traces_loop].
    change ("Traces: " ++ PyStr.of_Z z) with ("Traces:" ++ " " ++ PyStr.of_Z z) at 1.
    rewrite (contains_of_prefix "Traces:" _ (prefix_append "Traces:" _)).
    cbn [orb].
    change (line_value ("Traces: " ++ PyStr.of_Z z))
      with (line_value ("Traces" ++ String ":" (String " " (PyStr.of_Z z)))).
    rewrite (line_value_of_plain "Traces" _ eq_refl Hplain), (int_of_printed z Hlimit).
    reflexivity.
  - unfold _parse_coverage. rewrite split_without_separator
      by (rewrite !all_chars_app, Hnl; reflexivity).
    cbn [parse_coverage_loop].
    change ("Coverage: " ++ PyStr.of_Z z ++ "%")
      with ("Coverage:" ++ " " ++ PyStr.of_Z z ++ "%") at 1.
    rewrite (contains_of_prefix "Coverage:" _ (prefix_append "Coverage:" _)).
    cbn [orb].
    change (line_value ("Coverage: " ++ PyStr.of_Z z ++ "%"))
      with (line_value ("Coverage" ++ String ":" (String " " (PyStr.of_Z z ++ "%")))).
    rewrite (line_value_of_plain "Coverage" (PyStr.of_Z z ++ "%") eq_refl)
      by (rewrite all_chars_app, Hplain; reflexivity).
    rewrite (rstrip_percent _ Hz (of_Z_nonempty z)), (int_of_printed z Hlimit).
    reflexivity.
Qed.

Lemma printed_integer_is_read_back_witness :
  _parse_metrics "Requirements: -42" = Ok {[ "requirements" := -42 ]}
  /\ _count_traces "Traces: -42" = -42
  /\ _parse_coverage "Coverage: -42%" = -42.
Proof.
  apply (printed_integer_is_read_back (-42)).
  unfold within_digit_limit. apply Nat.leb_le. reflexivity.
Defined.

End PrintedLines.

(** ** Construction of the compiler wrapper and of the generator *)

Section Construction.

Lemma getenv_val_truthy (w : World) (name : string) :
  Py.truthy (ArcLangCompiler.getenv_val w name) = env_set w name.
Proof.
  unfold ArcLangCompiler.getenv_val, env_set. destruct (getenv w name); reflexivity.
Qed.

(** The binary the wrapper runs is never an empty value, and is chosen in
    this order: the environment variable ARCLANG_BINARY when it is set and
    not empty, else the [path] of the configuration when it is present and
    true, else ["arclang"]. *)
Theorem binary_path_precedence (w : World) (config : gmap string pyval) :
  Py.truthy (chosen_binary w config) = true
  /\ (forall s, getenv w "ARCLANG_BINARY" = Some s -> s <> EmptyString ->
      chosen_binary w config = VStr s)
  /\ (env_set w "ARCLANG_BINARY" = false ->
      forall v, config !! "path" = Some v -> Py.truthy v = true ->
      chosen_binary w config = v)
  /\ (env_set w "ARCLANG_BINARY" = false ->
      Py.truthy (arg_get config "path" VNone) = false ->
      chosen_binary w config = VStr "arclang").
Proof.
  unfold chosen_binary, ArcLangCompiler.__init__. cbn [ArcLangCompiler.binary_path].
  unfold Py.or_. rewrite getenv_val_truthy. repeat split.
  - destruct (env_set w "ARCLANG_BINARY") eqn:He.
    + rewrite getenv_val_truthy. exact He.
    + destruct (Py.truthy (arg_get config "path" VNone)) eqn:Hp; [exact Hp|reflexivity].
  - intros s Hs Hne. unfold env_set, ArcLangCompiler.getenv_val. rewrite Hs.
    apply String.eqb_neq in Hne. rewrite Hne. reflexivity.
  - intros He v Hv Ht. rewrite He. unfold arg_get. rewrite Hv, Ht. reflexivity.
  - intros He Hp. rewrite He, Hp. reflexivity.
Qed.

Lemma binary_path_precedence_witness :
  chosen_binary (with_env (one_variable "ARCLANG_BINARY" "/opt/arclang") offline)
    {[ "path" := VStr "configured" ]}
  = VStr "/opt/arclang"
  /\ chosen_binary (with_env (one_variable "ARCLANG_BINARY" EmptyString) offline)
       {[ "path" := VStr "configured" ]}
     = VStr "configured"
  /\ chosen_binary offline {[ "path" := VStr EmptyString ]} = VStr "arclang".
Proof.
  split; [|split].
  - apply (proj1 (proj2 (binary_path_precedence
                           (with_env (one_variable "ARCLANG_BINARY" "/opt/arclang") offline)
                           {[ "path" := VStr "configured" ]})) "/opt/arclang").
    + reflexivity.
    + discriminate.
  - apply (proj1 (proj2 (proj2 (binary_path_precedence
                           (with_env (one_variable "ARCLANG_BINARY" EmptyString) offline)
                           {[ "path" := VStr "configured" ]})))); reflexivity.
  - apply (proj2 (proj2 (proj2 (binary_path_precedence offline
                                  {[ "path" := VStr EmptyString ]})))); reflexivity.
Defined.

End Construction.

Section GeneratorConstruction.

Import AIGenerator.

(** A generator has a backend exactly when its provider is ["anthropic"]
    and a key is at hand: the [api_key] of the configuration when it is
    true, else the environment variable ANTHROPIC_API_KEY when it is set
    and not empty. *)
Theorem backend_selection (w : World) (config : gmap string pyval) :
  has_backend (__init__ w config)
  = is_str (arg_get config "provider" (VStr "anthropic")) "anthropic"
    && (Py.truthy (arg_get config "api_key" VNone) || env_set w "ANTHROPIC_API_KEY")
  /\ (forall key, config !! "api_key" = Some key -> Py.truthy key = true ->
      is_str (arg_get config "provider" (VStr "anthropic")) "anthropic" = true ->
      client (__init__ w config) = Some (Some key)).
Proof.
  unfold has_backend, __init__. cbn [client]. split.
  - destruct (is_str _ "anthropic"); [|reflexivity].
    unfold Py.or_. destruct (Py.truthy (arg_get config "api_key" VNone)) eqn:Hk.
    + rewrite Hk. reflexivity.
    + rewrite getenv_val_truthy. destruct (env_set w "ANTHROPIC_API_KEY"); reflexivity.
  - intros key Hkey Ht Hp. rewrite Hp.
    assert (Hget : arg_get config "api_key" VNone = key)
      by (unfold arg_get; rewrite Hkey; reflexivity).
    rewrite Hget. unfold Py.or_. rewrite Ht, Ht. reflexivity.
Qed.

Lemma backend_selection_witness :
  client (__init__ (with_env (one_variable "ANTHROPIC_API_KEY" "sk-env") offline)
            {[ "api_key" := VStr "sk-file" ]})
  = Some (Some (VStr "sk-file")).
Proof.
  apply (proj2 (backend_selection
                  (with_env (one_variable "ANTHROPIC_API_KEY" "sk-env") offline)
                  {[ "api_key" := VStr "sk-file" ]}) (VStr "sk-file")); reflexivity.
Defined.

(** With a provider other than ["anthropic"] the generator has no [client]
    attribute, and the generation of a requirement or of a component fails
    on every input, before any outside call: the template that needs no
    backend is not reached. *)
Theorem other_provider_breaks_generation (w : World) (config : gmap string pyval) :
  is_str (arg_get config "provider" (VStr "anthropic")) "anthropic" = false ->
  forall a b c,
    generate_requirement w (__init__ w config) a b c = ([], Raise anthropic_error)
    /\ generate_component w (__init__ w config) a b c = ([], Raise anthropic_error).
Proof.
  intros Hp a b c.
  unfold generate_requirement, generate_component, get_client, __init__.
  cbn [client]. rewrite Hp. split; reflexivity.
Qed.

Lemma other_provider_breaks_generation_witness :
  generate_requirement offline (__init__ offline {[ "provider" := VStr "openai" ]})
    brake VNone (VStr "High") = ([], Raise anthropic_error)
  /\ generate_component offline (__init__ offline {[ "provider" := VStr "openai" ]})
       brake VNone (VStr "High") = ([], Raise anthropic_error).
Proof.
  apply (other_provider_breaks_generation offline {[ "provider" := VStr "openai" ]}).
  reflexivity.
Defined.

End GeneratorConstruction.

(** ** Synthesized identifiers *)

Section Identifiers.

Import AIGenerator.

(** A word of [str.split()] on an ASCII text: not empty, ASCII, without
    blanks. *)
Lemma words_from_are_words (s : string) : forall cur,
  is_ascii s = true ->
  is_ascii cur = true ->
  all_chars (fun c => negb (blank_byte c)) cur = true ->
  Forall (fun word => word <> EmptyString
                      /\ is_ascii word = true
                      /\ all_chars (fun c => negb (blank_byte c)) word = true)
         (PyStr.words_from cur (singletons s)).
Proof.
  unfold is_ascii.
  induction s as [|c t IH]; intros cur Hs Hascii Hcur; cbn [singletons PyStr.words_from].
  - destruct cur; [constructor|]. constructor; [|constructor].
    split; [discriminate|]. split; [exact Hascii|exact Hcur].
  - cbn [all_chars] in Hs. apply andb_prop in Hs as [Hc Ht].
    change (PyStr.isspace (String c EmptyString)) with (blank_byte c).
    destruct (blank_byte c) eqn:Hb.
    + destruct cur as [|c0 cur0]; [apply IH; [exact Ht|reflexivity..]|].
      constructor; [split; [discriminate|split; [exact Hascii|exact Hcur]]|].
      apply IH; [exact Ht|reflexivity..].
    + apply IH; [exact Ht|..]; rewrite all_chars_app; cbn [all_chars].
      * rewrite Hascii, Hc. reflexivity.
      * rewrite Hcur, Hb. reflexivity.
Qed.

Lemma firstn_subset {A} (n : nat) (l : list A) (x : A) :
  In x (List.firstn n l) -> In x l.
Proof.
  revert l. induction n as [|n IH]; intros [|y l] Hin; try contradiction.
  destruct Hin as [->|Hin]; [left; reflexivity|right; apply IH, Hin].
Qed.

(** The upper case of an ASCII character that is not a blank is one ASCII
    character, neither a blank nor a lower-case letter. *)
Lemma upper_of_nonblank (c : ascii) :
  ascii_byte c = true -> blank_byte c = false ->
  PyStr.upper_char (String c EmptyString) = String (PyStr.ascii_upper c) EmptyString
  /\ initial_char (PyStr.ascii_upper c) = true.
Proof.
  destruct c as [[|] [|] [|] [|] [|] [|] [|] [|]]; intros Ha Hb;
    vm_compute in Ha; vm_compute in Hb;
    first [discriminate Ha | discriminate Hb | split; vm_compute; reflexivity].
Qed.

Lemma initials_of_words (ws : list string) :
  Forall (fun word => word <> EmptyString
                      /\ is_ascii word = true
                      /\ all_chars (fun c => negb (blank_byte c)) word = true) ws ->
  String.length (PyStr.concat (List.map initial ws)) = List.length ws
  /\ all_chars initial_char (PyStr.concat (List.map initial ws)) = true.
Proof.
  induction 1 as [|word ws (Hne & Hascii & Hword) _ [IHlen IHchars]]; [split; reflexivity|].
  destruct word as [|c t]; [contradiction|].
  assert (Hinitial : initial (String c t) = PyStr.upper_char (String c EmptyString))
    by (unfold initial; rewrite (chars_ascii _ Hascii); reflexivity).
  unfold is_ascii in Hascii. cbn [all_chars] in Hword, Hascii.
  apply andb_prop in Hword as [Hc _]. apply andb_prop in Hascii as [Ha _].
  apply negb_true_iff in Hc.
  destruct (upper_of_nonblank c Ha Hc) as (Hu & Hchar).
  change (PyStr.concat (List.map initial (String c t :: ws)))
    with (initial (String c t) ++ PyStr.concat (List.map initial ws)).
  rewrite Hinitial, Hu.
  change (String (PyStr.ascii_upper c) EmptyString ++ PyStr.concat (List.map initial ws))
    with (String (PyStr.ascii_upper c) (PyStr.concat (List.map initial ws))).
  cbn [String.length all_chars List.length].
  rewrite IHlen, IHchars, Hchar. split; reflexivity.
Qed.

(** The identifiers of a requirement and of a component built for the same
    description share their middle part, which is empty for a blank
    description. For a description in ASCII the middle part has one
    character per word among the first two words, so at most two, none of
    them a blank or a lower-case letter. *)
Theorem identifier_shape (d : string) :
  exists middle,
    _generate_requirement_id (VStr d) = Ok ("REQ-" ++ middle ++ "-001")
    /\ _generate_component_id (VStr d) = Ok ("LC-" ++ middle ++ "-001")
    /\ (PyStr.split_ws d = [] -> middle = EmptyString)
    /\ (is_ascii d = true ->
        String.length middle = Nat.min 2 (List.length (PyStr.split_ws d))
        /\ all_chars initial_char middle = true).
Proof.
  exists (initials d). split; [reflexivity|]. split; [reflexivity|].
  unfold initials. split; [intros ->; reflexivity|]. intros Hascii.
  assert (Hwords : Forall (fun word => word <> EmptyString
                    /\ is_ascii word = true
                    /\ all_chars (fun c => negb (blank_byte c)) word = true)
                     (List.firstn 2 (PyStr.split_ws d))).
  { apply List.Forall_forall. intros word Hin. apply firstn_subset in Hin.
    pose proof (words_from_are_words d EmptyString Hascii eq_refl eq_refl) as Hall.
    rewrite List.Forall_forall in Hall. apply Hall.
    unfold PyStr.split_ws in Hin. rewrite (chars_ascii d Hascii) in Hin. exact Hin. }
  destruct (initials_of_words _ Hwords) as [Hlen Hchars].
  rewrite Hlen, List.length_firstn. split; [reflexivity|exact Hchars].
Qed.

Lemma identifier_shape_witness :
  exists middle,
    _generate_requirement_id (VStr "brake pressure must not exceed limit")
    = Ok ("REQ-" ++ middle ++ "-001")
    /\ _generate_component_id (VStr "brake pressure must not exceed limit")
       = Ok ("LC-" ++ middle ++ "-001")
    /\ String.length middle = 2%nat
    /\ all_chars initial_char middle = true.
Proof.
  destruct (identifier_shape "brake pressure must not exceed limit")
    as (middle & Hreq & Hcomp & _ & Hascii).
  exists middle. split; [exact Hreq|]. split; [exact Hcomp|].
  apply Hascii. reflexivity.
Defined.

(** Outside ASCII the upper case of a first character can be several
    characters: the German sharp s gives two. *)
Lemma initials_beyond_ascii :
  _generate_requirement_id (VStr "ßeta x") = Ok "REQ-SSX-001".
Proof. vm_compute. reflexivity. Qed.

End Identifiers.

(** ** Routing by prefix *)

Section Routing.

Import ArcLangMCPServer.

Lemma external_calls_app (a b : list Event) :
  external_calls (a ++ b)%list = (external_calls a ++ external_calls b)%list.
Proof. unfold external_calls. apply List.filter_app. Qed.

(** The dispatcher makes no outside call of its own: the subprocess and
    backend calls of a tool call are exactly those of the tool group it is
    routed to, whether the group returns or raises; it logs one line when,
    and only when, the group raises. *)
Theorem dispatcher_adds_no_outside_call (g : ToolGroups) (name : string)
    (args : gmap string pyval) :
  external_calls (trace (dispatch g name args))
  = external_calls (trace (route g name args))
  /\ match outcome (route g name args) with
     | Ok _ => trace (dispatch g name args) = trace (route g name args)
     | Raise e =>
         trace (dispatch g name args)
         = (trace (route g name args)
            ++ [LogError ("Error executing tool " ++ name ++ ": " ++ str_exn e)])%list
     end.
Proof.
  rewrite dispatch_of_route.
  destruct (route g name args) as [tr [result|e]]; cbn [trace outcome fst snd].
  - split; reflexivity.
  - split; [|reflexivity]. rewrite external_calls_app. cbn. apply app_nil_r.
Qed.

Lemma prefix_split (p s : string) :
  String.prefix p s = true -> exists rest, s = p ++ rest.
Proof.
  revert s. induction p as [|c p IH]; intros s H.
  - exists s. reflexivity.
  - destruct s as [|c' s]; [discriminate H|]. cbn [String.prefix] in H.
    destruct (ascii_dec c c') as [<-|_]; [|discriminate H].
    destruct (IH s H) as [rest ->]. exists rest. reflexivity.
Qed.

Lemma refused_by_route (g : ToolGroups) (name : string) (args : gmap string pyval)
    (e : exn) :
  route g name args = ([], Raise e) -> dispatch g name args = refused name e.
Proof. intros H. rewrite dispatch_of_route, H. reflexivity. Qed.

Ltac differs :=
  match goal with
  | H : (_ ++ _)%string = _ |- _ => cbv [String.append] in H; discriminate H
  end.

Ltac decide_name other :=
  match goal with
  | |- context [String.eqb ?n other] =>
      destruct (String.eqb_spec n other) as [Heq|_]; [first [contradiction|differs]|]
  end.

(** A name that only begins like a tool is not served: it is routed to a
    tool group by its prefix, the group does not know it, and the call is
    answered with the group's error, without any outside call. *)
Theorem names_routed_by_prefix_only (w : World) (self : t) (name : string)
    (args : gmap string pyval) :
  (String.prefix "arclang_compile" name = true ->
   name <> "arclang_compile" ->
   call_tool w self name args = refused name (ValueError ("Unknown core tool: " ++ name)))
  /\ (String.prefix "arclang_generate" name = true ->
      name <> "arclang_generate_requirement" ->
      name <> "arclang_generate_component" ->
      call_tool w self name args
      = refused name (ValueError ("Unknown generation tool: " ++ name)))
  /\ (String.prefix "arclang_safety" name = true ->
      name <> "arclang_safety_check" ->
      call_tool w self name args
      = refused name (ValueError ("Unknown safety tool: " ++ name)))
  /\ (String.prefix "arclang_git" name = true ->
      name <> "arclang_git_merge" ->
      call_tool w self name args
      = refused name (ValueError ("Unknown integration tool: " ++ name))).
Proof.
  unfold call_tool. repeat split.
  - intros Hp Hne. apply refused_by_route. unfold route. rewrite Hp. cbn [orb groups core_execute].
    apply prefix_split in Hp as [rest ->]. unfold CoreTools.execute.
    decide_name "arclang_compile". decide_name "arclang_validate".
    decide_name "arclang_trace_analysis". decide_name "arclang_export_diagram".
    decide_name "arclang_info". reflexivity.
  - intros Hp Hne1 Hne2. apply refused_by_route.
    apply prefix_split in Hp as [rest ->]. unfold route.
    change (String.prefix "arclang_compile" ("arclang_generate" ++ rest)) with false.
    change (name_in ("arclang_generate" ++ rest) core_names) with false.
    rewrite (prefix_append "arclang_generate" rest).
    cbn [orb groups generation_execute]. unfold GenerationTools.execute.
    decide_name "arclang_generate_requirement". decide_name "arclang_generate_component".
    decide_name "arclang_suggest_architecture". reflexivity.
  - intros Hp Hne. apply refused_by_route.
    apply prefix_split in Hp as [rest ->]. unfold route.
    change (String.prefix "arclang_compile" ("arclang_safety" ++ rest)) with false.
    change (name_in ("arclang_safety" ++ rest) core_names) with false.
    change (String.prefix "arclang_generate" ("arclang_safety" ++ rest)) with false.
    change (String.eqb ("arclang_safety" ++ rest) "arclang_suggest_architecture") with false.
    rewrite (prefix_append "arclang_safety" rest).
    cbn [orb groups safety_execute]. unfold SafetyTools.execute.
    decide_name "arclang_safety_check". decide_name "arclang_hazard_analysis". reflexivity.
  - intros Hp Hne. apply refused_by_route.
    apply prefix_split in Hp as [rest ->]. unfold route.
    change (String.prefix "arclang_compile" ("arclang_git" ++ rest)) with false.
    change (name_in ("arclang_git" ++ rest) core_names) with false.
    change (String.prefix "arclang_generate" ("arclang_git" ++ rest)) with false.
    change (String.eqb ("arclang_git" ++ rest) "arclang_suggest_architecture") with false.
    change (String.prefix "arclang_safety" ("arclang_git" ++ rest)) with false.
    change (String.eqb ("arclang_git" ++ rest) "arclang_hazard_analysis") with false.
    rewrite (prefix_append "arclang_git" rest).
    cbn [orb groups integration_execute]. unfold IntegrationTools.execute.
    decide_name "arclang_git_merge". decide_name "arclang_plm_sync". reflexivity.
Qed.

Lemma names_routed_by_prefix_only_witness :
  call_tool offline (Sample.server offline VNone) "arclang_compile_all" ∅
  = refused "arclang_compile_all" (ValueError "Unknown core tool: arclang_compile_all").
Proof.
  apply (proj1 (names_routed_by_prefix_only offline (Sample.server offline VNone)
                  "arclang_compile_all" ∅)).
  - reflexivity.
  - discriminate.
Defined.

End Routing.

(** ** The reports of the tools *)

Section Reports.

Import ArcLangCompiler ArcLangMCPServer.

(** Whatever the trace process prints, the report of [arclang_trace_analysis]
    never lists an untraced element: between the totals and the verdict it
    shows nothing when [show_gaps] is falsy, and otherwise the one line
    "Gaps Found (2)", the 2 counting the two keys of the gap dictionary,
    both of which are always empty. *)
Theorem trace_report_never_lists_a_gap (w : World) (self : CoreTools.t)
    (args : gmap string pyval) (p : pyval) (model_path : Path) (pr : ProcessResult) :
  args !! "model_path" = Some p ->
  CoreTools._resolve_path w self p = Ok model_path ->
  outcome (_run_command w (CoreTools.compiler self)
             (trace_cmd (CoreTools.compiler self) model_path
                (arg_get args "show_gaps" (VBool true))
                (arg_get args "matrix" (VBool false)))) = Ok pr ->
  outcome (CoreTools._trace_analysis w self args)
  = Ok (trace_report_head (path_name w model_path)
        ++ "**Coverage**: " ++ PyStr.of_Z (_parse_coverage (stdout pr)) ++ "%" ++ PyStr.nl
        ++ "**Total Traces**: " ++ PyStr.of_Z (_count_traces (stdout pr))
        ++ PyStr.nl ++ PyStr.nl
        ++ gaps_section (arg_get args "show_gaps" (VBool true))
        ++ coverage_verdict (_parse_coverage (stdout pr))).
Proof.
  intros Hp Hpath Hrun. unfold CoreTools._trace_analysis, arg. rewrite Hp.
  cbn [lift bind]. rewrite Hpath. cbn [bind app]. unfold trace_analysis.
  destruct (_run_command w _ _) as [tr [pr'|e]]; [|discriminate Hrun].
  cbn [outcome snd] in Hrun. injection Hrun as ->.
  unfold gaps_section, coverage_verdict, trace_report_head.
  cbn [bind ret coverage total_traces gaps].
  destruct (Py.truthy (arg_get args "show_gaps" (VBool true))).
  - change (CoreTools.gap_list "untraced_requirements" (_parse_gaps (stdout pr)))
      with (@nil pyval).
    change (CoreTools.gap_list "untraced_components" (_parse_gaps (stdout pr)))
      with (@nil pyval).
    change (len_str (_parse_gaps (stdout pr))) with "2".
    cbn [andb _parse_gaps CoreTools.untraced_block lift bind ret outcome snd app].
    rewrite !append_assoc_s. reflexivity.
  - cbn [andb lift bind ret outcome snd app].
    rewrite !append_assoc_s. reflexivity.
Qed.

Lemma trace_report_never_lists_a_gap_witness :
  outcome (CoreTools._trace_analysis partial_world (core_of partial_world) brake_model)
  = Ok (trace_report_head "brake.arc"
        ++ "**Coverage**: 85%" ++ PyStr.nl
        ++ "**Total Traces**: 40" ++ PyStr.nl ++ PyStr.nl
        ++ gaps_section (VBool true)
        ++ coverage_verdict 85).
Proof.
  apply (trace_report_never_lists_a_gap partial_world (core_of partial_world) brake_model
           (VStr "brake.arc") "/ws/brake.arc"
           {| returncode := 0;
              stdout := "Coverage: 85%" ++ PyStr.nl ++ "Traces: 40";
              stderr := EmptyString |}).
  - reflexivity.
  - reflexivity.
  - reflexivity.
Defined.

(** [arclang_git_merge] compares nothing: once its three paths are given, it
    starts no process, reads no file, and always answers that 0 conflicts
    were detected, without listing any. *)
Theorem git_merge_is_a_constant (w : World) (self : t) (args : gmap string pyval)
    (a b c : pyval) (base ours theirs : Path) :
  args !! "base_path" = Some a -> path_of w a = Ok base ->
  args !! "ours_path" = Some b -> path_of w b = Ok ours ->
  args !! "theirs_path" = Some c -> path_of w c = Ok theirs ->
  call_tool w self "arclang_git_merge" args = ([], Ok (payload merge_report)).
Proof.
  intros Ha Hbase Hb Hours Hc Htheirs. unfold call_tool. rewrite dispatch_of_route.
  change (route (groups w self) "arclang_git_merge" args)
    with (IntegrationTools._git_merge w (integration_tools self) args).
  unfold IntegrationTools._git_merge, arg. rewrite Ha, Hb, Hc.
  cbn [lift bind]. rewrite Hbase. cbn [bind app]. rewrite Hours. cbn [bind app].
  rewrite Htheirs. reflexivity.
Qed.

Lemma git_merge_is_a_constant_witness :
  call_tool offline (Sample.server offline VNone) "arclang_git_merge" three_versions
  = ([], Ok (payload merge_report)).
Proof.
  apply (git_merge_is_a_constant offline (Sample.server offline VNone) three_versions
           (VStr "base.arc") (VStr "ours.arc") (VStr "theirs.arc")
           "base.arc" "ours.arc" "theirs.arc"); reflexivity.
Defined.

(** [arclang_plm_sync] is served although [list_tools] does not declare it:
    the dispatcher routes it by its prefix, and the call makes one
    subprocess call, for the [plm] subcommand, with the operation [pull]
    unless another is given. *)
Theorem plm_sync_is_served_undeclared (w : World) (self : t) (args : gmap string pyval)
    (p system : pyval) (model_path : Path) :
  args !! "model_path" = Some p -> path_of w p = Ok model_path ->
  args !! "system" = Some system ->
  external_calls (trace (call_tool w self "arclang_plm_sync" args))
  = [Exec [binary_path (IntegrationTools.compiler (integration_tools self));
           VStr "plm"; arg_get args "operation" (VStr "pull"); VStr model_path;
           VStr "--system"; system]]
  /\ ~ In "arclang_plm_sync" (List.map Catalogue.name Catalogue.list_tools)
  /\ ~ In "arclang_plm_sync" (List.map fst catalogue).
Proof.
  intros Hp Hpath Hsys. split; [|split].
  - unfold call_tool. rewrite dispatch_of_route.
    change (route (groups w self) "arclang_plm_sync" args)
      with (IntegrationTools._plm_sync w (integration_tools self) args).
    unfold IntegrationTools._plm_sync, arg. rewrite Hp, Hsys.
    cbn [lift bind]. rewrite Hpath. cbn [bind app]. unfold plm_sync.
    destruct (run_command_total w (IntegrationTools.compiler (integration_tools self))
                [binary_path (IntegrationTools.compiler (integration_tools self));
                 VStr "plm"; arg_get args "operation" (VStr "pull"); VStr model_path;
                 VStr "--system"; system]) as [pr ->].
    cbn [bind ret plm_success app].
    destruct (returncode pr =? 0); destruct system; reflexivity.
  - vm_compute. intuition discriminate.
  - vm_compute. intuition discriminate.
Qed.

Lemma plm_sync_is_served_undeclared_witness :
  external_calls
    (trace (call_tool offline (Sample.server offline VNone) "arclang_plm_sync" windchill))
  = [Exec [VStr "arclang"; VStr "plm"; VStr "pull"; VStr "brake.arc";
           VStr "--system"; VStr "windchill"]].
Proof.
  apply (plm_sync_is_served_undeclared offline (Sample.server offline VNone) windchill
           (VStr "brake.arc") (VStr "windchill") "brake.arc"); reflexivity.
Defined.

(** A [standard] that is not a string is not rejected before the safety
    check runs: the call that starts the process is made with it, and only
    then does the report fail, on [standard.upper()]; the caller gets the
    error text. *)
Theorem ill_typed_standard_is_detected_late (w : World) (self : t)
    (args : gmap string pyval) (p standard : pyval) (model_path : Path) :
  args !! "model_path" = Some p -> path_of w p = Ok model_path ->
  args !! "standard" = Some standard ->
  (forall s, standard <> VStr s) ->
  external_calls (trace (call_tool w self "arclang_safety_check" args))
  = [Exec ([binary_path (SafetyTools.compiler (safety_tools self)); VStr "safety";
            VStr model_path; VStr "--standard"; standard]
           ++ flag_if (arg_get args "generate_report" (VBool false)) "--report")%list]
  /\ outcome (call_tool w self "arclang_safety_check" args)
     = Ok (error_payload (no_attribute_upper standard)).
Proof.
  intros Hp Hpath Hstd Hns. unfold call_tool. rewrite dispatch_of_route.
  change (route (groups w self) "arclang_safety_check" args)
    with (SafetyTools._safety_check w (safety_tools self) args).
  unfold SafetyTools._safety_check, arg. rewrite Hp, Hstd.
  cbn [lift bind]. rewrite Hpath. cbn [bind app]. unfold safety_check.
  destruct (run_command_total w (SafetyTools.compiler (safety_tools self))
              ([binary_path (SafetyTools.compiler (safety_tools self)); VStr "safety";
                VStr model_path; VStr "--standard"; standard]
               ++ flag_if (arg_get args "generate_report" (VBool false)) "--report")%list)
    as [pr ->].
  cbn [bind ret app].
  destruct standard; try (exfalso; eapply Hns; reflexivity); split; reflexivity.
Qed.

Lemma ill_typed_standard_is_detected_late_witness :
  external_calls
    (trace (call_tool offline (Sample.server offline VNone) "arclang_safety_check"
              numbered_standard))
  = [Exec [VStr "arclang"; VStr "safety"; VStr "brake.arc"; VStr "--standard"; VInt 26262]]
  /\ outcome (call_tool offline (Sample.server offline VNone) "arclang_safety_check"
                numbered_standard)
     = Ok (payload "Error: 'int' object has no attribute 'upper'").
Proof.
  apply (ill_typed_standard_is_detected_late offline (Sample.server offline VNone)
           numbered_standard (VStr "brake.arc") (VInt 26262) "brake.arc").
  - reflexivity.
  - reflexivity.
  - reflexivity.
  - intros s. discriminate.
Defined.

(** Without an output path, [export_diagram] asks [pathlib] for the model
    path with the suffix [.html], whatever format is asked for. When
    [pathlib] refuses (a path without a name), the exception leaves
    [export_diagram] before any process is started. Otherwise one process
    is started, with that path after [-o], and the result carries the
    output path exactly when the process ended with status 0, and its
    error output exactly when it did not. *)
Theorem export_default_output_is_html (w : World) (self : ArcLangCompiler.t)
    (model_path : Path) (format_type out : pyval) :
  Py.truthy out = false ->
  (forall e, with_suffix w model_path ".html" = Raise e ->
             export_diagram w self model_path format_type out = ([], Raise e))
  /\ (forall html pr,
        with_suffix w model_path ".html" = Ok html ->
        outcome (_run_command w self
                   [binary_path self; VStr "export"; VStr model_path;
                    VStr "-o"; VStr html; VStr "-f"; format_type]) = Ok pr ->
        export_diagram w self model_path format_type out
        = ([Exec [binary_path self; VStr "export"; VStr model_path;
                  VStr "-o"; VStr html; VStr "-f"; format_type]],
           Ok (if returncode pr =? 0
               then {| export_success := true; output_path := VStr html; error := VNone |}
               else {| export_success := false; output_path := VNone;
                       error := VStr (stderr pr) |}))).
Proof.
  intros Hout. unfold export_diagram. rewrite Hout. cbn [negb]. split.
  - intros e Hraise. rewrite Hraise. reflexivity.
  - intros html pr Hhtml Hrun. rewrite Hhtml. cbn [lift bind ret app].
    destruct (run_command_total w self
                [binary_path self; VStr "export"; VStr model_path;
                 VStr "-o"; VStr html; VStr "-f"; format_type]) as [pr' Hpr].
    rewrite Hpr in Hrun |- *. cbn [outcome snd] in Hrun. injection Hrun as ->.
    cbn [bind ret app]. destruct (returncode pr =? 0); reflexivity.
Qed.

Lemma export_default_output_is_html_witness :
  export_diagram offline sample_compiler "/ws/brake.arc" (VStr "pdf") VNone
  = ([Exec [VStr "arclang"; VStr "export"; VStr "/ws/brake.arc";
            VStr "-o"; VStr "/ws/brake.html"; VStr "-f"; VStr "pdf"]],
     Ok {| export_success := true; output_path := VStr "/ws/brake.html"; error := VNone |})
  /\ export_diagram offline sample_compiler "/" (VStr "pdf") VNone
     = ([], Raise (ValueError "PosixPath('/') has an empty name")).
Proof.
  split.
  - apply (proj2 (export_default_output_is_html offline sample_compiler "/ws/brake.arc"
                    (VStr "pdf") VNone eq_refl)
             "/ws/brake.html"
             {| returncode := 0; stdout := EmptyString; stderr := EmptyString |});
      reflexivity.
  - apply (proj1 (export_default_output_is_html offline sample_compiler "/"
                    (VStr "pdf") VNone eq_refl)).
    reflexivity.
Defined.

(** When the validation process does not end with status 0, the result is
    invalid and its errors are exactly the lines of the error output that
    are not blank, in order; what the process printed on its standard
    output is not among them. *)
Theorem validate_failure_lists_error_output (w : World) (self : ArcLangCompiler.t)
    (model_path : Path) (strict : pyval) (pr : ProcessResult) :
  outcome (_run_command w self
             ([binary_path self; VStr "check"; VStr model_path; VStr "--lint"]
              ++ flag_if strict "--strict")%list) = Ok pr ->
  returncode pr <> 0 ->
  exists r,
    outcome (validate w self model_path strict) = Ok r
    /\ valid r = false
    /\ validate_errors r = List.filter nonblank (PyStr.split "010" (stderr pr)).
Proof.
  intros Hrun Hrc. unfold validate.
  destruct (_run_command w self _) as [tr [pr'|e]]; [|discriminate Hrun].
  cbn [outcome snd] in Hrun. injection Hrun as ->. apply Z.eqb_neq in Hrc.
  eexists. cbn [bind ret outcome snd]. split; [reflexivity|]. cbn [valid validate_errors].
  split; [exact Hrc|]. unfold _parse_errors. apply List.filter_ext. intros line.
  destruct (nonblank line) eqn:Hb; [apply orb_true_r|].
  rewrite orb_false_r. unfold nonblank in Hb.
  destruct (PyStr.strip line) eqn:Hs; [|discriminate Hb].
  apply no_error_in_blank, blank_all_hollow, Hs.
Qed.

Lemma validate_failure_lists_error_output_witness :
  exists r,
    outcome (validate (Sample.world (complains ("error: no such model" ++ PyStr.nl))
                         Sample.unreachable)
               sample_compiler "/ws/brake.arc" (VBool false)) = Ok r
    /\ valid r = false
    /\ validate_errors r
       = List.filter nonblank (PyStr.split "010" ("error: no such model" ++ PyStr.nl)).
Proof.
  apply (validate_failure_lists_error_output
           (Sample.world (complains ("error: no such model" ++ PyStr.nl)) Sample.unreachable)
           sample_compiler "/ws/brake.arc" (VBool false)
           {| returncode := 1; stdout := EmptyString;
              stderr := "error: no such model" ++ PyStr.nl |}).
  - reflexivity.
  - discriminate.
Defined.

End Reports.

(** ** Configuration *)

Section Configuration.

Import Config.

Lemma assoc_dict_set_eq (k : string) (v : pyval) (items : list (string * pyval)) :
  Py.assoc k (dict_set k v items) = Some v.
Proof.
  induction items as [|[k' x] rest IH]; cbn [dict_set Py.assoc].
  - rewrite String.eqb_refl. reflexivity.
  - destruct (String.eqb k k') eqn:E; cbn [Py.assoc]; rewrite E; [reflexivity|exact IH].
Qed.

Lemma assoc_dict_set_ne (k k' : string) (v : pyval) (items : list (string * pyval)) :
  k <> k' -> Py.assoc k (dict_set k' v items) = Py.assoc k items.
Proof.
  intros Hne. induction items as [|[k'' x] rest IH]; cbn [dict_set Py.assoc].
  - destruct (String.eqb_spec k k'); [contradiction|reflexivity].
  - destruct (String.eqb_spec k' k'') as [<-|Hne']; cbn [Py.assoc].
    + destruct (String.eqb_spec k k'); [contradiction|reflexivity].
    + rewrite IH. reflexivity.
Qed.

Lemma assoc_absent (k : string) (items : list (string * pyval)) :
  ~ In k (List.map fst items) -> Py.assoc k items = None.
Proof.
  induction items as [|[k' x] rest IH]; [reflexivity|]. cbn [List.map fst In Py.assoc].
  intros H. destruct (String.eqb_spec k k') as [->|_]; [exfalso; apply H; left; reflexivity|].
  apply IH. intros Hin. apply H. right. exact Hin.
Qed.

Lemma deep_merge_step (base : list (string * pyval)) (key : string) (value : pyval)
    (rest : list (string * pyval)) :
  _deep_merge base ((key, value) :: rest)
  = _deep_merge
      match Py.assoc key base, value with
      | Some (VDict sub), VDict over => dict_set key (VDict (_deep_merge sub over)) base
      | _, _ => dict_set key value base
      end rest.
Proof.
  unfold _deep_merge. cbn [merge_into].
  destruct (Py.assoc key base) as [[]|]; destruct value; reflexivity.
Qed.

Lemma merged_step (base : list (string * pyval)) (key k : string) (value : pyval) :
  Py.assoc k
    match Py.assoc key base, value with
    | Some (VDict sub), VDict over => dict_set key (VDict (_deep_merge sub over)) base
    | _, _ => dict_set key value base
    end
  = if String.eqb k key then merged_entry (Py.assoc key base) (Some value)
    else Py.assoc k base.
Proof.
  destruct (String.eqb_spec k key) as [->|Hne].
  - unfold merged_entry.
    destruct (Py.assoc key base) as [[]|]; destruct value; apply assoc_dict_set_eq.
  - destruct (Py.assoc key base) as [[]|]; destruct value; apply assoc_dict_set_ne, Hne.
Qed.

Lemma deep_merge_entry (override base : list (string * pyval)) (k : string) :
  List.NoDup (List.map fst override) ->
  Py.assoc k (_deep_merge base override)
  = merged_entry (Py.assoc k base) (Py.assoc k override).
Proof.
  revert base. induction override as [|[key value] rest IH]; intros base Hnd.
  - reflexivity.
  - rewrite deep_merge_step. cbn [List.map fst] in Hnd.
    apply List.NoDup_cons_iff in Hnd as [Hnotin Hnd].
    rewrite (IH _ Hnd), merged_step. cbn [Py.assoc].
    destruct (String.eqb_spec k key) as [->|Hne].
    + rewrite (assoc_absent key rest Hnotin). reflexivity.
    + reflexivity.
Qed.

(** What [_deep_merge] leaves under each key: the base's entry when the
    override has none; the merge of the two when both are dictionaries; the
    override's entry otherwise, be it a dictionary over a plain value or a
    plain value over a dictionary. *)
Theorem deep_merge_lookup (base override : list (string * pyval)) (k : string) :
  List.NoDup (List.map fst override) ->
  Py.assoc k (_deep_merge base override)
  = merged_entry (Py.assoc k base) (Py.assoc k override).
Proof. intros Hnd. apply deep_merge_entry, Hnd. Qed.

Lemma deep_merge_lookup_witness :
  Py.assoc "compiler"
    (_deep_merge (defaults offline "/ws")
       [("compiler", VDict [("timeout", VInt 60)]); ("plm", VStr "off")])
  = merged_entry (Some (VDict [("path", VStr "arclang"); ("timeout", VInt 30)]))
                 (Some (VDict [("timeout", VInt 60)])).
Proof.
  apply (deep_merge_lookup (defaults offline "/ws")
           [("compiler", VDict [("timeout", VInt 60)]); ("plm", VStr "off")] "compiler").
  repeat constructor; cbn; intuition discriminate.
Defined.

Lemma dict_set_keys (k : string) (v : pyval) (items : list (string * pyval)) :
  List.map fst (dict_set k v items)
  = (List.map fst items ++ match Py.assoc k items with Some _ => [] | None => [k] end)%list.
Proof.
  induction items as [|[k' x] rest IH]; cbn [dict_set Py.assoc List.map fst app].
  - reflexivity.
  - destruct (String.eqb k k'); cbn [List.map fst].
    + rewrite app_nil_r. reflexivity.
    + rewrite IH. reflexivity.
Qed.

(** [_deep_merge] never drops nor moves a key of the base: the keys of the
    result are those of the base, in their order, followed by keys that
    only the override has. *)
Theorem deep_merge_keeps_base_keys (override base : list (string * pyval)) :
  exists added,
    List.map fst (_deep_merge base override) = (List.map fst base ++ added)%list
    /\ forall k, In k added -> In k (List.map fst override).
Proof.
  revert base. induction override as [|[key value] rest IH]; intros base.
  - exists []. split; [symmetry; apply app_nil_r|intros k []].
  - rewrite deep_merge_step.
    destruct (IH match Py.assoc key base, value with
                 | Some (VDict sub), VDict over =>
                     dict_set key (VDict (_deep_merge sub over)) base
                 | _, _ => dict_set key value base
                 end) as [added [Hkeys Hadded]].
    exists (match Py.assoc key base with Some _ => [] | None => [key] end ++ added)%list.
    split.
    + rewrite Hkeys, app_assoc. f_equal.
      destruct (Py.assoc key base) as [[]|] eqn:E; destruct value;
        rewrite dict_set_keys, E; reflexivity.
    + intros k Hin. cbn [List.map fst In]. apply in_app_or in Hin as [Hin|Hin].
      * destruct (Py.assoc key base); [destruct Hin|].
        destruct Hin as [<-|[]]. left. reflexivity.
      * right. apply Hadded, Hin.
Qed.

(** A configuration file that cannot be loaded changes nothing but the
    warning printed: the configuration returned is the one an empty file
    gives. *)
Theorem unreadable_config_file_acts_as_empty (w : World)
    (toml_load : Path -> Result (list (string * pyval))) (workspace_root : Path) (e : exn) :
  path_exists w (config_file w workspace_root) = true ->
  toml_load (config_file w workspace_root) = Raise e ->
  load_config w toml_load workspace_root
  = (["Warning: Failed to load config file: " ++ str_exn e],
     snd (load_config w empty_file workspace_root))
  /\ fst (load_config w empty_file workspace_root) = [].
Proof.
  intros Hex Hload. unfold load_config, config_file in *. rewrite Hex, Hload.
  split; reflexivity.
Qed.

Lemma unreadable_config_file_acts_as_empty_witness :
  load_config (configured "ARCLANG_BINARY" "/usr/bin/arclang") broken_file "/ws"
  = (["Warning: Failed to load config file: Invalid statement (at line 1, column 1)"],
     snd (load_config (configured "ARCLANG_BINARY" "/usr/bin/arclang") empty_file "/ws"))
  /\ fst (load_config (configured "ARCLANG_BINARY" "/usr/bin/arclang") empty_file "/ws") = [].
Proof.
  apply (unreadable_config_file_acts_as_empty
           (configured "ARCLANG_BINARY" "/usr/bin/arclang") broken_file "/ws"
           (ValueError "Invalid statement (at line 1, column 1)")); reflexivity.
Defined.

Lemma override_sets (w : World) (name section k value : string)
    (config config' : list (string * pyval)) :
  getenv w name = Some value ->
  override_from_env w name section k config = Ok config' ->
  setting config' section k = Ok (VStr value)
  /\ forall other, other <> section -> Py.assoc other config' = Py.assoc other config.
Proof.
  intros Henv H. unfold override_from_env in H. rewrite Henv in H.
  cbn [Py.getitem] in H. destruct (Py.assoc section config) as [table|]; [|discriminate H].
  cbn [rbind] in H. destruct table; try discriminate H.
  cbn [setitem rbind] in H. injection H as <-. split.
  - unfold setting. cbn [Py.getitem]. rewrite assoc_dict_set_eq. cbn [rbind Py.getitem].
    rewrite assoc_dict_set_eq. reflexivity.
  - intros other Hne. apply assoc_dict_set_ne, Hne.
Qed.

Lemma override_keeps (w : World) (name section k : string)
    (config config' : list (string * pyval)) (other : string) :
  other <> section ->
  override_from_env w name section k config = Ok config' ->
  Py.assoc other config' = Py.assoc other config.
Proof.
  intros Hne H. destruct (getenv w name) as [value|] eqn:Henv.
  - exact (proj2 (override_sets w name section k value config config' Henv H) other Hne).
  - unfold override_from_env in H. rewrite Henv in H. injection H as <-. reflexivity.
Qed.

(** The environment wins over the configuration file: when [load_config]
    returns, the compiler path is the value of [ARCLANG_BINARY] and the API
    key the value of [ANTHROPIC_API_KEY], for each variable that is set,
    whatever the file holds. *)
Theorem environment_overrides_config_file (w : World)
    (toml_load : Path -> Result (list (string * pyval))) (workspace_root : Path)
    (config : list (string * pyval)) :
  snd (load_config w toml_load workspace_root) = Ok config ->
  (forall binary, getenv w "ARCLANG_BINARY" = Some binary ->
                  setting config "compiler" "path" = Ok (VStr binary))
  /\ (forall key, getenv w "ANTHROPIC_API_KEY" = Some key ->
                  setting config "ai" "api_key" = Ok (VStr key)).
Proof.
  unfold load_config.
  destruct (if path_exists w _ then _ else _) as [printed merged].
  cbn [snd]. intros H.
  destruct (override_from_env w "ARCLANG_BINARY" "compiler" "path" merged)
    as [config1|e] eqn:H1; [|discriminate H].
  cbn [rbind] in H. split.
  - intros binary Henv.
    destruct (override_sets w _ _ _ binary merged config1 Henv H1) as [Hset _].
    unfold setting in *. cbn [Py.getitem] in *.
    assert (Hne : "compiler" <> "ai") by discriminate.
    rewrite (override_keeps w "ANTHROPIC_API_KEY" "ai" "api_key" config1 config
               "compiler" Hne H).
    exact Hset.
  - intros key Henv.
    exact (proj1 (override_sets w _ _ _ key config1 config Henv H)).
Qed.

Lemma environment_overrides_config_file_witness :
  (forall binary,
     getenv (configured "ARCLANG_BINARY" "/usr/bin/arclang") "ARCLANG_BINARY" = Some binary ->
     setting (dict_set "compiler"
                (VDict [("path", VStr "/usr/bin/arclang"); ("timeout", VInt 60)])
                (defaults (configured "ARCLANG_BINARY" "/usr/bin/arclang") "/ws"))
       "compiler" "path" = Ok (VStr binary))
  /\ (forall key,
        getenv (configured "ARCLANG_BINARY" "/usr/bin/arclang") "ANTHROPIC_API_KEY" = Some key ->
        setting (dict_set "compiler"
                   (VDict [("path", VStr "/usr/bin/arclang"); ("timeout", VInt 60)])
                   (defaults (configured "ARCLANG_BINARY" "/usr/bin/arclang") "/ws"))
          "ai" "api_key" = Ok (VStr key)).
Proof.
  apply (environment_overrides_config_file
           (configured "ARCLANG_BINARY" "/usr/bin/arclang") user_file "/ws").
  reflexivity.
Defined.

(** [load_config] raises when [ARCLANG_BINARY] is set and the configuration
    file gives [compiler] a value that is not a table: the merge replaces
    the default table by that value, and the assignment of the path then
    fails with a [TypeError]. *)
Theorem flat_compiler_entry_breaks_loading (w : World)
    (toml_load : Path -> Result (list (string * pyval))) (workspace_root : Path)
    (user_config : list (string * pyval)) (value : pyval) (binary : string) :
  path_exists w (config_file w workspace_root) = true ->
  toml_load (config_file w workspace_root) = Ok user_config ->
  List.NoDup (List.map fst user_config) ->
  Py.assoc "compiler" user_config = Some value ->
  is_dict value = false ->
  getenv w "ARCLANG_BINARY" = Some binary ->
  exists msg, load_config w toml_load workspace_root = ([], Raise (TypeError msg)).
Proof.
  intros Hex Hload Hnd Hvalue Hflat Henv. unfold load_config, config_file in *.
  rewrite Hex, Hload. unfold override_from_env at 1. rewrite Henv.
  cbn [Py.getitem]. rewrite (deep_merge_entry user_config _ "compiler" Hnd), Hvalue.
  destruct value; try discriminate Hflat; cbn; eauto.
Qed.

Lemma flat_compiler_entry_breaks_loading_witness :
  exists msg,
    load_config (configured "ARCLANG_BINARY" "/usr/bin/arclang") flat_file "/ws"
    = ([], Raise (TypeError msg)).
Proof.
  apply (flat_compiler_entry_breaks_loading
           (configured "ARCLANG_BINARY" "/usr/bin/arclang") flat_file "/ws"
           [("compiler", VStr "/opt/arclang")] (VStr "/opt/arclang") "/usr/bin/arclang").
  - reflexivity.
  - reflexivity.
  - repeat constructor. cbn. intuition.
  - reflexivity.
  - reflexivity.
  - reflexivity.
Defined.

End Configuration.

(** ** The declared tools *)

Section DeclaredTools.

Import Catalogue ArcLangMCPServer.

Lemma arg_add_default_ne (k k' : string) (d : pyval) (args : gmap string pyval) :
  k <> k' -> arg (add_default k d args) k' = arg args k'.
Proof.
  intros Hne. unfold arg, add_default. destruct (args !! k); [reflexivity|].
  rewrite lookup_insert_ne by exact Hne. reflexivity.
Qed.

Lemma arg_get_add_default_ne (k k' : string) (d d' : pyval) (args : gmap string pyval) :
  k <> k' -> arg_get (add_default k d args) k' d' = arg_get args k' d'.
Proof.
  intros Hne. unfold arg_get, add_default. destruct (args !! k); [reflexivity|].
  rewrite lookup_insert_ne by exact Hne. reflexivity.
Qed.

Lemma arg_get_add_default_eq (k : string) (d : pyval) (args : gmap string pyval) :
  arg_get (add_default k d args) k d = arg_get args k d.
Proof.
  unfold arg_get, add_default. destruct (args !! k) eqn:E.
  - rewrite E. reflexivity.
  - rewrite lookup_insert_eq. reflexivity.
Qed.

Ltac route_to f :=
  match goal with
  | |- context [route ?g ?n ?a] => change (route g n a) with (f a)
  end.

Ltac defaults_agree :=
  repeat first [ rewrite arg_get_add_default_eq
               | rewrite arg_add_default_ne by discriminate
               | rewrite arg_get_add_default_ne by discriminate ];
  reflexivity.

Ltac declared :=
  unfold with_defaults;
  match goal with
  | |- context [declared_defaults ?t] =>
      let d := eval vm_compute in (declared_defaults t) in
      change (declared_defaults t) with d
  end;
  cbn [List.fold_right fst snd Catalogue.name];
  unfold call_tool; rewrite !dispatch_of_route.

(** The defaults the schemas declare are the defaults the code applies:
    for every declared tool, a call that omits optional arguments does
    exactly what the call completed with the declared defaults does, down
    to the processes started and the text returned. *)
Theorem declared_defaults_are_applied (w : World) (self : t) (tool : Tool)
    (args : gmap string pyval) :
  In tool list_tools ->
  call_tool w self (Catalogue.name tool) (with_defaults tool args)
  = call_tool w self (Catalogue.name tool) args.
Proof.
  intros Hin. unfold list_tools in Hin. cbn [In] in Hin.
  repeat (destruct Hin as [<-|Hin]); [..|destruct Hin]; declared.
  - do 2 route_to (CoreTools._compile w (core_tools self)).
    unfold CoreTools._compile. defaults_agree.
  - do 2 route_to (CoreTools._validate w (core_tools self)).
    unfold CoreTools._validate. defaults_agree.
  - do 2 route_to (CoreTools._trace_analysis w (core_tools self)).
    unfold CoreTools._trace_analysis. defaults_agree.
  - do 2 route_to (CoreTools._export_diagram w (core_tools self)).
    unfold CoreTools._export_diagram. defaults_agree.
  - do 2 route_to (CoreTools._info w (core_tools self)).
    unfold CoreTools._info. defaults_agree.
  - do 2 route_to (GenerationTools._generate_requirement w (generation_tools self)).
    unfold GenerationTools._generate_requirement. defaults_agree.
  - do 2 route_to (GenerationTools._generate_component w (generation_tools self)).
    unfold GenerationTools._generate_component. defaults_agree.
  - reflexivity.
  - do 2 route_to (SafetyTools._safety_check w (safety_tools self)).
    unfold SafetyTools._safety_check. defaults_agree.
  - do 2 route_to (SafetyTools._hazard_analysis w (safety_tools self)).
    unfold SafetyTools._hazard_analysis. defaults_agree.
  - reflexivity.
Qed.

Lemma declared_defaults_are_applied_witness :
  call_tool partial_world (Sample.server partial_world VNone) "arclang_trace_analysis"
    (add_default "show_gaps" (VBool true) (add_default "matrix" (VBool false) brake_model))
  = call_tool partial_world (Sample.server partial_world VNone) "arclang_trace_analysis"
      brake_model.
Proof.
  apply (declared_defaults_are_applied partial_world (Sample.server partial_world VNone)
           (List.nth 2 list_tools (List.hd
              {| Catalogue.name := EmptyString; description := EmptyString;
                 inputSchema := VNone |} list_tools))
           brake_model).
  vm_compute. tauto.
Defined.

(** A resource can be read exactly when [list_resources] announces it: the
    announced address gives the syntax rules, any other address raises
    [ValueError] with that address in the message. *)
Theorem listed_resources_are_the_readable_ones (address : string) :
  (In address (List.map uri list_resources) -> read_resource address = Ok get_syntax_rules)
  /\ (~ In address (List.map uri list_resources) ->
      read_resource address = Raise (ValueError ("Unknown resource: " ++ address))).
Proof.
  unfold read_resource, list_resources. cbn [List.map uri In].
  destruct (String.eqb_spec address "arclang://syntax-rules") as [->|Hne]; split.
  - reflexivity.
  - intros H. exfalso. apply H. left. reflexivity.
  - intros [H|[]]. exfalso. apply Hne. symmetry. exact H.
  - reflexivity.
Qed.

Lemma listed_resources_are_the_readable_ones_witness :
  read_resource "arclang://examples"
  = Raise (ValueError "Unknown resource: arclang://examples").
Proof.
  apply (proj2 (listed_resources_are_the_readable_ones "arclang://examples")).
  cbn. intuition discriminate.
Defined.

End DeclaredTools.

(** ** Declared tools called without arguments *)

Section RequiredArguments.

Import Catalogue ArcLangMCPServer.

(** Every declared tool is served, and reads a required argument first:
    called without any argument, it answers with the [KeyError] of the
    first argument its schema requires, before any outside call. *)
Theorem declared_tools_read_a_required_argument_first (w : World) (self : t) (tool : Tool) :
  In tool list_tools ->
  In (Catalogue.name tool, declared_required tool) catalogue
  /\ exists k,
       List.head (declared_required tool) = Some k
       /\ call_tool w self (Catalogue.name tool) ∅ = refused (Catalogue.name tool) (KeyError k).
Proof.
  intros Hin. unfold list_tools in Hin. cbn [In] in Hin.
  repeat (destruct Hin as [<-|Hin]); [..|destruct Hin];
    (split; [vm_compute; tauto|]);
    eexists; (split; [reflexivity|]);
    unfold call_tool; rewrite dispatch_of_route; reflexivity.
Qed.

Lemma declared_tools_read_a_required_argument_first_witness :
  exists k,
    List.head ["base_path"; "ours_path"; "theirs_path"] = Some k
    /\ call_tool offline (Sample.server offline VNone) "arclang_git_merge" ∅
       = refused "arclang_git_merge" (KeyError k).
Proof.
  apply (declared_tools_read_a_required_argument_first offline
           (Sample.server offline VNone)
           (List.last list_tools
              {| Catalogue.name := EmptyString; description := EmptyString;
                 inputSchema := VNone |})).
  vm_compute. tauto.
Defined.

End RequiredArguments.

(** ** The layout of the diagram *)

Section Diagram.

Import GenerateSvg.

(** The grid of the drawing: two requirement boxes never overlap, nor do
    two component boxes; but the requirement grid grows down into the
    component grid: a requirement box is clear of every component box
    exactly when it is one of the first eight. *)
Theorem boxes_of_the_diagram (i : Z) :
  0 <= i ->
  (forall j, 0 <= j -> i <> j -> apart (requirement_box i) (requirement_box j))
  /\ (forall j, 0 <= j -> i <> j -> apart (component_box i) (component_box j))
  /\ ((forall j, 0 <= j -> apart (requirement_box i) (component_box j)) <-> i < 8).
Proof.
  intros Hi. unfold apart, requirement_box, component_box, requirement_x, requirement_y,
    component_x, component_y, req_x_start, req_y, req_width, req_height, req_spacing,
    comp_x_start, comp_y, comp_width, comp_height, comp_spacing.
  cbn [left top box_width box_height]. split; [|split].
  - intros j Hj Hne. Z.div_mod_to_equations. lia.
  - intros j Hj Hne. Z.div_mod_to_equations. lia.
  - split.
    + intros H. destruct (Z.lt_ge_cases i 8) as [Hlt|Hge]; [exact Hlt|exfalso].
      specialize (H (5 * ((80 * (i / 2) - 261) / 100) + 2 * (i mod 2))).
      revert H. Z.div_mod_to_equations. lia.
    + intros Hlt j Hj. Z.div_mod_to_equations. lia.
Qed.

Lemma boxes_of_the_diagram_witness :
  (forall j, 0 <= j -> 8 <> j -> apart (requirement_box 8) (requirement_box j))
  /\ (forall j, 0 <= j -> 8 <> j -> apart (component_box 8) (component_box j))
  /\ ((forall j, 0 <= j -> apart (requirement_box 8) (component_box j)) <-> 8 < 8).
Proof. apply (boxes_of_the_diagram 8). lia. Defined.

Lemma chars_group_app (u : string) : forall (c : ascii) (t : string),
  all_chars PyStr.is_continuation u = true ->
  PyStr.continues t = false ->
  PyStr.chars (String c u ++ t) = String c u :: PyStr.chars t.
Proof.
  induction u as [|c' u' IH]; intros c t Hu Ht.
  - change (String c EmptyString ++ t) with (String c t). cbn [PyStr.chars].
    rewrite Ht. reflexivity.
  - cbn [all_chars] in Hu. apply andb_prop in Hu as [Hc' Hu'].
    change (String c (String c' u') ++ t) with (String c (String c' u' ++ t)).
    cbn [PyStr.chars].
    change (PyStr.continues (String c' u' ++ t)) with (PyStr.is_continuation c').
    rewrite Hc', (IH c' t Hu' Ht). reflexivity.
Qed.

Lemma continues_concat (cs : list string) :
  grouped_tail cs = true -> PyStr.continues (PyStr.concat cs) = false.
Proof.
  destruct cs as [|ch rest]; [reflexivity|]. cbn [grouped_tail].
  intros H. apply andb_prop in H as [H _]. apply andb_prop in H as [Hg Hc].
  apply negb_true_iff in Hc. destruct ch as [|c u]; [discriminate Hg|]. exact Hc.
Qed.

Lemma chars_of_tail (cs : list string) :
  grouped_tail cs = true -> PyStr.chars (PyStr.concat cs) = cs.
Proof.
  induction cs as [|ch rest IH]; [reflexivity|]. intros H.
  pose proof H as H'. cbn [grouped_tail] in H'.
  apply andb_prop in H' as [H' Hrest]. apply andb_prop in H' as [Hg _].
  destruct ch as [|c u]; [discriminate Hg|].
  change (PyStr.concat (String c u :: rest)) with (String c u ++ PyStr.concat rest).
  rewrite (chars_group_app u c _ Hg (continues_concat rest Hrest)), (IH Hrest).
  reflexivity.
Qed.

Lemma chars_of_concat (cs : list string) :
  grouped cs = true -> PyStr.chars (PyStr.concat cs) = cs.
Proof.
  destruct cs as [|ch rest]; [reflexivity|]. cbn [grouped]. intros H.
  apply andb_prop in H as [Hg Hrest]. destruct ch as [|c u]; [discriminate Hg|].
  change (PyStr.concat (String c u :: rest)) with (String c u ++ PyStr.concat rest).
  rewrite (chars_group_app u c _ Hg (continues_concat rest Hrest)), (chars_of_tail rest Hrest).
  reflexivity.
Qed.

Lemma chars_grouped (s : string) : grouped (PyStr.chars s) = true.
Proof.
  induction s as [|c t IH]; [reflexivity|]. cbn [PyStr.chars].
  destruct (PyStr.continues t) eqn:Hc.
  - destruct (PyStr.chars t) as [|g rest] eqn:Hg; [reflexivity|].
    cbn [grouped is_group] in *. apply andb_prop in IH as [Hgroup Hrest].
    rewrite Hrest, andb_true_r.
    destruct g as [|c' u]; [discriminate Hgroup|]. cbn [all_chars].
    cbn [is_group] in Hgroup. rewrite Hgroup, andb_true_r.
    assert (Ht : t = PyStr.concat (String c' u :: rest))
      by (rewrite <- Hg; symmetry; apply concat_chars).
    rewrite Ht in Hc. exact Hc.
  - cbn [grouped is_group all_chars]. destruct (PyStr.chars t) as [|g rest] eqn:Hg;
      [reflexivity|].
    cbn [grouped grouped_tail] in *. apply andb_prop in IH as [Hgroup Hrest].
    rewrite Hgroup, Hrest, andb_true_r. cbn [andb].
    assert (Ht : t = PyStr.concat (g :: rest))
      by (rewrite <- Hg; symmetry; apply concat_chars).
    destruct g as [|c' u]; [discriminate Hgroup|].
    rewrite Ht in Hc. apply negb_true_iff. exact Hc.
Qed.

Lemma grouped_tail_firstn (n : nat) : forall cs,
  grouped_tail cs = true -> grouped_tail (List.firstn n cs) = true.
Proof.
  induction n as [|n IH]; intros [|ch rest] H; try reflexivity.
  cbn [List.firstn grouped_tail] in *. apply andb_prop in H as [H Hrest].
  rewrite H, (IH rest Hrest). reflexivity.
Qed.

Lemma grouped_firstn (n : nat) (cs : list string) :
  grouped cs = true -> grouped (List.firstn n cs) = true.
Proof.
  destruct n as [|n]; [reflexivity|]. destruct cs as [|ch rest]; [reflexivity|].
  cbn [List.firstn grouped]. intros H. apply andb_prop in H as [H Hrest].
  rewrite H, (grouped_tail_firstn n rest Hrest). reflexivity.
Qed.

Lemma grouped_app (cs more : list string) :
  grouped cs = true -> grouped_tail more = true -> grouped (cs ++ more)%list = true.
Proof.
  destruct cs as [|ch rest]; cbn [app grouped].
  - intros _ H. destruct more as [|m ms]; [reflexivity|]. cbn [grouped grouped_tail] in *.
    apply andb_prop in H as [H Hms]. apply andb_prop in H as [Hg _].
    rewrite Hg, Hms. reflexivity.
  - intros H Hmore. apply andb_prop in H as [Hg Hrest]. rewrite Hg. cbn [andb].
    induction rest as [|r rs IH]; [exact Hmore|].
    cbn [app grouped_tail] in *. apply andb_prop in Hrest as [Hr Hrs].
    rewrite Hr, (IH Hrs). reflexivity.
Qed.

Lemma concat_app (cs more : list string) :
  PyStr.concat (cs ++ more)%list = PyStr.concat cs ++ PyStr.concat more.
Proof.
  induction cs as [|ch rest IH]; [reflexivity|].
  change (ch ++ PyStr.concat (rest ++ more)%list = (ch ++ PyStr.concat rest) ++ PyStr.concat more).
  rewrite IH, append_assoc_s. reflexivity.
Qed.

(** [s[:n]] has [n] characters when [s] has as many, and begins [s]. *)
Lemma take_length (n : nat) (s : string) :
  (n <= PyStr.len s)%nat -> PyStr.len (PyStr.take n s) = n.
Proof.
  unfold PyStr.len, PyStr.take. intros H.
  rewrite (chars_of_concat _ (grouped_firstn n _ (chars_grouped s))).
  rewrite List.length_firstn. lia.
Qed.

Lemma take_prefix (n : nat) (s : string) : String.prefix (PyStr.take n s) s = true.
Proof.
  unfold PyStr.take.
  rewrite <- (concat_chars s) at 2.
  rewrite <- (List.firstn_skipn n (PyStr.chars s)) at 2.
  rewrite concat_app. apply prefix_append.
Qed.

Lemma take_then_dots (n : nat) (s : string) :
  PyStr.len (PyStr.take n s ++ "...") = (PyStr.len (PyStr.take n s) + 3)%nat.
Proof.
  unfold PyStr.len, PyStr.take.
  rewrite (chars_of_concat _ (grouped_firstn n _ (chars_grouped s))).
  change "..." with (PyStr.concat ["."; "."; "."]). rewrite <- concat_app.
  rewrite chars_of_concat
    by (apply grouped_app; [apply grouped_firstn, chars_grouped|reflexivity]).
  rewrite List.length_app. reflexivity.
Qed.

(** The description shown in a requirement box has at most 40 characters:
    one of up to 40 characters is shown as it is, a longer one is cut to
    its first 37 characters followed by three dots. *)
Theorem shown_description_is_cut_at_40 (req : Element) :
  (PyStr.len (shown_description req) <= 40)%nat
  /\ ((PyStr.len (description_of req) <= 40)%nat ->
      shown_description req = description_of req)
  /\ ((40 < PyStr.len (description_of req))%nat ->
      exists kept,
        shown_description req = kept ++ "..."
        /\ PyStr.len kept = 37%nat
        /\ String.prefix kept (description_of req) = true).
Proof.
  unfold shown_description, description_of.
  destruct (40 <? Z.of_nat (PyStr.len (default EmptyString (get req "description"))))
    eqn:Hlong.
  - apply Z.ltb_lt in Hlong.
    assert (Hkept : PyStr.len (PyStr.take 37 (default EmptyString (get req "description")))
                    = 37%nat) by (apply take_length; lia).
    split; [|split].
    + rewrite take_then_dots, Hkept. cbn. lia.
    + intros H. lia.
    + intros _. eexists. split; [reflexivity|]. split; [exact Hkept|].
      apply take_prefix.
  - apply Z.ltb_ge in Hlong. split; [lia|]. split; [reflexivity|]. intros H. lia.
Qed.

Lemma shown_description_is_cut_at_40_witness :
  exists kept,
    shown_description long_requirement = kept ++ "..."
    /\ PyStr.len kept = 37%nat
    /\ String.prefix kept (description_of long_requirement) = true.
Proof.
  apply (proj2 (proj2 (shown_description_is_cut_at_40 long_requirement))).
  vm_compute. lia.
Defined.

(** A description of 40 characters is shown whole even when it takes more
    than 40 bytes. *)
Lemma accented_description_is_shown_whole :
  PyStr.len accented_description = 40%nat
  /\ String.length accented_description = 45%nat
  /\ shown_description [("description", accented_description)] = accented_description.
Proof. repeat split; vm_compute; reflexivity. Qed.

End Diagram.
